(** * llvmcpy: toolchain resolution, wrapper caching and library synthesis

    A shallow embedding of [src/llvmcpy/__init__.py] (class [LLVMCPy]) and
    of the parts of the Python runtime it calls, followed by the properties
    of the resolution / caching / loading pipeline.

    Conventions of the embedding.
    - A Python [str] is a [string] holding its UTF-8 bytes, so that
      [s.encode("utf-8")] is the identity and a [bytes] object is a [string]
      as well.
    - [os], [os.path], [shutil.which] and [pathlib] are modelled in their
      POSIX flavour ([os.sep = "/"], [os.pathsep = ":"]).
    - Everything outside the process (environment variables, the file table,
      what a subprocess prints and writes, the binding generator, the code
      inside a generated artifact) is a field of the record [world] or of the
      mutable [state]; the methods of [LLVMCPy] are functions in a state and
      exception monad over them. *)

From Stdlib Require Import ZArith List String Ascii.
From stdpp Require Import base gmap strings list.

Local Open Scope string_scope.
Local Open Scope list_scope.

(** ** Python [str] methods used by the source *)

Module PyStr.

(** [s.split(sep)] for a one-character separator: every occurrence of
    [sep] cuts, so consecutive separators give empty fields and
    ["".split(" ") == [""]]. *)
Fixpoint split (sep : ascii) (s : string) : list string :=
  match s with
  | EmptyString => [EmptyString]
  | String c s' =>
      if Ascii.eqb c sep then EmptyString :: split sep s'
      else match split sep s' with
           | w :: ws => String c w :: ws
           | [] => [String c EmptyString]
           end
  end.

(** [sep.join(l)]. *)
Fixpoint join (sep : string) (l : list string) : string :=
  match l with
  | [] => EmptyString
  | [x] => x
  | x :: l' => x +:+ sep +:+ join sep l'
  end.

(** [c in s] for a character. *)
Fixpoint contains (c : ascii) (s : string) : bool :=
  match s with
  | EmptyString => false
  | String d s' => Ascii.eqb c d || contains c s'
  end.

(** [str.isspace] on the ASCII range: TAB, LF, VT, FF, CR, FS, GS, RS, US
    and the space.  Bytes of multi-byte UTF-8 sequences are never
    whitespace here. *)
Definition isspace (c : ascii) : bool :=
  match c with
  | "009" | "010" | "011" | "012" | "013"
  | "028" | "029" | "030" | "031" | " " => true
  | _ => false
  end%char.

Fixpoint lstrip_with (p : ascii -> bool) (s : string) : string :=
  match s with
  | EmptyString => EmptyString
  | String c s' => if p c then lstrip_with p s' else s
  end.

Fixpoint rstrip_with (p : ascii -> bool) (s : string) : string :=
  match s with
  | EmptyString => EmptyString
  | String c s' =>
      match rstrip_with p s' with
      | EmptyString => if p c then EmptyString else String c EmptyString
      | r => String c r
      end
  end.

(** [s.strip()]. *)
Definition strip (s : string) : string :=
  rstrip_with isspace (lstrip_with isspace s).

(** [s.startswith(p)] and [s.endswith(p)]. *)
Definition startswith (p s : string) : bool := String.prefix p s.

Definition endswith (p s : string) : bool :=
  String.prefix (String.rev p) (String.rev s).

End PyStr.

(** ** [hashlib.sha256] (FIPS 180-4) *)

Module Sha256.
Local Open Scope Z_scope.

Definition w32 (x : Z) : Z := x mod 2 ^ 32.
Definition add32 (x y : Z) : Z := w32 (x + y).
Definition rotr (n x : Z) : Z :=
  Z.lor (Z.shiftr x n) (w32 (Z.shiftl x (32 - n))).
Definition not32 (x : Z) : Z := Z.lxor x 0xffffffff.

Definition Ch (x y z : Z) : Z := Z.lxor (Z.land x y) (Z.land (not32 x) z).
Definition Maj (x y z : Z) : Z :=
  Z.lxor (Z.lxor (Z.land x y) (Z.land x z)) (Z.land y z).
Definition Sigma0 (x : Z) : Z :=
  Z.lxor (Z.lxor (rotr 2 x) (rotr 13 x)) (rotr 22 x).
Definition Sigma1 (x : Z) : Z :=
  Z.lxor (Z.lxor (rotr 6 x) (rotr 11 x)) (rotr 25 x).
Definition sigma0 (x : Z) : Z :=
  Z.lxor (Z.lxor (rotr 7 x) (rotr 18 x)) (Z.shiftr x 3).
Definition sigma1 (x : Z) : Z :=
  Z.lxor (Z.lxor (rotr 17 x) (rotr 19 x)) (Z.shiftr x 10).

(** The first [n] primes, by trial division. *)
Definition is_prime (p : Z) : bool :=
  forallb (fun d => negb (p mod d =? 0)) (map Z.of_nat (seq 2 (Z.to_nat p - 2))).

Fixpoint primes_from (fuel n : nat) (p : Z) : list Z :=
  match fuel, n with
  | S fuel', S n' =>
      if is_prime p then p :: primes_from fuel' n' (p + 1)
      else primes_from fuel' n (p + 1)
  | _, _ => []
  end.

Definition first_primes (n : nat) : list Z := primes_from 400 n 2.

(** The integer cube root, one bit at a time from bit [bits - 1] down. *)
Fixpoint cbrt_bits (bits : nat) (x r : Z) : Z :=
  match bits with
  | O => r
  | S b =>
      let r' := r + 2 ^ Z.of_nat b in
      cbrt_bits b x (if r' * r' * r' <=? x then r' else r)
  end.

(** The first 32 bits of the fractional part of the cube root, and of the
    square root, of [p]. *)
Definition frac_cbrt (p : Z) : Z := w32 (cbrt_bits 40 (p * 2 ^ 96) 0).
Definition frac_sqrt (p : Z) : Z := w32 (Z.sqrt (p * 2 ^ 64)).

(** The round constants: from the cube roots of the first 64 primes. *)
Definition K : list Z := Eval vm_compute in map frac_cbrt (first_primes 64).

(** The eight working variables / the chaining value. *)
Record regs := Regs { ra : Z; rb : Z; rc : Z; rd : Z;
                      re : Z; rf : Z; rg : Z; rh : Z }.

(** The initial value: from the square roots of the first 8 primes. *)
Definition H0 : regs :=
  Eval vm_compute in
    match map frac_sqrt (first_primes 8) with
    | [a; b; c; d; e; f; g; h] => Regs a b c d e f g h
    | _ => Regs 0 0 0 0 0 0 0 0
    end.

Definition bytes_of (s : string) : list Z :=
  map (fun c => Z.of_N (N_of_ascii c)) (list_ascii_of_string s).

(** Big-endian bytes of the low [8 * n] bits of [x]. *)
Fixpoint be_bytes (n : nat) (x : Z) : list Z :=
  match n with
  | O => []
  | S n' => be_bytes n' (Z.shiftr x 8) ++ [x mod 256]
  end.

(** Padding: a 1 bit, zeros up to 56 mod 64 bytes, the bit length on 64
    bits. *)
Definition pad (msg : list Z) : list Z :=
  let len := Z.of_nat (length msg) in
  let k := Z.to_nat ((55 - len) mod 64) in
  msg ++ [0x80] ++ repeat 0 k ++ be_bytes 8 (8 * len).

Fixpoint be_words (fuel : nat) (bs : list Z) : list Z :=
  match fuel, bs with
  | S fuel', b0 :: b1 :: b2 :: b3 :: bs' =>
      (((b0 * 256 + b1) * 256 + b2) * 256 + b3) :: be_words fuel' bs'
  | _, _ => []
  end.

(** Message schedule: [n] further words appended to [w]. *)
Fixpoint schedule (n : nat) (w : list Z) : list Z :=
  match n with
  | O => w
  | S n' =>
      let t := length w in
      let x := add32 (add32 (sigma1 (nth (t - 2) w 0)) (nth (t - 7) w 0))
                     (add32 (sigma0 (nth (t - 15) w 0)) (nth (t - 16) w 0)) in
      schedule n' (w ++ [x])
  end.

Definition round (r : regs) (kw : Z * Z) : regs :=
  let t1 := add32 (add32 (add32 (rh r) (Sigma1 (re r)))
                         (add32 (Ch (re r) (rf r) (rg r)) (fst kw)))
                  (snd kw) in
  let t2 := add32 (Sigma0 (ra r)) (Maj (ra r) (rb r) (rc r)) in
  Regs (add32 t1 t2) (ra r) (rb r) (rc r) (add32 (rd r) t1) (re r) (rf r) (rg r).

Definition compress (h : regs) (block : list Z) : regs :=
  let w := schedule 48 (be_words 16 block) in
  let r := fold_left round (combine K w) h in
  Regs (add32 (ra h) (ra r)) (add32 (rb h) (rb r))
       (add32 (rc h) (rc r)) (add32 (rd h) (rd r))
       (add32 (re h) (re r)) (add32 (rf h) (rf r))
       (add32 (rg h) (rg r)) (add32 (rh h) (rh r)).

Fixpoint blocks (fuel : nat) (h : regs) (bs : list Z) : regs :=
  match fuel, bs with
  | S fuel', _ :: _ => blocks fuel' (compress h (firstn 64 bs)) (skipn 64 bs)
  | _, _ => h
  end.

Definition digest (msg : list Z) : regs :=
  let p := pad msg in blocks (length p) H0 p.

Definition hexdigit (x : Z) : ascii :=
  match x mod 16 with
  | 0 => "0" | 1 => "1" | 2 => "2" | 3 => "3" | 4 => "4" | 5 => "5"
  | 6 => "6" | 7 => "7" | 8 => "8" | 9 => "9" | 10 => "a" | 11 => "b"
  | 12 => "c" | 13 => "d" | 14 => "e" | _ => "f"
  end%char.

Definition hex32 (x : Z) (rest : string) : string :=
  String (hexdigit (Z.shiftr x 28)) (String (hexdigit (Z.shiftr x 24))
 (String (hexdigit (Z.shiftr x 20)) (String (hexdigit (Z.shiftr x 16))
 (String (hexdigit (Z.shiftr x 12)) (String (hexdigit (Z.shiftr x 8))
 (String (hexdigit (Z.shiftr x 4)) (String (hexdigit x) rest))))))).

Definition hex_of_regs (r : regs) : string :=
  hex32 (ra r) (hex32 (rb r) (hex32 (rc r) (hex32 (rd r)
 (hex32 (re r) (hex32 (rf r) (hex32 (rg r) (hex32 (rh r) EmptyString))))))).

(** The [hashlib] object: [sha256()] starts empty, [update] appends,
    [hexdigest] hashes what was fed so far. *)
Definition t := string.
Definition new : t := EmptyString.
Definition update (h : t) (data : string) : t := h +:+ data.
Definition hexdigest (h : t) : string := hex_of_regs (digest (bytes_of h)).

End Sha256.

(** ** [shlex.split] (POSIX mode, [whitespace_split], no comments) *)

Module Shlex.

(** The state of [shlex.read_token]: [' '], ['a'], inside a quote, or
    after the escape character ([escapedstate] is ['a'], here [None], or
    the quote the escape was met in). *)
Inductive lstate :=
| SSpace
| SWord
| SQuote (q : ascii)
| SEscape (escapedstate : option ascii).

Definition is_whitespace (c : ascii) : bool :=
  match c with
  | " " | "009" | "013" | "010" => true
  | _ => false
  end%char.

Definition is_quote (c : ascii) : bool :=
  match c with
  | "'" | "034" => true
  | _ => false
  end%char.

Definition is_escape (c : ascii) : bool := Ascii.eqb c "\"%char.

(** Only the double quote is in [escapedquotes]. *)
Definition is_escapedquote (c : ascii) : bool := Ascii.eqb c "034"%char.

Definition push (tok : string) (c : ascii) : string :=
  tok +:+ String c EmptyString.

(** All the tokens of [s]; [inl msg] is the [ValueError] raised on an
    unterminated quotation or a trailing escape character. *)
Fixpoint tokens (st : lstate) (tok : string) (s : string)
  : string + list string :=
  match s with
  | EmptyString =>
      match st with
      | SSpace => inr []
      | SWord => inr [tok]
      | SQuote _ => inl "No closing quotation"
      | SEscape _ => inl "No escaped character"
      end
  | String c s' =>
      match st with
      | SSpace =>
          if is_whitespace c then tokens SSpace EmptyString s'
          else if is_escape c then tokens (SEscape None) EmptyString s'
          else if is_quote c then tokens (SQuote c) EmptyString s'
          else tokens SWord (String c EmptyString) s'
      | SWord =>
          if is_whitespace c then
            match tokens SSpace EmptyString s' with
            | inr l => inr (tok :: l)
            | inl e => inl e
            end
          else if is_quote c then tokens (SQuote c) tok s'
          else if is_escape c then tokens (SEscape None) tok s'
          else tokens SWord (push tok c) s'
      | SQuote q =>
          if Ascii.eqb c q then tokens SWord tok s'
          else if is_escape c && is_escapedquote q
               then tokens (SEscape (Some q)) tok s'
          else tokens (SQuote q) (push tok c) s'
      | SEscape None => tokens SWord (push tok c) s'
      | SEscape (Some q) =>
          if negb (is_escape c) && negb (Ascii.eqb c q)
          then tokens (SQuote q) (push (push tok "\"%char) c) s'
          else tokens (SQuote q) (push tok c) s'
      end
  end.

Definition split (s : string) : string + list string :=
  tokens SSpace EmptyString s.

End Shlex.

(** ** [pathlib] (pure POSIX paths) *)

Module Pathlib.

(** A parsed path: the root (["/"], ["//"] or [""]) and the components
    below it, with empty and ["."] components dropped. *)
Record Path := MkPath { root : string; parts : list string }.

#[global] Instance Path_eq_dec : EqDecision Path.
Proof. solve_decision. Defined.

Definition splitroot (s : string) : string :=
  if PyStr.startswith "/" s then
    if PyStr.startswith "//" s && negb (PyStr.startswith "///" s)
    then "//" else "/"
  else "".

Definition is_part (x : string) : bool :=
  negb (String.eqb x "") && negb (String.eqb x ".").

(** [Path(s)]. *)
Definition of_str (s : string) : Path :=
  MkPath (splitroot s) (List.filter is_part (PyStr.split "/" s)).

(** [str(p)]. *)
Definition str (p : Path) : string :=
  match parts p with
  | [] => if String.eqb (root p) "" then "." else root p
  | _ => root p +:+ PyStr.join "/" (parts p)
  end.

(** [p / s]: an absolute right operand replaces the left one. *)
Definition joinpath (p : Path) (s : string) : Path :=
  let q := of_str s in
  if String.eqb (root q) "" then MkPath (root p) (parts p ++ parts q)
  else q.

(** [p.name]: the final component, [""] when there is none. *)
Definition name (p : Path) : string := List.last (parts p) "".

(** [p.parent]. *)
Definition parent (p : Path) : Path :=
  MkPath (root p) (List.removelast (parts p)).

(** [p.suffixes] (CPython 3.8 to 3.12): no suffix for a name ending in a
    dot; leading dots do not start a suffix. *)
Definition suffixes (p : Path) : list string :=
  let n := name p in
  if PyStr.endswith "." n then []
  else
    let n := PyStr.lstrip_with (Ascii.eqb ".") n in
    map (fun x => "." +:+ x) (List.tl (PyStr.split "." n)).

End Pathlib.

Abbreviation Path := Pathlib.Path.
Infix "//" := Pathlib.joinpath (at level 40, left associativity).

(** ** The file table, [os.path], [shutil.which], [Path.glob], [Path.mkdir] *)

Module OS.

(** What a path leads to once symbolic links are followed; [FDangling]
    is a symbolic link whose target is missing. *)
Inductive ftype :=
| FReg (content : string)
| FDir
| FOther
| FDangling.

(** One entry of the file table: its type through links, whether the
    entry itself is a symbolic link, and whether [os.access(_, X_OK)]
    holds. *)
Record dirent := Dirent { d_type : ftype; d_symlink : bool; d_exec : bool }.

Definition regular (content : string) : dirent := Dirent (FReg content) false false.
Definition directory : dirent := Dirent FDir false true.

(** The file table, keyed by the path string handed to the system. *)
Abbreviation FS := (gmap string dirent).

Definition is_reg (t : ftype) : bool :=
  match t with FReg _ => true | _ => false end.
Definition is_dirtype (t : ftype) : bool :=
  match t with FDir => true | _ => false end.
Definition is_dangling (t : ftype) : bool :=
  match t with FDangling => true | _ => false end.

(** What the system finds under a path string.  The empty string names
    nothing; a string that ends in a slash names a directory or
    nothing. *)
Definition lookup (fs : FS) (fn : string) : option dirent :=
  if String.eqb fn "" then None
  else if PyStr.endswith "/" fn then
    match PyStr.rstrip_with (Ascii.eqb "/") fn with
    | EmptyString => Some directory
    | dir =>
        match fs !! dir with
        | Some e => if is_dirtype (d_type e) then Some e else None
        | None => None
        end
    end
  else fs !! fn.

(** [os.path.exists], [os.path.isdir], [os.access(fn, F_OK | X_OK)]. *)
Definition path_exists (fs : FS) (fn : string) : bool :=
  match lookup fs fn with
  | Some e => negb (is_dangling (d_type e))
  | None => false
  end.

Definition path_isdir (fs : FS) (fn : string) : bool :=
  match lookup fs fn with
  | Some e => is_dirtype (d_type e)
  | None => false
  end.

Definition access (fs : FS) (fn : string) : bool :=
  match lookup fs fn with
  | Some e => negb (is_dangling (d_type e)) && d_exec e
  | None => false
  end.

(** [posixpath.join(a, b)]. *)
Definition path_join (a b : string) : string :=
  if PyStr.startswith "/" b then b
  else if String.eqb a "" || PyStr.endswith "/" a then a +:+ b
  else a +:+ "/" +:+ b.

(** [shutil._access_check]. *)
Definition _access_check (fs : FS) (fn : string) : bool :=
  path_exists fs fn && access fs fn && negb (path_isdir fs fn).

Fixpoint which_in (fs : FS) (cmd : string) (dirs : list string) : option string :=
  match dirs with
  | [] => None
  | dir :: rest =>
      let name := path_join dir cmd in
      if _access_check fs name then Some name else which_in fs cmd rest
  end.

(** [shutil.which(cmd, path=path)]: a command with a directory part is
    checked as it is; otherwise an empty [path] finds nothing and each
    directory of [path] is tried in order.  (The [seen] set of the
    library only skips directories that were already tried.) *)
Definition which (fs : FS) (cmd : string) (path : string) : option string :=
  if PyStr.contains "/" cmd then
    if _access_check fs cmd then Some cmd else None
  else if String.eqb path "" then None
  else which_in fs cmd (PyStr.split ":" path).

(** [fnmatch] for patterns made of literal characters, [*] and [?]. *)
Fixpoint fnmatch (pat : string) (s : string) : bool :=
  match pat with
  | EmptyString => String.eqb s ""
  | String "*" pat' =>
      (fix star (s : string) : bool :=
         fnmatch pat' s ||
         match s with
         | EmptyString => false
         | String _ s' => star s'
         end) s
  | String "?" pat' =>
      match s with
      | EmptyString => false
      | String _ s' => fnmatch pat' s'
      end
  | String c pat' =>
      match s with
      | EmptyString => false
      | String d s' => Ascii.eqb c d && fnmatch pat' s'
      end
  end.

(** The table entry of a path; the root and the current directory are
    directories that always exist. *)
Definition stat (fs : FS) (p : Path) : option dirent :=
  match Pathlib.parts p with
  | [] => Some directory
  | _ => fs !! Pathlib.str p
  end.

(** [p.exists()], [p.is_file()], [p.is_dir()], [p.is_symlink()]. *)
Definition exists_ (fs : FS) (p : Path) : bool :=
  match stat fs p with
  | Some e => negb (is_dangling (d_type e))
  | None => false
  end.

Definition is_file (fs : FS) (p : Path) : bool :=
  match stat fs p with
  | Some e => is_reg (d_type e)
  | None => false
  end.

Definition is_dir (fs : FS) (p : Path) : bool :=
  match stat fs p with
  | Some e => is_dirtype (d_type e)
  | None => false
  end.

Definition is_symlink (fs : FS) (p : Path) : bool :=
  match stat fs p with
  | Some e => d_symlink e
  | None => false
  end.

(** The entries directly inside directory [d]. *)
Definition scandir (fs : FS) (d : Path) : list Path :=
  List.filter
    (fun p => bool_decide (Pathlib.parts p <> [] /\ Pathlib.parent p = d))
    (map Pathlib.of_str
       (List.filter (fun k => String.eqb (Pathlib.str (Pathlib.of_str k)) k)
                    (map fst (map_to_list fs)))).

(** [d.glob(pattern)] for a one-component pattern: nothing unless [d] is
    a directory, else the entries of [d] whose name matches. *)
Definition glob (fs : FS) (d : Path) (pattern : string) : list Path :=
  if is_dir fs d
  then List.filter (fun p => fnmatch pattern (Pathlib.name p)) (scandir fs d)
  else [].

(** The [OSError]s of [os.mkdir]. *)
Inductive mkdir_error := FileExistsError | FileNotFoundError | NotADirectoryError.

(** [os.mkdir(p)]. *)
Definition os_mkdir (fs : FS) (p : Path) : mkdir_error + FS :=
  match stat fs p with
  | Some _ => inl FileExistsError
  | None =>
      match stat fs (Pathlib.parent p) with
      | None => inl FileNotFoundError
      | Some e =>
          if is_dirtype (d_type e)
          then inr (<[Pathlib.str p := directory]> fs)
          else inl NotADirectoryError
      end
  end.

(** [p.mkdir(parents=True, exist_ok=True)]: [fuel] bounds the walk up
    the missing ancestors. *)
Fixpoint mkdir_parents (fuel : nat) (fs : FS) (p : Path) : mkdir_error + FS :=
  match os_mkdir fs p with
  | inr fs' => inr fs'
  | inl FileNotFoundError =>
      match fuel with
      | O => inl FileNotFoundError
      | S fuel' =>
          if bool_decide (Pathlib.parent p = p) then inl FileNotFoundError
          else
            match mkdir_parents fuel' fs (Pathlib.parent p) with
            | inl e => inl e
            | inr fs1 =>
                match os_mkdir fs1 p with
                | inr fs2 => inr fs2
                | inl e => if is_dir fs1 p then inr fs1 else inl e
                end
            end
      end
  | inl e => if is_dir fs p then inr fs else inl e
  end.

Definition mkdir (fs : FS) (p : Path) : mkdir_error + FS :=
  mkdir_parents (length (Pathlib.parts p)) fs p.

End OS.

(** ** The process and its surroundings *)

(** The exceptions that leave the constructor. *)
Inductive exn :=
| RuntimeError (msg : string)
| ValueError (msg : string)
| AssertionError
| AttributeError (attr : string)
| CalledProcessError (returncode : Z) (cmd : list string)
| OSError (what : string)
| PackageNotFoundError (name : string)
| ForeignError (what : string).

(** How a child process ended: its exit status and what it printed, or
    the failure to start it. *)
Inductive proc :=
| Exited (returncode : Z) (stdout : string)
| NotStarted.

(** Attribute values: strings, lists of strings, and the objects a
    generated binding defines (opaque here). *)
Inductive pyval :=
| VStr (s : string)
| VList (l : list string)
| VObj (tag : string).

(** Modelled from the spec: the binding generator ([._generator.Generator],
    not part of the sources at hand).  "Consumes (compilerPath, set of
    LibraryDescriptor, includeDir), exposes a single operation
    generate(outputArtifactPath) with the side effect of writing a loadable
    artifact file at that path; failures from this collaborator propagate
    unchanged as fatal."  A failure may leave a partially written file. *)
Inductive gen_outcome :=
| Written (content : string)
| Failed (e : exn) (partial : option string).

Record world := World {
  (** [os.environ], [os.defpath], [sys.platform], [sys.version_info] *)
  w_environ : gmap string string;
  w_defpath : string;
  w_platform : string;
  w_version_info : nat * nat;
  (** the installed distributions and their versions (package metadata) *)
  w_dist_version : string -> option string;
  (** [platformdirs.user_cache_dir] *)
  w_user_cache_dir : string -> string;
  (** what running a command line gives, and what it leaves on disk *)
  w_run : list string -> proc;
  w_effect : list string -> OS.FS -> OS.FS;
  (** [Path.resolve] *)
  w_resolve : OS.FS -> Path -> Path;
  (** the generator collaborator *)
  w_generate : string -> list Path -> Path -> Path -> OS.FS -> gen_outcome;
  (** what executing the text of an artifact binds, or what it raises *)
  w_exec : string -> exn + gmap string pyval
}.

(** What the process does that can be seen from outside, in order. *)
Inductive event :=
| EvCheckOutput (cmd : list string)
| EvCheckCall (cmd : list string)
| EvMkdir (p : Path)
| EvGenerate (cpp : string) (libraries : list Path) (include_dir : Path) (out : Path)
| EvExecModule (name : string) (origin : Path).

(** The mutable state: the file table, the events so far (oldest first),
    [sys.modules] (names to module objects) and the module objects
    themselves, each with its namespace. *)
Record state := State {
  st_fs : OS.FS;
  st_trace : list event;
  st_sys_modules : gmap string nat;
  st_modules : list (gmap string pyval)
}.

Definition set_fs (fs : OS.FS) (s : state) : state :=
  State fs (st_trace s) (st_sys_modules s) (st_modules s).
Definition add_event (e : event) (s : state) : state :=
  State (st_fs s) (st_trace s ++ [e]) (st_sys_modules s) (st_modules s).
Definition set_modules (ms : list (gmap string pyval)) (s : state) : state :=
  State (st_fs s) (st_trace s) (st_sys_modules s) ms.

(** State and exception monad. *)
Definition M (A : Type) : Type := state -> (exn + A) * state.

Definition ret {A} (a : A) : M A := fun s => (inr a, s).
Definition raise {A} (e : exn) : M A := fun s => (inl e, s).
Definition bind {A B} (m : M A) (k : A -> M B) : M B :=
  fun s =>
    match m s with
    | (inr a, s') => k a s'
    | (inl e, s') => (inl e, s')
    end.
Definition gets {A} (f : state -> A) : M A := fun s => (inr (f s), s).
Definition modify (f : state -> state) : M unit := fun s => (inr tt, f s).
Definition log (e : event) : M unit := modify (add_event e).

Notation "'let*' x := c 'in' k" := (bind c (fun x => k))
  (at level 10, x name, c at level 200, k at level 200).

(** [subprocess.check_output(cmd)]: the output of a command that exits
    with status zero.  A command run this way is a query: it leaves the
    file table as it is. *)
Definition check_output (w : world) (cmd : list string) : M string :=
  let* _ := log (EvCheckOutput cmd) in
  match w_run w cmd with
  | Exited 0 out => ret out
  | Exited rc _ => raise (CalledProcessError rc cmd)
  | NotStarted => raise (OSError (List.hd "" cmd))
  end.

(** [subprocess.check_call(cmd)]. *)
Definition check_call (w : world) (cmd : list string) : M unit :=
  let* _ := log (EvCheckCall cmd) in
  let* _ := modify (fun s => set_fs (w_effect w cmd (st_fs s)) s) in
  match w_run w cmd with
  | Exited 0 _ => ret tt
  | Exited rc _ => raise (CalledProcessError rc cmd)
  | NotStarted => raise (OSError (List.hd "" cmd))
  end.

(** [shlex.split(s)]. *)
Definition shlex_split (s : string) : M (list string) :=
  match Shlex.split s with
  | inr l => ret l
  | inl msg => raise (ValueError msg)
  end.

(** [cache_dir.mkdir(parents=True, exist_ok=True)]. *)
Definition mkdir (p : Path) : M unit :=
  let* _ := log (EvMkdir p) in
  fun s =>
    match OS.mkdir (st_fs s) p with
    | inr fs' => (inr tt, set_fs fs' s)
    | inl OS.FileExistsError => (inl (OSError "FileExistsError"), s)
    | inl OS.FileNotFoundError => (inl (OSError "FileNotFoundError"), s)
    | inl OS.NotADirectoryError => (inl (OSError "NotADirectoryError"), s)
    end.

(** [Generator(cpp, libraries, include_dir).generate_wrapper(path)]. *)
Definition generate_wrapper (w : world) (cpp : string) (libraries : list Path)
    (include_dir : Path) (path : Path) : M unit :=
  let* _ := log (EvGenerate cpp libraries include_dir path) in
  fun s =>
    match w_generate w cpp libraries include_dir path (st_fs s) with
    | Written content =>
        (inr tt, set_fs (<[Pathlib.str path := OS.regular content]> (st_fs s)) s)
    | Failed e (Some partial) =>
        (inl e, set_fs (<[Pathlib.str path := OS.regular partial]> (st_fs s)) s)
    | Failed e None => (inl e, s)
    end.

(** ** [importlib.util] *)

Record ModuleSpec := { spec_name : string; spec_origin : Path }.

(** [importlib.util.spec_from_file_location(name, location)]. *)
Definition spec_from_file_location (name : string) (location : Path) : ModuleSpec :=
  {| spec_name := name; spec_origin := location |}.

(** [importlib.util.module_from_spec(spec)]: a new module object, named
    after the spec, which no registry refers to. *)
Definition fresh_namespace (spec : ModuleSpec) : gmap string pyval :=
  {[ "__name__" := VStr (spec_name spec);
     "__file__" := VStr (Pathlib.str (spec_origin spec)) ]}.

Definition module_from_spec (spec : ModuleSpec) : M nat :=
  fun s =>
    (inr (length (st_modules s)),
     set_modules (st_modules s ++ [fresh_namespace spec]) s).

(** [spec.loader.exec_module(module)]: runs the text of the file in the
    namespace of the module.  (The byte-code cache of the loader is left
    out.) *)
Definition exec_module (w : world) (spec : ModuleSpec) (module : nat) : M unit :=
  let* _ := log (EvExecModule (spec_name spec) (spec_origin spec)) in
  fun s =>
    match OS.stat (st_fs s) (spec_origin spec) with
    | Some (OS.Dirent (OS.FReg content) _ _) =>
        match w_exec w content with
        | inr ns =>
            (inr tt, set_modules (alter (fun ns0 => ns ∪ ns0) module (st_modules s)) s)
        | inl e => (inl e, s)
        end
    | _ => (inl (OSError "cannot read the artifact"), s)
    end.

(** ** [llvmcpy/__init__.py] *)

(** [_get_version()]: the version of the installed [llvmcpy] distribution,
    through [pkg_resources] before Python 3.8 and [importlib.metadata]
    from then on. *)
Definition version_lt (a b : nat * nat) : bool :=
  (fst a <? fst b)%nat || ((fst a =? fst b)%nat && (snd a <? snd b)%nat).

Definition _get_version (w : world) : M string :=
  let __name__ := "llvmcpy" in
  if version_lt (w_version_info w) (3, 8)%nat then
    match w_dist_version w __name__ with
    | Some v => ret v
    | None => raise (PackageNotFoundError __name__)
    end
  else
    match w_dist_version w __name__ with
    | Some v => ret v
    | None => raise (PackageNotFoundError __name__)
    end.

Module LLVMCPy.

(** The instance while its constructor runs; an attribute that is not
    set yet is [None]. *)
Record Self := MkSelf {
  _search_paths : list string;
  _llvm_config : option string;
  version : option string
}.

(** [_find_program]: the first of the value of [env_variable] (the empty
    string when it is not set) and of [names] that [which] finds on the
    search paths. *)
Fixpoint find_first (fs : OS.FS) (path : string) (names : list string)
  : option string :=
  match names with
  | [] => None
  | name :: rest =>
      match OS.which fs name path with
      | Some p => Some p
      | None => find_first fs path rest
      end
  end.

Definition _find_program (w : world) (self : Self)
    (env_variable : string) (names : list string) : M string :=
  let* fs := gets st_fs in
  match find_first fs (PyStr.join ":" (_search_paths self))
          (default "" (w_environ w !! env_variable) :: names) with
  | Some path => ret path
  | None =>
      raise (RuntimeError
               ("Couldn't find " +:+ env_variable +:+
                " or any of the following executables in PATH: " +:+
                PyStr.join " " names))
  end.

(** [_run_llvm_config]: the output of the helper, decoded and stripped. *)
Definition _run_llvm_config (w : world) (self : Self) (args : list string)
  : M string :=
  match _llvm_config self with
  | None => raise AssertionError
  | Some llvm_config =>
      let* out := check_output w (llvm_config :: args) in
      ret (PyStr.strip out)
  end.

(** Lines 65 to 70 of [_make_wrapper]. *)
Definition extension (w : world) : string :=
  if String.eqb (w_platform w) "win32" then ".dll"
  else if String.eqb (w_platform w) "darwin" then ".dylib"
  else ".so".

(** The loop of lines 77 to 80: the declared names, joined to the
    library directory, that have the extension among their suffixes. *)
Definition declared_libraries (extension : string) (libdir_path : Path)
    (libnames : string) : list Path :=
  List.filter
    (fun lib_path => bool_decide (extension ∈ Pathlib.suffixes lib_path))
    (map (fun libname => libdir_path // libname) (PyStr.split " " libnames)).

(** The loop of lines 84 to 86: the regular files of the library
    directory that match the pattern and are not symbolic links. *)
Definition scanned_libraries (fs : OS.FS) (extension : string)
    (libdir_path : Path) : list Path :=
  List.filter
    (fun lib_path => OS.is_file fs lib_path && negb (OS.is_symlink fs lib_path))
    (OS.glob fs libdir_path ("libLLVM*" +:+ extension +:+ "*")).

(** Lines 88 to 105: the shared library linked out of the static ones. *)
Definition synthesize (w : world) (self : Self) (cpp : string) (path : Path)
  : M Path :=
  let output_lib := Pathlib.parent path // "libLLVM.so" in
  let* fs := gets st_fs in
  let resolved := Pathlib.str (w_resolve w fs output_lib) in
  let* ldflags := _run_llvm_config w self ["--ldflags"] in
  let* ldflags := shlex_split ldflags in
  let* libs := _run_llvm_config w self ["--libs"] in
  let* libs := shlex_split libs in
  let* system_libs := _run_llvm_config w self ["--system-libs"] in
  let* system_libs := shlex_split system_libs in
  let args :=
    [cpp; "-shared"; "-o"; resolved] ++ ldflags ++
    ["-Wl,--whole-archive"] ++ libs ++
    ["-Wl,--no-whole-archive"] ++ system_libs in
  let* _ := check_call w args in
  ret output_lib.

(** Lines 72 to 110 of [_make_wrapper]: the libraries the generator is
    given. *)
Definition resolve_libraries (w : world) (self : Self) (cpp : string)
    (path : Path) : M (list Path) :=
  let extension := extension w in
  let* libdir := _run_llvm_config w self ["--libdir"] in
  let libdir_path := Pathlib.of_str libdir in
  let* shared_mode := _run_llvm_config w self ["--shared-mode"] in
  let* libraries :=
    (if String.eqb shared_mode "shared" then
       let* libnames := _run_llvm_config w self ["--libnames"] in
       ret (declared_libraries extension libdir_path libnames)
     else
       let* fs := gets st_fs in
       let libraries := scanned_libraries fs extension libdir_path in
       if (length libraries =? 0)%nat && String.eqb shared_mode "static" then
         let* output_lib := synthesize w self cpp path in
         ret (libraries ++ [output_lib])
       else ret libraries) in
  if (length libraries =? 0)%nat then
    raise (ValueError
      "No valid LLVM libraries found, LLVM must be built with BUILD_SHARED_LIBS")
  else ret libraries.

Definition _make_wrapper (w : world) (self : Self) (path : Path) : M unit :=
  let* cpp := _find_program w self "CPP" ["clang"; "cpp"; "gcc"; "cc"] in
  let* libraries := resolve_libraries w self cpp path in
  let* include_dir := _run_llvm_config w self ["--includedir"] in
  generate_wrapper w cpp libraries (Pathlib.of_str include_dir) path.

(** Lines 42 to 46: the name of the cache directory. *)
Definition dir_name (llvm_config tool_version version : string) : string :=
  let hash_obj := Sha256.new in
  let hash_obj := Sha256.update hash_obj llvm_config in
  let hash_obj := Sha256.update hash_obj (String "000" tool_version) in
  Sha256.hexdigest hash_obj +:+ "-" +:+ version.

Definition cache_dir (w : world) (dir_name : string) : Path :=
  Pathlib.of_str (w_user_cache_dir w "llvmcpy") // dir_name.

Definition _get_module (w : world) (self : Self) : M nat :=
  let* llvm_config := match _llvm_config self with
                      | Some c => ret c
                      | None => raise (AttributeError "_llvm_config")
                      end in
  let* tool_version := _get_version w in
  let* version := match version self with
                  | Some v => ret v
                  | None => raise (AttributeError "version")
                  end in
  let dir_name := dir_name llvm_config tool_version version in
  let cache_dir := cache_dir w dir_name in
  let llvmcpyimpl_py := cache_dir // "llvmcpyimpl.py" in
  let* fs := gets st_fs in
  let* _ := (if negb (OS.exists_ fs llvmcpyimpl_py) then
               let* _ := mkdir cache_dir in
               _make_wrapper w self llvmcpyimpl_py
             else ret tt) in
  let spec := spec_from_file_location ("llvmcpy-" +:+ dir_name) llvmcpyimpl_py in
  let* module := module_from_spec spec in
  let* _ := exec_module w spec module in
  ret module.

(** The attributes of the instance before the symbols of the module are
    copied onto it. *)
Definition attributes (self : Self) : gmap string pyval :=
  let a : gmap string pyval := {[ "_search_paths" := VList (_search_paths self) ]} in
  let a := match _llvm_config self with
           | Some c => <["_llvm_config" := VStr c]> a
           | None => a
           end in
  match version self with
  | Some v => <["version" := VStr v]> a
  | None => a
  end.

(** [dir(module)] (whose order does not matter to the loop below). *)
Definition dir (ns : gmap string pyval) : list string := map fst (map_to_list ns).

(** Lines 38 and 39: [setattr(self, elem, getattr(module, elem))] for
    every [elem] of [dir(module)]. *)
Definition copy_symbols (ns : gmap string pyval) (attrs : gmap string pyval)
  : gmap string pyval :=
  foldl (fun attrs elem =>
           match ns !! elem with
           | Some v => <[elem := v]> attrs
           | None => attrs
           end)
        attrs (dir ns).

(** The constructor; its result is the attribute dictionary of the new
    instance. *)
Definition __init__ (w : world) (llvm_config : option string)
  : M (gmap string pyval) :=
  let self :=
    MkSelf (PyStr.split ":" (default (w_defpath w) (w_environ w !! "PATH")))
           None None in
  let* cfg := match llvm_config with
              | Some c => ret c
              | None => _find_program w self "LLVM_CONFIG" ["llvm-config"]
              end in
  let self := MkSelf (_search_paths self) (Some cfg) (version self) in
  let* bindir := _run_llvm_config w self ["--bindir"] in
  let self := MkSelf (bindir :: _search_paths self) (_llvm_config self) (version self) in
  let* v := _run_llvm_config w self ["--version"] in
  let self := MkSelf (_search_paths self) (_llvm_config self) (Some v) in
  let* module := _get_module w self in
  let* ns := gets (fun s => default ∅ (st_modules s !! module)) in
  ret (copy_symbols ns (attributes self)).

End LLVMCPy.

(** The state after further events. *)
Definition extend (es : list event) (s : state) : state :=
  State (st_fs s) (st_trace s ++ es) (st_sys_modules s) (st_modules s).

(** The helper the constructor settles on: the one it is given, else the
    one [_find_program] finds for [LLVM_CONFIG] and [llvm-config]. *)
Definition located_helper (w : world) (fs : OS.FS) (llvm_config : option string)
  : option string :=
  match llvm_config with
  | Some c => Some c
  | None =>
      LLVMCPy.find_first fs
        (PyStr.join ":" (PyStr.split ":" (default (w_defpath w) (w_environ w !! "PATH"))))
        [default "" (w_environ w !! "LLVM_CONFIG"); "llvm-config"]
  end.

(** The instance once the helper was asked for its directory and its
    version. *)
Definition self_after_queries (w : world) (cfg out_bin out_ver : string)
  : LLVMCPy.Self :=
  LLVMCPy.MkSelf
    (PyStr.strip out_bin ::
     PyStr.split ":" (default (w_defpath w) (w_environ w !! "PATH")))
    (Some cfg) (Some (PyStr.strip out_ver)).

(** The length of the key of a path in the file table; the root and the
    current directory have no key of their own. *)
Definition keylen (p : Path) : nat :=
  match Pathlib.parts p with
  | [] => 0
  | _ => String.length (Pathlib.str p)
  end.

(** ** Sample toolchains

    A Linux installation with the helper and [clang] in [/usr/bin], one
    versioned shared library, a symbolic link to it and a static archive
    in the library directory. *)

Module Sample.

Definition nl : string := String "010" EmptyString.

Definition fs : OS.FS :=
  list_to_map
    [ ("/usr/bin/llvm-config", OS.Dirent (OS.FReg "") false true);
      ("/usr/bin/clang", OS.Dirent (OS.FReg "") false true);
      ("/usr/lib/llvm", OS.directory);
      ("/usr/lib/llvm/libLLVM-14.so.1", OS.regular "ELF");
      ("/usr/lib/llvm/libLLVM.so", OS.Dirent (OS.FReg "ELF") true false);
      ("/usr/lib/llvm/libLLVMCore.a", OS.regular "!<arch>");
      ("/home/u/.cache", OS.directory) ].

(** The same installation without its shared library. *)
Definition fs_static : OS.FS :=
  delete "/usr/lib/llvm/libLLVM.so" (delete "/usr/lib/llvm/libLLVM-14.so.1" fs).

(** The helper: [mode] is what it prints for [--shared-mode], [libnames]
    for [--libnames]; any other command line is a linker run that ends
    with status [link_status]. *)
Definition run (mode libnames : string) (link_status : Z) (cmd : list string)
  : proc :=
  match cmd with
  | [_; "--bindir"] => Exited 0 ("/usr/bin" +:+ nl)
  | [_; "--version"] => Exited 0 ("14.0.6" +:+ nl)
  | [_; "--libdir"] => Exited 0 ("/usr/lib/llvm" +:+ nl)
  | [_; "--includedir"] => Exited 0 ("/usr/include" +:+ nl)
  | [_; "--shared-mode"] => Exited 0 (mode +:+ nl)
  | [_; "--libnames"] => Exited 0 (libnames +:+ nl)
  | [_; "--ldflags"] => Exited 0 ("-L/usr/lib/llvm" +:+ nl)
  | [_; "--libs"] => Exited 0 ("-lLLVMCore -lLLVMSupport" +:+ nl)
  | [_; "--system-libs"] => Exited 0 ("-lz '-lm'" +:+ nl)
  | _ => Exited link_status ""
  end.

(** A successful linker run leaves the file named after [-o]. *)
Definition effect (link_status : Z) (cmd : list string) (fs : OS.FS) : OS.FS :=
  match cmd, link_status with
  | _ :: "-shared" :: "-o" :: out :: _, 0%Z => <[out := OS.regular "ELF"]> fs
  | _, _ => fs
  end.

Definition toolchain (mode libnames : string) (link_status : Z)
    (binding : gmap string pyval) : world :=
  {| w_environ := {[ "PATH" := "/usr/bin:/bin" ]};
     w_defpath := "/bin:/usr/bin";
     w_platform := "linux";
     w_version_info := (3, 11)%nat;
     w_dist_version := fun n => if String.eqb n "llvmcpy" then Some "0.2.1" else None;
     w_user_cache_dir := fun n => "/home/u/.cache/" +:+ n;
     w_run := run mode libnames link_status;
     w_effect := effect link_status;
     w_resolve := fun _ p => p;
     w_generate := fun _ _ _ _ _ => Written "# generated";
     w_exec := fun _ => inr binding |}.

Definition binding : gmap string pyval :=
  {[ "ffi" := VObj "ffi"; "lib" := VObj "lib" ]}.

Definition self : LLVMCPy.Self :=
  LLVMCPy.MkSelf ["/usr/bin"; "/usr/bin"; "/bin"]
                 (Some "/usr/bin/llvm-config") (Some "14.0.6").

Definition start (fs : OS.FS) : state := State fs [] ∅ [].

(** A binding that exports a symbol of its own called [version]. *)
Definition binding_with_version : gmap string pyval :=
  {[ "ffi" := VObj "ffi"; "version" := VObj "binding.version" ]}.

(** The toolchain of the examples: shared mode, one versioned shared
    library declared next to a static archive. *)
Definition shared : world :=
  toolchain "shared" "libLLVM-14.so.1 libLLVMCore.a" 0 binding.

Definition artifact : Path :=
  Pathlib.of_str
    "/home/u/.cache/llvmcpy/105dc65bea0e718a9bfb5ab399d568c163af2b25aa57b433670313120209a869-14.0.6/llvmcpyimpl.py".

Definition dname : string :=
  "105dc65bea0e718a9bfb5ab399d568c163af2b25aa57b433670313120209a869-14.0.6".

Definition cdir : Path := Pathlib.of_str ("/home/u/.cache/llvmcpy/" +:+ dname).

(** The installation once an artifact was generated and cached. *)
Definition fs_cached : OS.FS :=
  <["/home/u/.cache/llvmcpy/" +:+ dname +:+ "/llvmcpyimpl.py" :=
      OS.regular "# generated"]>
    (<["/home/u/.cache/llvmcpy/" +:+ dname := OS.directory]>
       (<["/home/u/.cache/llvmcpy" := OS.directory]> fs)).

(** The static installation once the cache directory was made. *)
Definition fs_static_mkdir : OS.FS :=
  match OS.mkdir fs_static cdir with
  | inr fs' => fs'
  | inl _ => fs_static
  end.

(** The command line of the linker for this installation. *)
Definition link_args : list string :=
  ["/usr/bin/clang"; "-shared"; "-o";
   "/home/u/.cache/llvmcpy/" +:+ dname +:+ "/libLLVM.so";
   "-L/usr/lib/llvm"; "-Wl,--whole-archive"; "-lLLVMCore"; "-lLLVMSupport";
   "-Wl,--no-whole-archive"; "-lz"; "-lm"].

End Sample.

(** Two distinct byte strings with the same SHA-256 digest. *)
Definition sha256_collision (a b : string) : Prop :=
  a <> b /\ Sha256.hexdigest a = Sha256.hexdigest b.

(** What the hash of the cache key is computed over (lines 43 and 44). *)
Definition key_bytes (llvm_config tool_version : string) : string :=
  llvm_config +:+ String "000" tool_version.

(** An operation keeps a relation between the state before and the state
    after it, whatever it returns. *)
Definition preserves {A} (R : state -> state -> Prop) (m : M A) : Prop :=
  forall s, R s (snd (m s)).

(** The events of the state before are a prefix of those after. *)
Definition trace_grows (s s' : state) : Prop :=
  exists es, st_trace s' = st_trace s ++ es.

Definition same_sys_modules (s s' : state) : Prop :=
  st_sys_modules s' = st_sys_modules s.

Definition same_modules (s s' : state) : Prop :=
  st_modules s' = st_modules s.

(** ** Vocabulary of the further properties *)

(** Every character of [s] satisfies [p]. *)
Fixpoint all_chars (p : ascii -> bool) (s : string) : bool :=
  match s with
  | EmptyString => true
  | String c s' => p c && all_chars p s'
  end.


(** A command could be run and is an ordinary file: what
    [shutil._access_check] tests. *)
Definition runnable (fs : OS.FS) (fn : string) : Prop :=
  OS.path_exists fs fn = true /\ OS.access fs fn = true /\
  OS.path_isdir fs fn = false.

(** What a failed or failing child process makes [check_output] raise. *)
Definition query_error (cmd : list string) (p : proc) : option exn :=
  match p with
  | Exited 0 _ => None
  | Exited rc _ => Some (CalledProcessError rc cmd)
  | NotStarted => Some (OSError (List.hd "" cmd))
  end.

(** A pattern character that [fnmatch] takes for itself. *)
Definition plain_char (c : ascii) : bool :=
  negb (Ascii.eqb c "*") && negb (Ascii.eqb c "?") && negb (Ascii.eqb c "[").

(** A character that [shlex] takes for itself: no whitespace, no quote,
    no escape. *)
Definition shlex_plain (c : ascii) : bool :=
  negb (Shlex.is_whitespace c) && negb (Shlex.is_quote c) &&
  negb (Shlex.is_escape c).

(** A path as [pathlib] keeps it: one of the three roots, and components
    that are neither empty nor a dot and hold no slash. *)
Definition normal (p : Path) : Prop :=
  (Pathlib.root p = "" \/ Pathlib.root p = "/" \/ Pathlib.root p = "//") /\
  Forall (fun x => Pathlib.is_part x = true /\ PyStr.contains "/" x = false)
         (Pathlib.parts p).

(** The options the helper is ever given. *)
Definition helper_options : list string :=
  ["--bindir"; "--version"; "--libdir"; "--shared-mode"; "--libnames";
   "--ldflags"; "--libs"; "--system-libs"; "--includedir"].

(** The events of a construction that settled on the helper [cfg]: a
    child process is the helper with one of its options, or a linker
    run. *)
Definition expected (cfg : string) (e : event) : Prop :=
  match e with
  | EvCheckOutput cmd =>
      exists option, cmd = [cfg; option] /\ In option helper_options
  | EvCheckCall cmd =>
      exists cpp out rest, cmd = cpp :: "-shared" :: "-o" :: out :: rest
  | _ => True
  end.

(** An operation only adds expected events to the trace. *)
Definition emits (cfg : string) {A} (m : M A) : Prop :=
  forall s, exists es,
    st_trace (snd (m s)) = st_trace s ++ es /\ Forall (expected cfg) es.

(** Toolchains for the examples of the further properties. *)
Module Probe.

(** A world like [Sample.shared] whose helper fails on [--version]. *)
Definition broken_helper : world :=
  {| w_environ := {[ "PATH" := "/usr/bin:/bin" ]};
     w_defpath := "/bin:/usr/bin";
     w_platform := "linux";
     w_version_info := (3, 11)%nat;
     w_dist_version := fun n => if String.eqb n "llvmcpy" then Some "0.2.1" else None;
     w_user_cache_dir := fun n => "/home/u/.cache/" +:+ n;
     w_run := fun cmd =>
       match cmd with
       | [_; "--bindir"] => Exited 0 ("/usr/bin" +:+ Sample.nl)
       | _ => Exited 2 ""
       end;
     w_effect := fun _ fs => fs;
     w_resolve := fun _ p => p;
     w_generate := fun _ _ _ _ _ => Written "# generated";
     w_exec := fun _ => inr Sample.binding |}.

(** [Sample.shared] with the metadata of the distribution missing. *)
Definition no_metadata : world :=
  {| w_environ := w_environ Sample.shared;
     w_defpath := w_defpath Sample.shared;
     w_platform := w_platform Sample.shared;
     w_version_info := (3, 8)%nat;
     w_dist_version := fun _ => None;
     w_user_cache_dir := w_user_cache_dir Sample.shared;
     w_run := w_run Sample.shared;
     w_effect := w_effect Sample.shared;
     w_resolve := w_resolve Sample.shared;
     w_generate := w_generate Sample.shared;
     w_exec := w_exec Sample.shared |}.


(** [Sample.shared] with [CPP] set to a path. *)
Definition cpp_override : world :=
  {| w_environ := <["CPP" := "/usr/bin/clang"]> (w_environ Sample.shared);
     w_defpath := w_defpath Sample.shared;
     w_platform := w_platform Sample.shared;
     w_version_info := w_version_info Sample.shared;
     w_dist_version := w_dist_version Sample.shared;
     w_user_cache_dir := w_user_cache_dir Sample.shared;
     w_run := w_run Sample.shared;
     w_effect := w_effect Sample.shared;
     w_resolve := w_resolve Sample.shared;
     w_generate := w_generate Sample.shared;
     w_exec := w_exec Sample.shared |}.

(** [Sample.fs] without a compiler, before and after the cache directory
    is made. *)
Definition fs_no_compiler : OS.FS := delete "/usr/bin/clang" Sample.fs.

Definition fs_no_compiler_mkdir : OS.FS :=
  match OS.mkdir fs_no_compiler Sample.cdir with
  | inr fs' => fs'
  | inl _ => fs_no_compiler
  end.

End Probe.

(** * Properties *)

Example sha256_empty :
  Sha256.hexdigest Sha256.new =
  "e3b0c44298fc1c149afbf4c8996fb92427ae41e4649b934ca495991b7852b855".
Proof. vm_compute. reflexivity. Qed.

Example sha256_constants :
  nth 0 Sha256.K 0%Z = 0x428a2f98%Z /\ nth 63 Sha256.K 0%Z = 0xc67178f2%Z /\
  length Sha256.K = 64 /\ Sha256.ra Sha256.H0 = 0x6a09e667%Z /\
  Sha256.rh Sha256.H0 = 0x5be0cd19%Z.
Proof. repeat split; reflexivity. Qed.

Example sha256_abc :
  Sha256.hexdigest (Sha256.update Sha256.new "abc") =
  "ba7816bf8f01cfea414140de5dae2223b00361a396177a9cb410ff61f20015ad".
Proof. vm_compute. reflexivity. Qed.

Example sha256_two_blocks :
  Sha256.hexdigest
    "abcdbcdecdefdefgefghfghighijhijkijkljklmklmnlmnomnopnopq" =
  "248d6a61d20638b8e5c026930c3e6039a33ce45964ff2167f6ecedd419db06c1".
Proof. vm_compute. reflexivity. Qed.

Example split_spaces :
  PyStr.split " " "a  b" = ["a"; ""; "b"] /\ PyStr.split " " "" = [""].
Proof. split; reflexivity. Qed.

Example strip_output :
  PyStr.strip (" 14.0.6" +:+ String "010" EmptyString) = "14.0.6".
Proof. reflexivity. Qed.

Example shlex_quotes :
  let dq := String "034" EmptyString in
  Shlex.split ("-L/usr/lib  '-L/opt/my llvm/lib' -l" +:+ dq +:+ "a b" +:+ dq +:+ "c d\ e") =
  inr ["-L/usr/lib"; "-L/opt/my llvm/lib"; "-la bc"; "d e"].
Proof. reflexivity. Qed.

Example shlex_unclosed : Shlex.split "'abc" = inl "No closing quotation".
Proof. reflexivity. Qed.

Example suffixes_versioned :
  Pathlib.suffixes (Pathlib.of_str "/usr/lib" // "libLLVM-14.so.1") = [".so"; ".1"].
Proof. reflexivity. Qed.

Example path_str :
  Pathlib.str (Pathlib.of_str "/usr//lib/./llvm/" // "x.so") = "/usr/lib/llvm/x.so"
  /\ Pathlib.str (Pathlib.of_str "") = "."
  /\ Pathlib.str (Pathlib.of_str "/usr/lib" // "/abs/y") = "/abs/y".
Proof. repeat split; reflexivity. Qed.

Example shlex_escapes :
  let dq := String "034" EmptyString in
  Shlex.split ("a " +:+ dq +:+ "b\c \" +:+ dq +:+ " d" +:+ dq +:+ " '' e" +:+ dq +:+ dq +:+ "f x\" +:+ String "010" "y") =
  inr ["a"; "b\c " +:+ dq +:+ " d"; ""; "ef"; "x" +:+ String "010" "y"].
Proof. reflexivity. Qed.

Example suffixes_cases :
  let d := Pathlib.of_str "/usr/lib" in
  Pathlib.suffixes (d // ".so") = [] /\
  Pathlib.suffixes (d // "a.so.") = [] /\
  Pathlib.suffixes (d // "..a.so") = [".so"] /\
  Pathlib.suffixes (d // "a..so") = ["."; ".so"] /\
  Pathlib.suffixes (d // "x/.hidden.so") = [".so"] /\
  Pathlib.suffixes (d // "") = [] /\
  Pathlib.suffixes (d // "a.so/") = [".so"].
Proof. repeat split; reflexivity. Qed.

(** ** Running the monad *)

Lemma bind_inr {A B} (m : M A) (k : A -> M B) s a s1 :
  m s = (inr a, s1) -> bind m k s = k a s1.
Proof. intros H. unfold bind. rewrite H. reflexivity. Qed.

Lemma bind_inl {A B} (m : M A) (k : A -> M B) s e s1 :
  m s = (inl e, s1) -> bind m k s = (inl e, s1).
Proof. intros H. unfold bind. rewrite H. reflexivity. Qed.

Lemma bind_inv {A B} (m : M A) (k : A -> M B) s b s' :
  bind m k s = (inr b, s') ->
  exists a s1, m s = (inr a, s1) /\ k a s1 = (inr b, s').
Proof.
  unfold bind. destruct (m s) as [[e|a] s1]; intros H.
  - discriminate.
  - exists a, s1. split; [reflexivity | exact H].
Qed.

Lemma add_event_extend e s : add_event e s = extend [e] s.
Proof. reflexivity. Qed.

Lemma extend_extend es es' s : extend es' (extend es s) = extend (es ++ es') s.
Proof. unfold extend. simpl. rewrite <- app_assoc. reflexivity. Qed.

Lemma extend_nil s : extend [] s = s.
Proof. destruct s. unfold extend. simpl. rewrite app_nil_r. reflexivity. Qed.

Lemma check_output_run w cmd s :
  check_output w cmd s =
  (match w_run w cmd with
   | Exited 0 out => inr out
   | Exited rc _ => inl (CalledProcessError rc cmd)
   | NotStarted => inl (OSError (List.hd "" cmd))
   end, extend [EvCheckOutput cmd] s).
Proof.
  unfold check_output, bind, log, modify. simpl. rewrite add_event_extend.
  destruct (w_run w cmd) as [rc out|]; [destruct rc|]; reflexivity.
Qed.

Lemma run_llvm_config_ok w self h args out s :
  LLVMCPy._llvm_config self = Some h ->
  w_run w (h :: args) = Exited 0 out ->
  LLVMCPy._run_llvm_config w self args s =
  (inr (PyStr.strip out), extend [EvCheckOutput (h :: args)] s).
Proof.
  intros Hc Hr. unfold LLVMCPy._run_llvm_config. rewrite Hc.
  unfold bind. rewrite check_output_run, Hr. reflexivity.
Qed.

(** ** Declared shared libraries (shared mode) *)

Lemma suffixes_no_name p :
  Pathlib.parts p = [] -> Pathlib.suffixes p = [].
Proof.
  intros H. unfold Pathlib.suffixes, Pathlib.name. rewrite H. reflexivity.
Qed.

Lemma last_app_ne {A} (l l' : list A) (d : A) :
  l' <> [] -> List.last (l ++ l') d = List.last l' d.
Proof.
  intros Hne. induction l as [|x l IH]; [reflexivity|].
  simpl. rewrite IH. destruct (l ++ l') eqn:E; [|reflexivity].
  apply app_eq_nil in E. tauto.
Qed.

(** Joining a name to a directory keeps the suffixes of the name, as soon
    as the name has any. *)
Lemma suffixes_joinpath d n :
  Pathlib.suffixes (Pathlib.of_str n) <> [] ->
  Pathlib.suffixes (d // n) = Pathlib.suffixes (Pathlib.of_str n).
Proof.
  intros Hne. unfold Pathlib.joinpath.
  destruct (String.eqb (Pathlib.root (Pathlib.of_str n)) ""); [|reflexivity].
  assert (Hp : Pathlib.parts (Pathlib.of_str n) <> []).
  { intros H. apply Hne, suffixes_no_name, H. }
  set (q := Pathlib.of_str n) in *.
  unfold Pathlib.suffixes, Pathlib.name. cbn [Pathlib.parts].
  rewrite last_app_ne by exact Hp. reflexivity.
Qed.

Lemma declared_libraries_spec ext d names p :
  p ∈ LLVMCPy.declared_libraries ext d names <->
  exists n, n ∈ PyStr.split " " names /\ p = d // n /\
            ext ∈ Pathlib.suffixes (d // n).
Proof.
  unfold LLVMCPy.declared_libraries.
  rewrite list_elem_of_In, List.filter_In, List.in_map_iff.
  split.
  - intros [[n [<- Hn]] Hs]. exists n.
    apply bool_decide_eq_true in Hs. rewrite list_elem_of_In. auto.
  - intros [n [Hn [-> Hs]]]. split.
    + exists n. rewrite <- list_elem_of_In. auto.
    + apply bool_decide_eq_true. exact Hs.
Qed.

(** C1. When the helper reports shared mode [shared] and declares a name
    that has the extension of the platform somewhere among its suffixes,
    the resolver returns a non-empty list: exactly the declared names,
    joined to the library directory, whose path has the extension among
    its suffixes.  It runs the three helper queries and nothing else: no
    scan of the directory, no linker. *)
Theorem shared_mode_declared_libraries
    (w : world) (self : LLVMCPy.Self) (cpp : string) (path : Path) (s : state)
    (h out_dir out_mode out_names libname : string) :
  LLVMCPy._llvm_config self = Some h ->
  w_run w [h; "--libdir"] = Exited 0 out_dir ->
  w_run w [h; "--shared-mode"] = Exited 0 out_mode ->
  PyStr.strip out_mode = "shared" ->
  w_run w [h; "--libnames"] = Exited 0 out_names ->
  libname ∈ PyStr.split " " (PyStr.strip out_names) ->
  LLVMCPy.extension w ∈ Pathlib.suffixes (Pathlib.of_str libname) ->
  let libdir := Pathlib.of_str (PyStr.strip out_dir) in
  exists libraries,
    LLVMCPy.resolve_libraries w self cpp path s =
      (inr libraries,
       extend [EvCheckOutput [h; "--libdir"];
               EvCheckOutput [h; "--shared-mode"];
               EvCheckOutput [h; "--libnames"]] s) /\
    libraries <> [] /\
    libdir // libname ∈ libraries /\
    (forall p, p ∈ libraries <->
               exists n, n ∈ PyStr.split " " (PyStr.strip out_names) /\
                         p = libdir // n /\
                         LLVMCPy.extension w ∈ Pathlib.suffixes (libdir // n)).
Proof.
  intros Hcfg Hdir Hmode Hshared Hnames Hin Hext libdir.
  set (libraries := LLVMCPy.declared_libraries (LLVMCPy.extension w) libdir
                      (PyStr.strip out_names)).
  assert (Hmem : libdir // libname ∈ libraries).
  { apply declared_libraries_spec. exists libname. split; [exact Hin|].
    split; [reflexivity|]. rewrite suffixes_joinpath; [exact Hext|].
    intros E. rewrite E in Hext. inversion Hext. }
  assert (Hne : libraries <> []).
  { intros E. rewrite E in Hmem. inversion Hmem. }
  exists libraries. split; [|split; [exact Hne|split; [exact Hmem|]]].
  - unfold LLVMCPy.resolve_libraries.
    erewrite bind_inr by (eapply run_llvm_config_ok; eauto).
    erewrite bind_inr by (eapply run_llvm_config_ok; eauto).
    rewrite Hshared. cbn [String.eqb Ascii.eqb Bool.eqb].
    erewrite (bind_inr (bind _ _)).
    2:{ erewrite bind_inr by (eapply run_llvm_config_ok; eauto). reflexivity. }
    fold libdir. fold libraries.
    destruct libraries as [|p l]; [congruence|].
    simpl. unfold ret. rewrite !extend_extend. reflexivity.
  - intros p. apply declared_libraries_spec.
Qed.

Lemma shared_mode_declared_libraries_witness :
  exists libraries,
    LLVMCPy.resolve_libraries
      (Sample.toolchain "shared" "libLLVM-14.so.1 libLLVMCore.a" 0 Sample.binding)
      Sample.self "/usr/bin/clang" Sample.artifact (Sample.start Sample.fs) =
    (inr libraries,
     extend [EvCheckOutput ["/usr/bin/llvm-config"; "--libdir"];
             EvCheckOutput ["/usr/bin/llvm-config"; "--shared-mode"];
             EvCheckOutput ["/usr/bin/llvm-config"; "--libnames"]]
            (Sample.start Sample.fs)) /\
    libraries <> [] /\
    Pathlib.of_str "/usr/lib/llvm/libLLVM-14.so.1" ∈ libraries.
Proof.
  destruct (shared_mode_declared_libraries
              (Sample.toolchain "shared" "libLLVM-14.so.1 libLLVMCore.a" 0 Sample.binding)
              Sample.self "/usr/bin/clang" Sample.artifact (Sample.start Sample.fs)
              "/usr/bin/llvm-config"
              ("/usr/lib/llvm" +:+ Sample.nl) ("shared" +:+ Sample.nl)
              ("libLLVM-14.so.1 libLLVMCore.a" +:+ Sample.nl) "libLLVM-14.so.1")
    as [libraries [Hrun [Hne [Hin _]]]].
  - reflexivity.
  - reflexivity.
  - reflexivity.
  - reflexivity.
  - reflexivity.
  - vm_compute. left.
  - vm_compute. left.
  - exists libraries. split; [exact Hrun|]. split; [exact Hne|exact Hin].
Defined.

(** ** The scan of the library directory and the synthesized library *)

Lemma eqb_neq_false (a b : string) : a <> b -> String.eqb a b = false.
Proof. intros H. apply String.eqb_neq. exact H. Qed.

Lemma check_call_run w cmd s :
  check_call w cmd s =
  (match w_run w cmd with
   | Exited 0 _ => inr tt
   | Exited rc _ => inl (CalledProcessError rc cmd)
   | NotStarted => inl (OSError (List.hd "" cmd))
   end, set_fs (w_effect w cmd (st_fs s)) (extend [EvCheckCall cmd] s)).
Proof.
  unfold check_call, bind, log, modify. simpl. rewrite add_event_extend.
  destruct (w_run w cmd) as [rc out|]; [destruct rc|]; reflexivity.
Qed.

Lemma shlex_split_ok text l s :
  Shlex.split text = inr l -> shlex_split text s = (inr l, s).
Proof. intros H. unfold shlex_split. rewrite H. reflexivity. Qed.

(** C10. With a shared mode that is neither [shared] nor [static], the
    resolver scans the library directory and returns what the scan found;
    it runs the two helper queries and nothing else, so the linker is
    never started, and an empty scan ends in the error that no usable
    library was found. *)
Theorem unexpected_shared_mode_scans_without_synthesis
    (w : world) (self : LLVMCPy.Self) (cpp : string) (path : Path) (s : state)
    (h out_dir out_mode : string) :
  LLVMCPy._llvm_config self = Some h ->
  w_run w [h; "--libdir"] = Exited 0 out_dir ->
  w_run w [h; "--shared-mode"] = Exited 0 out_mode ->
  PyStr.strip out_mode <> "shared" ->
  PyStr.strip out_mode <> "static" ->
  let scanned :=
    LLVMCPy.scanned_libraries (st_fs s) (LLVMCPy.extension w)
                              (Pathlib.of_str (PyStr.strip out_dir)) in
  LLVMCPy.resolve_libraries w self cpp path s =
  (match scanned with
   | [] => inl (ValueError
       "No valid LLVM libraries found, LLVM must be built with BUILD_SHARED_LIBS")
   | _ :: _ => inr scanned
   end,
   extend [EvCheckOutput [h; "--libdir"]; EvCheckOutput [h; "--shared-mode"]] s).
Proof.
  intros Hcfg Hdir Hmode Hns Hnst scanned.
  unfold LLVMCPy.resolve_libraries.
  erewrite bind_inr by (eapply run_llvm_config_ok; eauto).
  erewrite bind_inr by (eapply run_llvm_config_ok; eauto).
  rewrite (eqb_neq_false _ _ Hns), (eqb_neq_false _ _ Hnst).
  rewrite extend_extend.
  unfold bind at 1. unfold bind at 1. unfold gets. cbn [app].
  change (st_fs (extend _ s)) with (st_fs s). fold scanned.
  rewrite andb_false_r.
  destruct scanned; reflexivity.
Qed.

Lemma unexpected_shared_mode_scans_without_synthesis_witness :
  LLVMCPy.resolve_libraries
    (Sample.toolchain "" "" 0 Sample.binding)
    Sample.self "/usr/bin/clang" Sample.artifact (Sample.start Sample.fs_static) =
  (inl (ValueError
     "No valid LLVM libraries found, LLVM must be built with BUILD_SHARED_LIBS"),
   extend [EvCheckOutput ["/usr/bin/llvm-config"; "--libdir"];
           EvCheckOutput ["/usr/bin/llvm-config"; "--shared-mode"]]
          (Sample.start Sample.fs_static)).
Proof.
  apply (unexpected_shared_mode_scans_without_synthesis
           (Sample.toolchain "" "" 0 Sample.binding)
           Sample.self "/usr/bin/clang" Sample.artifact (Sample.start Sample.fs_static)
           "/usr/bin/llvm-config" ("/usr/lib/llvm" +:+ Sample.nl) ("" +:+ Sample.nl));
    first [reflexivity | discriminate].
Defined.

(** The command line of the linker (lines 91 to 103). *)
Lemma synthesize_run w self cpp path s h out_ld out_libs out_sys
    ldflags libs system_libs :
  LLVMCPy._llvm_config self = Some h ->
  w_run w [h; "--ldflags"] = Exited 0 out_ld ->
  Shlex.split (PyStr.strip out_ld) = inr ldflags ->
  w_run w [h; "--libs"] = Exited 0 out_libs ->
  Shlex.split (PyStr.strip out_libs) = inr libs ->
  w_run w [h; "--system-libs"] = Exited 0 out_sys ->
  Shlex.split (PyStr.strip out_sys) = inr system_libs ->
  let output_lib := Pathlib.parent path // "libLLVM.so" in
  let args :=
    [cpp; "-shared"; "-o"; Pathlib.str (w_resolve w (st_fs s) output_lib)] ++
    ldflags ++ ["-Wl,--whole-archive"] ++ libs ++
    ["-Wl,--no-whole-archive"] ++ system_libs in
  LLVMCPy.synthesize w self cpp path s =
  (match w_run w args with
   | Exited 0 _ => inr output_lib
   | Exited rc _ => inl (CalledProcessError rc args)
   | NotStarted => inl (OSError cpp)
   end,
   set_fs (w_effect w args (st_fs s))
     (extend [EvCheckOutput [h; "--ldflags"]; EvCheckOutput [h; "--libs"];
              EvCheckOutput [h; "--system-libs"]; EvCheckCall args] s)).
Proof.
  intros Hcfg Hld Hsld Hlibs Hslibs Hsys Hssys output_lib args.
  unfold LLVMCPy.synthesize.
  unfold bind at 1. unfold gets at 1.
  erewrite bind_inr by (eapply run_llvm_config_ok; eauto).
  erewrite bind_inr by (eapply shlex_split_ok; eauto).
  erewrite bind_inr by (eapply run_llvm_config_ok; eauto).
  erewrite bind_inr by (eapply shlex_split_ok; eauto).
  erewrite bind_inr by (eapply run_llvm_config_ok; eauto).
  erewrite bind_inr by (eapply shlex_split_ok; eauto).
  fold output_lib. fold args.
  unfold bind. rewrite check_call_run. rewrite !extend_extend. cbn [app].
  change (st_fs (extend _ s)) with (st_fs s).
  destruct (w_run w args) as [rc out|]; [destruct rc|]; reflexivity.
Qed.

(** Shared mode [static] and nothing found by the scan: the linker is
    run, and its exit status decides. *)
Lemma static_mode_run w self cpp path s h out_dir out_mode out_ld out_libs out_sys
    ldflags libs system_libs :
  LLVMCPy._llvm_config self = Some h ->
  w_run w [h; "--libdir"] = Exited 0 out_dir ->
  w_run w [h; "--shared-mode"] = Exited 0 out_mode ->
  PyStr.strip out_mode = "static" ->
  LLVMCPy.scanned_libraries (st_fs s) (LLVMCPy.extension w)
    (Pathlib.of_str (PyStr.strip out_dir)) = [] ->
  w_run w [h; "--ldflags"] = Exited 0 out_ld ->
  Shlex.split (PyStr.strip out_ld) = inr ldflags ->
  w_run w [h; "--libs"] = Exited 0 out_libs ->
  Shlex.split (PyStr.strip out_libs) = inr libs ->
  w_run w [h; "--system-libs"] = Exited 0 out_sys ->
  Shlex.split (PyStr.strip out_sys) = inr system_libs ->
  let output_lib := Pathlib.parent path // "libLLVM.so" in
  let args :=
    [cpp; "-shared"; "-o"; Pathlib.str (w_resolve w (st_fs s) output_lib)] ++
    ldflags ++ ["-Wl,--whole-archive"] ++ libs ++
    ["-Wl,--no-whole-archive"] ++ system_libs in
  LLVMCPy.resolve_libraries w self cpp path s =
  (match w_run w args with
   | Exited 0 _ => inr [output_lib]
   | Exited rc _ => inl (CalledProcessError rc args)
   | NotStarted => inl (OSError cpp)
   end,
   set_fs (w_effect w args (st_fs s))
     (extend [EvCheckOutput [h; "--libdir"]; EvCheckOutput [h; "--shared-mode"];
              EvCheckOutput [h; "--ldflags"]; EvCheckOutput [h; "--libs"];
              EvCheckOutput [h; "--system-libs"]; EvCheckCall args] s)).
Proof.
  intros Hcfg Hdir Hmode Hstatic Hscan Hld Hsld Hlibs Hslibs Hsys Hssys
         output_lib args.
  unfold LLVMCPy.resolve_libraries.
  erewrite bind_inr by (eapply run_llvm_config_ok; eauto).
  erewrite bind_inr by (eapply run_llvm_config_ok; eauto).
  rewrite Hstatic. cbn [String.eqb Ascii.eqb Bool.eqb].
  rewrite extend_extend.
  unfold bind at 1. unfold bind at 1. unfold gets at 1. cbn [app].
  change (st_fs (extend _ s)) with (st_fs s). rewrite Hscan.
  cbn [length Nat.eqb andb].
  unfold bind at 1.
  erewrite synthesize_run by eauto.
  change (st_fs (extend _ s)) with (st_fs s). fold output_lib. fold args.
  destruct (w_run w args) as [rc out|]; [destruct rc|];
    unfold ret; cbn [app length Nat.eqb]; rewrite extend_extend; reflexivity.
Qed.

(** C3. In shared mode [static] with no library found by the scan, the
    linker is started exactly once, as
    [<compiler> -shared -o <output> <ldflags...> -Wl,--whole-archive
    <libs...> -Wl,--no-whole-archive <system libs...>], the three lists
    of flags being the helper's answers split by [shlex]; when it exits
    with status zero its output library is the only library the resolver
    returns. *)
Theorem static_mode_synthesizes_once
    (w : world) (self : LLVMCPy.Self) (cpp : string) (path : Path) (s : state)
    (h out_dir out_mode out_ld out_libs out_sys out : string)
    (ldflags libs system_libs : list string) :
  LLVMCPy._llvm_config self = Some h ->
  w_run w [h; "--libdir"] = Exited 0 out_dir ->
  w_run w [h; "--shared-mode"] = Exited 0 out_mode ->
  PyStr.strip out_mode = "static" ->
  LLVMCPy.scanned_libraries (st_fs s) (LLVMCPy.extension w)
    (Pathlib.of_str (PyStr.strip out_dir)) = [] ->
  w_run w [h; "--ldflags"] = Exited 0 out_ld ->
  Shlex.split (PyStr.strip out_ld) = inr ldflags ->
  w_run w [h; "--libs"] = Exited 0 out_libs ->
  Shlex.split (PyStr.strip out_libs) = inr libs ->
  w_run w [h; "--system-libs"] = Exited 0 out_sys ->
  Shlex.split (PyStr.strip out_sys) = inr system_libs ->
  let output_lib := Pathlib.parent path // "libLLVM.so" in
  let args :=
    [cpp; "-shared"; "-o"; Pathlib.str (w_resolve w (st_fs s) output_lib)] ++
    ldflags ++ ["-Wl,--whole-archive"] ++ libs ++
    ["-Wl,--no-whole-archive"] ++ system_libs in
  w_run w args = Exited 0 out ->
  LLVMCPy.resolve_libraries w self cpp path s =
  (inr [output_lib],
   set_fs (w_effect w args (st_fs s))
     (extend [EvCheckOutput [h; "--libdir"]; EvCheckOutput [h; "--shared-mode"];
              EvCheckOutput [h; "--ldflags"]; EvCheckOutput [h; "--libs"];
              EvCheckOutput [h; "--system-libs"]; EvCheckCall args] s)).
Proof.
  intros Hcfg Hdir Hmode Hstatic Hscan Hld Hsld Hlibs Hslibs Hsys Hssys
         output_lib args Hlink.
  erewrite static_mode_run by eauto.
  fold output_lib. fold args. rewrite Hlink. reflexivity.
Qed.

Lemma static_mode_synthesizes_once_witness :
  let args :=
    ["/usr/bin/clang"; "-shared"; "-o"; "/home/u/.cache/llvmcpy/105dc65bea0e718a9bfb5ab399d568c163af2b25aa57b433670313120209a869-14.0.6/libLLVM.so";
     "-L/usr/lib/llvm"; "-Wl,--whole-archive"; "-lLLVMCore"; "-lLLVMSupport";
     "-Wl,--no-whole-archive"; "-lz"; "-lm"] in
  fst (LLVMCPy.resolve_libraries
         (Sample.toolchain "static" "" 0 Sample.binding)
         Sample.self "/usr/bin/clang" Sample.artifact (Sample.start Sample.fs_static)) =
    inr [Pathlib.parent Sample.artifact // "libLLVM.so"] /\
  st_trace (snd (LLVMCPy.resolve_libraries
         (Sample.toolchain "static" "" 0 Sample.binding)
         Sample.self "/usr/bin/clang" Sample.artifact (Sample.start Sample.fs_static))) =
    [EvCheckOutput ["/usr/bin/llvm-config"; "--libdir"];
     EvCheckOutput ["/usr/bin/llvm-config"; "--shared-mode"];
     EvCheckOutput ["/usr/bin/llvm-config"; "--ldflags"];
     EvCheckOutput ["/usr/bin/llvm-config"; "--libs"];
     EvCheckOutput ["/usr/bin/llvm-config"; "--system-libs"];
     EvCheckCall args].
Proof.
  intros args.
  assert (E := static_mode_synthesizes_once
             (Sample.toolchain "static" "" 0 Sample.binding)
             Sample.self "/usr/bin/clang" Sample.artifact (Sample.start Sample.fs_static)
             "/usr/bin/llvm-config" ("/usr/lib/llvm" +:+ Sample.nl)
             ("static" +:+ Sample.nl) ("-L/usr/lib/llvm" +:+ Sample.nl)
             ("-lLLVMCore -lLLVMSupport" +:+ Sample.nl) ("-lz '-lm'" +:+ Sample.nl) ""
             ["-L/usr/lib/llvm"] ["-lLLVMCore"; "-lLLVMSupport"] ["-lz"; "-lm"]
             eq_refl eq_refl eq_refl eq_refl eq_refl eq_refl eq_refl eq_refl
             eq_refl eq_refl eq_refl eq_refl).
  rewrite E. split; reflexivity.
Defined.

(** The libraries of the scan are regular files of the library directory
    that match the pattern and are not symbolic links. *)
Lemma scanned_libraries_spec fs ext d p :
  p ∈ LLVMCPy.scanned_libraries fs ext d <->
  p ∈ OS.glob fs d ("libLLVM*" +:+ ext +:+ "*") /\
  OS.is_file fs p = true /\ OS.is_symlink fs p = false.
Proof.
  unfold LLVMCPy.scanned_libraries.
  rewrite !list_elem_of_In, List.filter_In, andb_true_iff, negb_true_iff.
  reflexivity.
Qed.

(** C2, as the code has it.  In shared mode [shared] the library directory
    is never scanned: when no declared name has the extension among its
    suffixes the resolver fails with the error that no usable library was
    found, whatever the directory holds.  The scan (the glob pattern, only
    regular files that are not symbolic links) is what the resolver uses
    when the shared mode is not [shared]. *)
Theorem shared_mode_without_match_fails_without_scan
    (w : world) (self : LLVMCPy.Self) (cpp : string) (path : Path) (s : state)
    (h out_dir out_mode : string) :
  LLVMCPy._llvm_config self = Some h ->
  w_run w [h; "--libdir"] = Exited 0 out_dir ->
  w_run w [h; "--shared-mode"] = Exited 0 out_mode ->
  let libdir := Pathlib.of_str (PyStr.strip out_dir) in
  let scanned := LLVMCPy.scanned_libraries (st_fs s) (LLVMCPy.extension w) libdir in
  (PyStr.strip out_mode = "shared" ->
   forall out_names,
     w_run w [h; "--libnames"] = Exited 0 out_names ->
     LLVMCPy.declared_libraries (LLVMCPy.extension w) libdir
       (PyStr.strip out_names) = [] ->
     LLVMCPy.resolve_libraries w self cpp path s =
     (inl (ValueError
        "No valid LLVM libraries found, LLVM must be built with BUILD_SHARED_LIBS"),
      extend [EvCheckOutput [h; "--libdir"]; EvCheckOutput [h; "--shared-mode"];
              EvCheckOutput [h; "--libnames"]] s)) /\
  (PyStr.strip out_mode <> "shared" ->
   scanned <> [] ->
   LLVMCPy.resolve_libraries w self cpp path s =
   (inr scanned,
    extend [EvCheckOutput [h; "--libdir"]; EvCheckOutput [h; "--shared-mode"]] s) /\
   forall p, p ∈ scanned <->
     p ∈ OS.glob (st_fs s) libdir ("libLLVM*" +:+ LLVMCPy.extension w +:+ "*") /\
     OS.is_file (st_fs s) p = true /\ OS.is_symlink (st_fs s) p = false).
Proof.
  intros Hcfg Hdir Hmode libdir scanned. split.
  - intros Hshared out_names Hnames Hnone.
    unfold LLVMCPy.resolve_libraries.
    erewrite bind_inr by (eapply run_llvm_config_ok; eauto).
    erewrite bind_inr by (eapply run_llvm_config_ok; eauto).
    rewrite Hshared. cbn [String.eqb Ascii.eqb Bool.eqb].
    erewrite (bind_inr (bind _ _)).
    2:{ erewrite bind_inr by (eapply run_llvm_config_ok; eauto). reflexivity. }
    fold libdir. rewrite Hnone. cbn [length Nat.eqb]. unfold raise.
    rewrite !extend_extend. reflexivity.
  - intros Hns Hsome. split; [|intros p; apply scanned_libraries_spec].
    unfold LLVMCPy.resolve_libraries.
    erewrite bind_inr by (eapply run_llvm_config_ok; eauto).
    erewrite bind_inr by (eapply run_llvm_config_ok; eauto).
    rewrite (eqb_neq_false _ _ Hns). rewrite extend_extend.
    unfold bind at 1. unfold bind at 1. unfold gets at 1. cbn [app].
    change (st_fs (extend _ s)) with (st_fs s). fold libdir. fold scanned.
    destruct scanned as [|p l] eqn:E; [congruence|].
    cbn [length Nat.eqb andb]. reflexivity.
Qed.

Lemma shared_mode_without_match_fails_without_scan_witness :
  LLVMCPy.resolve_libraries
    (Sample.toolchain "shared" "libLLVMCore.a" 0 Sample.binding)
    Sample.self "/usr/bin/clang" Sample.artifact (Sample.start Sample.fs) =
  (inl (ValueError
     "No valid LLVM libraries found, LLVM must be built with BUILD_SHARED_LIBS"),
   extend [EvCheckOutput ["/usr/bin/llvm-config"; "--libdir"];
           EvCheckOutput ["/usr/bin/llvm-config"; "--shared-mode"];
           EvCheckOutput ["/usr/bin/llvm-config"; "--libnames"]]
          (Sample.start Sample.fs)).
Proof.
  exact (proj1 (shared_mode_without_match_fails_without_scan
                  (Sample.toolchain "shared" "libLLVMCore.a" 0 Sample.binding)
                  Sample.self "/usr/bin/clang" Sample.artifact (Sample.start Sample.fs)
                  "/usr/bin/llvm-config" ("/usr/lib/llvm" +:+ Sample.nl)
                  ("shared" +:+ Sample.nl) eq_refl eq_refl eq_refl)
               eq_refl ("libLLVMCore.a" +:+ Sample.nl) eq_refl eq_refl).
Defined.

(** C2 as it was stated fails: the helper reports [shared], no declared
    name matches, the library directory holds a regular shared library
    that the scan would return, and the resolver fails without looking at
    it. *)
Lemma shared_mode_scan_fallback_counterexample :
  let w := Sample.toolchain "shared" "libLLVMCore.a" 0 Sample.binding in
  let s := Sample.start Sample.fs in
  let libdir := Pathlib.of_str "/usr/lib/llvm" in
  w_run w ["/usr/bin/llvm-config"; "--shared-mode"] = Exited 0 ("shared" +:+ Sample.nl) /\
  LLVMCPy.declared_libraries (LLVMCPy.extension w) libdir "libLLVMCore.a" = [] /\
  LLVMCPy.scanned_libraries (st_fs s) (LLVMCPy.extension w) libdir =
    [libdir // "libLLVM-14.so.1"] /\
  fst (LLVMCPy.resolve_libraries w Sample.self "/usr/bin/clang" Sample.artifact s) =
    inl (ValueError
      "No valid LLVM libraries found, LLVM must be built with BUILD_SHARED_LIBS") /\
  st_trace (snd (LLVMCPy.resolve_libraries w Sample.self "/usr/bin/clang"
                   Sample.artifact s)) =
    [EvCheckOutput ["/usr/bin/llvm-config"; "--libdir"];
     EvCheckOutput ["/usr/bin/llvm-config"; "--shared-mode"];
     EvCheckOutput ["/usr/bin/llvm-config"; "--libnames"]].
Proof. vm_compute. repeat split; reflexivity. Qed.

(** ** The name of the cache directory *)

Lemma append_cons c s t : String c s +:+ t = String c (s +:+ t).
Proof. reflexivity. Qed.

Lemma length_append a b :
  String.length (a +:+ b) = String.length a + String.length b.
Proof.
  induction a as [|c a IH]; [reflexivity|].
  rewrite append_cons. simpl. rewrite IH. reflexivity.
Qed.

Lemma append_assoc a b c : (a +:+ b) +:+ c = a +:+ (b +:+ c).
Proof.
  induction a as [|x a IH]; [reflexivity|].
  rewrite !append_cons, IH. reflexivity.
Qed.

Lemma append_inj_same_length a a' b b' :
  String.length a = String.length a' ->
  a +:+ b = a' +:+ b' -> a = a' /\ b = b'.
Proof.
  revert a'. induction a as [|c a IH]; intros [|c' a'] Hlen H;
    try discriminate.
  - split; [reflexivity | exact H].
  - rewrite !append_cons in H. injection H as -> H.
    destruct (IH a') as [-> ->]; [simpl in Hlen; lia | exact H | done].
Qed.

Lemma append_cancel_r a a' c : a +:+ c = a' +:+ c -> a = a'.
Proof.
  intros H. apply (append_inj_same_length a a' c c); [|exact H].
  apply (f_equal String.length) in H. rewrite !length_append in H. lia.
Qed.

Lemma hexdigest_length h : String.length (Sha256.hexdigest h) = 64.
Proof.
  unfold Sha256.hexdigest. generalize (Sha256.digest (Sha256.bytes_of h)).
  intros r. reflexivity.
Qed.

Lemma dir_name_unfold p t v :
  LLVMCPy.dir_name p t v = Sha256.hexdigest (key_bytes p t) +:+ "-" +:+ v.
Proof. reflexivity. Qed.

(** Two names are equal exactly when the digests and the versions of the
    toolkit are. *)
Lemma dir_name_inj p t v p' t' v' :
  LLVMCPy.dir_name p t v = LLVMCPy.dir_name p' t' v' ->
  Sha256.hexdigest (key_bytes p t) = Sha256.hexdigest (key_bytes p' t') /\ v = v'.
Proof.
  rewrite !dir_name_unfold. intros H.
  apply append_inj_same_length in H; [|rewrite !hexdigest_length; reflexivity].
  destruct H as [Hd Hv]. split; [exact Hd|].
  rewrite !append_cons in Hv. injection Hv as Hv. exact Hv.
Qed.

(** With one of the two components fixed, the bytes that are hashed
    determine the other. *)
Lemma key_bytes_inj_path p p' t : key_bytes p t = key_bytes p' t -> p = p'.
Proof. apply append_cancel_r. Qed.

Lemma key_bytes_inj_version p t t' : key_bytes p t = key_bytes p t' -> t = t'.
Proof.
  unfold key_bytes. intros H. apply (inj (String.app p)) in H.
  injection H as H. exact H.
Qed.

(** C4. The name of the cache directory is the hex digest of SHA-256 over
    the bytes of the helper path, one null byte and the version of the
    tool, then a hyphen and the version of the toolkit.  It is a function
    of these three inputs, and two derivations that differ in exactly one
    of them give different names, short of a collision of SHA-256 on the
    two byte strings that are hashed (a change of the toolkit version
    changes the hash input not at all, and needs no such proviso). *)
Theorem cache_dir_name_fingerprint (p t v p' t' v' : string) :
  ~ sha256_collision (key_bytes p t) (key_bytes p' t') ->
  LLVMCPy.dir_name p t v =
    Sha256.hexdigest
      (Sha256.update (Sha256.update Sha256.new p) (String "000" t)) +:+ "-" +:+ v /\
  (p = p' -> t = t' -> v = v' ->
   LLVMCPy.dir_name p t v = LLVMCPy.dir_name p' t' v') /\
  (p <> p' -> t = t' -> v = v' ->
   LLVMCPy.dir_name p t v <> LLVMCPy.dir_name p' t' v') /\
  (p = p' -> t <> t' -> v = v' ->
   LLVMCPy.dir_name p t v <> LLVMCPy.dir_name p' t' v') /\
  (p = p' -> t = t' -> v <> v' ->
   LLVMCPy.dir_name p t v <> LLVMCPy.dir_name p' t' v').
Proof.
  intros Hnc. split; [reflexivity|]. split; [congruence|].
  split; [|split].
  - intros Hp <- <- H. apply dir_name_inj in H as [Hd _].
    apply Hnc. split; [|exact Hd].
    intros E. apply Hp. eapply key_bytes_inj_path, E.
  - intros <- Ht <- H. apply dir_name_inj in H as [Hd _].
    apply Hnc. split; [|exact Hd].
    intros E. apply Ht. eapply key_bytes_inj_version, E.
  - intros <- <- Hv H. apply dir_name_inj in H as [_ E]. exact (Hv E).
Qed.

Lemma cache_dir_name_fingerprint_witness :
  LLVMCPy.dir_name "/usr/bin/llvm-config" "0.2.1" "14.0.6" =
    "105dc65bea0e718a9bfb5ab399d568c163af2b25aa57b433670313120209a869-14.0.6" /\
  LLVMCPy.dir_name "/usr/bin/llvm-config" "0.2.1" "14.0.6" <>
  LLVMCPy.dir_name "/opt/llvm/bin/llvm-config" "0.2.1" "14.0.6".
Proof.
  split; [vm_compute; reflexivity|].
  refine (proj1 (proj2 (proj2
    (cache_dir_name_fingerprint "/usr/bin/llvm-config" "0.2.1" "14.0.6"
       "/opt/llvm/bin/llvm-config" "0.2.1" "14.0.6" _))) _ eq_refl eq_refl).
  - intros [_ H]. vm_compute in H. discriminate H.
  - discriminate.
Defined.

(** ** What the operations leave alone *)

Section Frame.
Variable R : state -> state -> Prop.
Hypothesis R_refl : forall s, R s s.
Hypothesis R_trans : forall s1 s2 s3, R s1 s2 -> R s2 s3 -> R s1 s3.
Hypothesis R_event : forall e s, R s (add_event e s).
Hypothesis R_fs : forall fs s, R s (set_fs fs s).

Lemma preserves_ret {A} (a : A) : preserves R (ret a).
Proof. intros s. apply R_refl. Qed.

Lemma preserves_raise {A} e : preserves R (@raise A e).
Proof. intros s. apply R_refl. Qed.

Lemma preserves_gets {A} (f : state -> A) : preserves R (gets f).
Proof. intros s. apply R_refl. Qed.

Lemma preserves_log e : preserves R (log e).
Proof. intros s. apply R_event. Qed.

Lemma preserves_bind {A B} (m : M A) (k : A -> M B) :
  preserves R m -> (forall a, preserves R (k a)) -> preserves R (bind m k).
Proof.
  intros Hm Hk s. unfold bind. specialize (Hm s).
  destruct (m s) as [[e|a] s1]; simpl in *; [exact Hm|].
  eapply R_trans; [exact Hm | apply Hk].
Qed.

Ltac frame_with known :=
  repeat first
    [ known
    | apply preserves_ret | apply preserves_raise | apply preserves_gets
    | apply preserves_log | apply preserves_bind; [|intros ?]
    | match goal with
      | |- preserves _ (match ?x with _ => _ end) => destruct x
      end ].

Ltac frame := frame_with fail.

Lemma preserves_check_output w cmd : preserves R (check_output w cmd).
Proof. unfold check_output. frame. Qed.

Lemma preserves_check_call w cmd : preserves R (check_call w cmd).
Proof.
  unfold check_call. frame.
  intros s. apply R_fs.
Qed.

Lemma preserves_shlex_split text : preserves R (shlex_split text).
Proof. unfold shlex_split. frame. Qed.

Lemma preserves_mkdir p : preserves R (mkdir p).
Proof.
  unfold mkdir. frame. intros s.
  destruct (OS.mkdir (st_fs s) p) as [[]|fs']; simpl;
    [apply R_refl..|apply R_fs].
Qed.

Lemma preserves_generate_wrapper w cpp libraries include_dir path :
  preserves R (generate_wrapper w cpp libraries include_dir path).
Proof.
  unfold generate_wrapper. frame. intros s.
  destruct (w_generate w cpp libraries include_dir path (st_fs s))
    as [c|e [c|]]; simpl; first [apply R_fs | apply R_refl].
Qed.

Lemma preserves_get_version w : preserves R (_get_version w).
Proof. unfold _get_version. frame. Qed.

Lemma preserves_find_program w self env names :
  preserves R (LLVMCPy._find_program w self env names).
Proof. unfold LLVMCPy._find_program. frame. Qed.

Lemma preserves_run_llvm_config w self args :
  preserves R (LLVMCPy._run_llvm_config w self args).
Proof.
  unfold LLVMCPy._run_llvm_config.
  frame_with ltac:(apply preserves_check_output).
Qed.

Lemma preserves_synthesize w self cpp path :
  preserves R (LLVMCPy.synthesize w self cpp path).
Proof.
  unfold LLVMCPy.synthesize.
  frame_with ltac:(first [ apply preserves_run_llvm_config
                         | apply preserves_shlex_split
                         | apply preserves_check_call ]).
Qed.

Lemma preserves_resolve_libraries w self cpp path :
  preserves R (LLVMCPy.resolve_libraries w self cpp path).
Proof.
  unfold LLVMCPy.resolve_libraries.
  frame_with ltac:(first [ apply preserves_run_llvm_config
                         | apply preserves_synthesize ]).
Qed.

Lemma preserves_make_wrapper w self path :
  preserves R (LLVMCPy._make_wrapper w self path).
Proof.
  unfold LLVMCPy._make_wrapper.
  frame_with ltac:(first [ apply preserves_run_llvm_config
                         | apply preserves_resolve_libraries
                         | apply preserves_find_program
                         | apply preserves_generate_wrapper ]).
Qed.

(** Loading allocates a module object and fills it: every relation that
    ignores the module objects is kept by the whole constructor. *)
Hypothesis R_modules : forall ms s, R s (set_modules ms s).

Lemma preserves_module_from_spec spec : preserves R (module_from_spec spec).
Proof. intros s. apply R_modules. Qed.

Lemma preserves_exec_module w spec module :
  preserves R (exec_module w spec module).
Proof.
  unfold exec_module. frame. intros s.
  destruct (OS.stat (st_fs s) (spec_origin spec)) as [[[c| | |] ? ?]|];
    simpl; try apply R_refl.
  destruct (w_exec w c); simpl; [apply R_refl | apply R_modules].
Qed.

Lemma preserves_get_module w self : preserves R (LLVMCPy._get_module w self).
Proof.
  unfold LLVMCPy._get_module.
  frame_with ltac:(first [ apply preserves_get_version | apply preserves_mkdir
                         | apply preserves_make_wrapper
                         | apply preserves_module_from_spec
                         | apply preserves_exec_module ]).
Qed.

Lemma preserves_init w llvm_config : preserves R (LLVMCPy.__init__ w llvm_config).
Proof.
  unfold LLVMCPy.__init__.
  frame_with ltac:(first [ apply preserves_run_llvm_config
                         | apply preserves_find_program
                         | apply preserves_get_module ]).
Qed.

End Frame.

(** ** The constructor, step by step *)

Lemma find_program_run w self env names s :
  LLVMCPy._find_program w self env names s =
  (match LLVMCPy.find_first (st_fs s) (PyStr.join ":" (LLVMCPy._search_paths self))
           (default "" (w_environ w !! env) :: names) with
   | Some path => inr path
   | None =>
       inl (RuntimeError
              ("Couldn't find " +:+ env +:+
               " or any of the following executables in PATH: " +:+
               PyStr.join " " names))
   end, s).
Proof.
  unfold LLVMCPy._find_program, bind, gets.
  destruct (LLVMCPy.find_first _ _ _); reflexivity.
Qed.

Lemma init_run w llvm_config s cfg out_bin out_ver :
  located_helper w (st_fs s) llvm_config = Some cfg ->
  w_run w [cfg; "--bindir"] = Exited 0 out_bin ->
  w_run w [cfg; "--version"] = Exited 0 out_ver ->
  let self := self_after_queries w cfg out_bin out_ver in
  LLVMCPy.__init__ w llvm_config s =
  bind (LLVMCPy._get_module w self)
       (fun module =>
          bind (gets (fun s => default ∅ (st_modules s !! module)))
               (fun ns => ret (LLVMCPy.copy_symbols ns (LLVMCPy.attributes self))))
       (extend [EvCheckOutput [cfg; "--bindir"]; EvCheckOutput [cfg; "--version"]] s).
Proof.
  intros Hloc Hbin Hver self. unfold LLVMCPy.__init__.
  erewrite (bind_inr _ _ s cfg s).
  2:{ destruct llvm_config as [c|]; unfold located_helper in Hloc.
      - injection Hloc as ->. reflexivity.
      - rewrite find_program_run. cbn [LLVMCPy._search_paths].
        rewrite Hloc. reflexivity. }
  cbn [LLVMCPy._search_paths LLVMCPy._llvm_config LLVMCPy.version].
  erewrite bind_inr by (eapply run_llvm_config_ok; [reflexivity|eauto]).
  cbn [LLVMCPy._search_paths LLVMCPy._llvm_config LLVMCPy.version].
  erewrite bind_inr by (eapply run_llvm_config_ok; [reflexivity|eauto]).
  rewrite extend_extend. reflexivity.
Qed.

(** The cache lookup of [_get_module], once the three inputs of the name
    are known. *)
Lemma get_module_run w self s cfg tv v :
  LLVMCPy._llvm_config self = Some cfg ->
  w_dist_version w "llvmcpy" = Some tv ->
  LLVMCPy.version self = Some v ->
  let dname := LLVMCPy.dir_name cfg tv v in
  let cdir := LLVMCPy.cache_dir w dname in
  let artifact := cdir // "llvmcpyimpl.py" in
  let spec := spec_from_file_location ("llvmcpy-" +:+ dname) artifact in
  LLVMCPy._get_module w self s =
  bind (if negb (OS.exists_ (st_fs s) artifact)
        then bind (mkdir cdir) (fun _ => LLVMCPy._make_wrapper w self artifact)
        else ret tt)
       (fun _ =>
          bind (module_from_spec spec)
               (fun module => bind (exec_module w spec module)
                                   (fun _ => ret module))) s.
Proof.
  intros Hcfg Htv Hv dname cdir artifact spec.
  unfold LLVMCPy._get_module. rewrite Hcfg, Hv.
  unfold bind at 1. unfold ret at 1.
  unfold bind at 1.
  assert (Hgv : _get_version w s = (inr tv, s)).
  { unfold _get_version. rewrite Htv. destruct (version_lt _ _); reflexivity. }
  rewrite Hgv.
  unfold bind at 1. unfold ret at 1.
  unfold bind at 1. unfold gets at 1.
  reflexivity.
Qed.

(** Loading: a new module object, then the text of the artifact run in
    it.  The new object is the last one, and no other is touched. *)
Lemma load_run w spec s :
  bind (module_from_spec spec)
       (fun module => bind (exec_module w spec module) (fun _ => ret module)) s =
  let loaded ns :=
    set_modules (st_modules s ++ [ns])
      (extend [EvExecModule (spec_name spec) (spec_origin spec)] s) in
  match OS.stat (st_fs s) (spec_origin spec) with
  | Some (OS.Dirent (OS.FReg content) _ _) =>
      match w_exec w content with
      | inr ns => (inr (length (st_modules s)), loaded (ns ∪ fresh_namespace spec))
      | inl e => (inl e, loaded (fresh_namespace spec))
      end
  | _ => (inl (OSError "cannot read the artifact"), loaded (fresh_namespace spec))
  end.
Proof.
  unfold bind at 1. unfold module_from_spec.
  unfold exec_module, bind, log, modify, set_modules, add_event, extend, ret.
  cbn [st_fs st_trace st_sys_modules st_modules fst snd].
  destruct (OS.stat (st_fs s) (spec_origin spec)) as [[[c| | |] ? ?]|];
    try reflexivity.
  destruct (w_exec w c) as [e|ns]; [reflexivity|].
  cbn [st_fs st_trace st_sys_modules st_modules fst snd].
  replace (length (st_modules s)) with (length (st_modules s) + 0) at 2 by lia.
  rewrite alter_app_r. reflexivity.
Qed.

(** ** Instances of the frame relations *)

Lemma trace_grows_refl s : trace_grows s s.
Proof. exists []. rewrite app_nil_r. reflexivity. Qed.

Lemma trace_grows_trans s1 s2 s3 :
  trace_grows s1 s2 -> trace_grows s2 s3 -> trace_grows s1 s3.
Proof.
  intros [es1 H1] [es2 H2]. exists (es1 ++ es2).
  rewrite H2, H1, app_assoc. reflexivity.
Qed.

Lemma trace_grows_event e s : trace_grows s (add_event e s).
Proof. exists [e]. reflexivity. Qed.

Lemma trace_grows_fs fs s : trace_grows s (set_fs fs s).
Proof. exists []. simpl. rewrite app_nil_r. reflexivity. Qed.

Lemma trace_grows_modules ms s : trace_grows s (set_modules ms s).
Proof. exists []. simpl. rewrite app_nil_r. reflexivity. Qed.

Lemma same_sys_modules_refl s : same_sys_modules s s.
Proof. reflexivity. Qed.

Lemma same_sys_modules_trans s1 s2 s3 :
  same_sys_modules s1 s2 -> same_sys_modules s2 s3 -> same_sys_modules s1 s3.
Proof. unfold same_sys_modules. congruence. Qed.

Lemma same_sys_modules_event e s : same_sys_modules s (add_event e s).
Proof. reflexivity. Qed.

Lemma same_sys_modules_fs fs s : same_sys_modules s (set_fs fs s).
Proof. reflexivity. Qed.

Lemma same_sys_modules_modules ms s : same_sys_modules s (set_modules ms s).
Proof. reflexivity. Qed.

Lemma same_modules_refl s : same_modules s s.
Proof. reflexivity. Qed.

Lemma same_modules_trans s1 s2 s3 :
  same_modules s1 s2 -> same_modules s2 s3 -> same_modules s1 s3.
Proof. unfold same_modules. congruence. Qed.

Lemma same_modules_event e s : same_modules s (add_event e s).
Proof. reflexivity. Qed.

Lemma same_modules_fs fs s : same_modules s (set_fs fs s).
Proof. reflexivity. Qed.

Create HintDb frame.
#[export] Hint Resolve trace_grows_refl trace_grows_trans trace_grows_event
  trace_grows_fs trace_grows_modules
  same_sys_modules_refl same_sys_modules_trans same_sys_modules_event
  same_sys_modules_fs same_sys_modules_modules
  same_modules_refl same_modules_trans same_modules_event same_modules_fs
  : frame.

(** ** The cache *)

(** A directory that is already there is left as it is. *)
Lemma os_mkdir_existing fs p :
  OS.is_dir fs p = true -> OS.mkdir fs p = inr fs.
Proof.
  intros Hd. unfold OS.mkdir.
  assert (Hstat : exists e, OS.stat fs p = Some e).
  { unfold OS.is_dir in Hd. destruct (OS.stat fs p) as [e|]; [eauto|discriminate]. }
  destruct Hstat as [e He].
  destruct (length (Pathlib.parts p)); simpl; unfold OS.os_mkdir;
    rewrite He, Hd; reflexivity.
Qed.

Lemma mkdir_existing p s :
  OS.is_dir (st_fs s) p = true -> mkdir p s = (inr tt, extend [EvMkdir p] s).
Proof.
  intros Hd. unfold mkdir, bind, log, modify. simpl.
  rewrite (os_mkdir_existing _ _ Hd). reflexivity.
Qed.

Lemma mkdir_trace p s :
  st_trace (snd (mkdir p s)) = st_trace s ++ [EvMkdir p].
Proof.
  unfold mkdir, bind, log, modify. simpl.
  destruct (OS.mkdir (st_fs s) p) as [[]|fs']; reflexivity.
Qed.

(** What a computation that only makes the trace grow adds after a first
    step. *)
Lemma trace_after_step {A B} (m : M A) (k : A -> M B) s es :
  st_trace (snd (m s)) = st_trace s ++ es ->
  (forall a, preserves trace_grows (k a)) ->
  exists rest, st_trace (snd (bind m k s)) = st_trace s ++ es ++ rest.
Proof.
  intros Hm Hk. unfold bind. destruct (m s) as [[e|a] s1]; simpl in *.
  - exists []. rewrite app_nil_r. exact Hm.
  - destruct (Hk a s1) as [rest Hrest]. exists rest.
    rewrite Hrest, Hm, app_assoc. reflexivity.
Qed.

(** C5, as the code has it.  Whether the cache is hit depends only on
    [exists()] at the path of the artifact.  On a hit the constructor runs
    two helper queries, [--bindir] and [--version], then loads what is at
    that path, whatever it contains: no directory is made, no linker and
    no generator is started.  On a miss the first thing done after the
    two queries is to make the cache directory, so that anything the
    generator does comes later; a directory that is already there is kept
    as it is. *)
Theorem cache_hit_by_existence
    (w : world) (llvm_config : option string) (s : state)
    (cfg out_bin out_ver tv : string) :
  located_helper w (st_fs s) llvm_config = Some cfg ->
  w_run w [cfg; "--bindir"] = Exited 0 out_bin ->
  w_run w [cfg; "--version"] = Exited 0 out_ver ->
  w_dist_version w "llvmcpy" = Some tv ->
  let self := self_after_queries w cfg out_bin out_ver in
  let dname := LLVMCPy.dir_name cfg tv (PyStr.strip out_ver) in
  let cdir := LLVMCPy.cache_dir w dname in
  let artifact := cdir // "llvmcpyimpl.py" in
  let spec := spec_from_file_location ("llvmcpy-" +:+ dname) artifact in
  let queries :=
    [EvCheckOutput [cfg; "--bindir"]; EvCheckOutput [cfg; "--version"]] in
  let loaded ns :=
    set_modules (st_modules s ++ [ns])
      (extend (queries ++ [EvExecModule ("llvmcpy-" +:+ dname) artifact]) s) in
  (OS.exists_ (st_fs s) artifact = true ->
   LLVMCPy.__init__ w llvm_config s =
   match OS.stat (st_fs s) artifact with
   | Some (OS.Dirent (OS.FReg content) _ _) =>
       match w_exec w content with
       | inr ns =>
           (inr (LLVMCPy.copy_symbols (ns ∪ fresh_namespace spec)
                   (LLVMCPy.attributes self)),
            loaded (ns ∪ fresh_namespace spec))
       | inl e => (inl e, loaded (fresh_namespace spec))
       end
   | _ => (inl (OSError "cannot read the artifact"), loaded (fresh_namespace spec))
   end) /\
  (OS.exists_ (st_fs s) artifact = false ->
   exists rest,
     st_trace (snd (LLVMCPy.__init__ w llvm_config s)) =
     st_trace s ++ queries ++ EvMkdir cdir :: rest) /\
  (forall s0, OS.is_dir (st_fs s0) cdir = true ->
              mkdir cdir s0 = (inr tt, extend [EvMkdir cdir] s0)).
Proof.
  intros Hloc Hbin Hver Htv self dname cdir artifact spec queries loaded.
  pose proof (init_run w llvm_config s cfg out_bin out_ver Hloc Hbin Hver) as Hinit.
  cbv zeta in Hinit. fold self in Hinit. fold queries in Hinit.
  pose proof (fun s0 => get_module_run w self s0 cfg tv (PyStr.strip out_ver)
                          eq_refl Htv eq_refl) as Hget.
  cbv zeta in Hget. fold dname cdir artifact spec in Hget.
  split; [|split].
  - intros Hhit. rewrite Hinit. unfold bind at 1. rewrite Hget.
    change (st_fs (extend queries s)) with (st_fs s). rewrite Hhit.
    cbn [negb]. unfold bind at 1. unfold ret at 1.
    rewrite load_run. cbv zeta.
    change (st_fs (extend queries s)) with (st_fs s).
    change (st_modules (extend queries s)) with (st_modules s).
    change (spec_origin spec) with artifact.
    change (spec_name spec) with ("llvmcpy-" +:+ dname).
    rewrite extend_extend.
    destruct (OS.stat (st_fs s) artifact) as [[[c| | |] ? ?]|]; try reflexivity.
    destruct (w_exec w c) as [e|ns]; [reflexivity|].
    unfold bind, gets, ret, loaded. cbn [st_modules set_modules].
    rewrite lookup_app_r by lia. rewrite Nat.sub_diag. reflexivity.
  - intros Hmiss. rewrite Hinit.
    assert (Hgrow : exists rest,
               st_trace (snd (LLVMCPy._get_module w self (extend queries s))) =
               st_trace (extend queries s) ++ [EvMkdir cdir] ++ rest).
    { rewrite Hget. change (st_fs (extend queries s)) with (st_fs s).
      rewrite Hmiss. cbn [negb].
      assert (Hmw : exists rest,
                 st_trace (snd (bind (mkdir cdir)
                                  (fun _ => LLVMCPy._make_wrapper w self artifact)
                                  (extend queries s))) =
                 st_trace (extend queries s) ++ [EvMkdir cdir] ++ rest).
      { apply trace_after_step; [apply mkdir_trace|].
        intros _. apply preserves_make_wrapper;
          eauto using trace_grows_refl, trace_grows_trans, trace_grows_event,
                      trace_grows_fs. }
      destruct Hmw as [rest1 Hmw].
      destruct (trace_after_step
                  (bind (mkdir cdir) (fun _ => LLVMCPy._make_wrapper w self artifact))
                  (fun _ => bind (module_from_spec spec)
                              (fun module => bind (exec_module w spec module)
                                               (fun _ => ret module)))
                  (extend queries s) ([EvMkdir cdir] ++ rest1) Hmw) as [rest2 H2].
      { intros _. apply preserves_bind;
          eauto using trace_grows_refl, trace_grows_trans.
        - apply preserves_module_from_spec. apply trace_grows_modules.
        - intros m. apply preserves_bind;
            eauto using trace_grows_refl, trace_grows_trans.
          + apply preserves_exec_module;
              eauto using trace_grows_refl, trace_grows_trans, trace_grows_event,
                          trace_grows_modules.
          + intros _. apply preserves_ret. apply trace_grows_refl. }
      exists (rest1 ++ rest2). rewrite H2. rewrite <- !app_assoc. reflexivity. }
    destruct Hgrow as [rest1 Hgrow].
    destruct (trace_after_step (LLVMCPy._get_module w self)
                (fun module =>
                   bind (gets (fun s => default ∅ (st_modules s !! module)))
                     (fun ns => ret (LLVMCPy.copy_symbols ns (LLVMCPy.attributes self))))
                (extend queries s) ([EvMkdir cdir] ++ rest1) Hgrow) as [rest2 H2].
    { intros m. apply preserves_bind;
        eauto using trace_grows_refl, trace_grows_trans.
      - apply preserves_gets. apply trace_grows_refl.
      - intros ns. apply preserves_ret. apply trace_grows_refl. }
    exists (rest1 ++ rest2). rewrite H2. simpl. rewrite <- !app_assoc. reflexivity.
  - intros s0. apply mkdir_existing.
Qed.

(** ** What making the cache directory leaves alone *)

Lemma join_snoc sep l x :
  l <> [] -> PyStr.join sep (l ++ [x]) = PyStr.join sep l +:+ sep +:+ x.
Proof.
  induction l as [|y l IH]; [congruence|]. intros _.
  destruct l as [|z l].
  - reflexivity.
  - change (PyStr.join sep ((y :: z :: l) ++ [x]))
      with (y +:+ sep +:+ PyStr.join sep ((z :: l) ++ [x])).
    rewrite IH by discriminate.
    change (PyStr.join sep (y :: z :: l))
      with (y +:+ sep +:+ PyStr.join sep (z :: l)).
    rewrite !append_assoc. reflexivity.
Qed.

Lemma str_nonempty_parts p :
  Pathlib.parts p <> [] ->
  Pathlib.str p = Pathlib.root p +:+ PyStr.join "/" (Pathlib.parts p).
Proof.
  unfold Pathlib.str. destruct (Pathlib.parts p); [congruence|reflexivity].
Qed.

Lemma keylen_snoc r l x :
  keylen (Pathlib.MkPath r l) < keylen (Pathlib.MkPath r (l ++ [x])) \/
  (l = [] /\ x = "" /\ r = "").
Proof.
  unfold keylen. cbn [Pathlib.parts].
  destruct l as [|y l].
  - cbn [app]. rewrite str_nonempty_parts by discriminate.
    cbn [Pathlib.root Pathlib.parts PyStr.join]. rewrite length_append.
    destruct x; [destruct r|]; simpl; try lia. right. done.
  - left. rewrite !str_nonempty_parts by (destruct l; discriminate).
    cbn [Pathlib.root Pathlib.parts].
    change ((y :: l) ++ [x]) with ((y :: l) ++ [x]).
    rewrite (join_snoc "/" (y :: l) x) by discriminate.
    rewrite !length_append. simpl. lia.
Qed.

Lemma keylen_parent p : keylen (Pathlib.parent p) <= keylen p.
Proof.
  destruct p as [r l]. unfold Pathlib.parent. cbn [Pathlib.root Pathlib.parts].
  destruct l as [|y l]; [reflexivity|].
  destruct (@exists_last _ (y :: l)) as [l' [x E]]; [discriminate|].
  rewrite E, removelast_last.
  destruct (keylen_snoc r l' x) as [H|[-> [-> ->]]]; [lia|].
  vm_compute. lia.
Qed.

Lemma os_mkdir_frame fs p fs' k :
  OS.os_mkdir fs p = inr fs' -> keylen p < String.length k -> fs' !! k = fs !! k.
Proof.
  unfold OS.os_mkdir, OS.stat, keylen.
  destruct (Pathlib.parts p) as [|x l] eqn:Hp; [discriminate|].
  destruct (fs !! Pathlib.str p); [discriminate|].
  destruct (match Pathlib.parts (Pathlib.parent p) with
            | [] => Some OS.directory
            | _ :: _ => fs !! Pathlib.str (Pathlib.parent p)
            end) as [e|]; [|discriminate].
  destruct (OS.is_dirtype (OS.d_type e)); [|discriminate].
  intros [= <-] Hlen. apply lookup_insert_ne. intros E. rewrite E in Hlen. lia.
Qed.

Lemma mkdir_parents_frame fuel : forall fs p fs' k,
  OS.mkdir_parents fuel fs p = inr fs' ->
  keylen p < String.length k -> fs' !! k = fs !! k.
Proof.
  induction fuel as [|fuel IH]; intros fs p fs' k H Hlen; simpl in H.
  - destruct (OS.os_mkdir fs p) as [[]|fs2] eqn:E.
    + destruct (OS.is_dir fs p); [|discriminate]. injection H as <-. reflexivity.
    + discriminate.
    + destruct (OS.is_dir fs p); [|discriminate]. injection H as <-. reflexivity.
    + injection H as <-. eapply os_mkdir_frame; eauto.
  - destruct (OS.os_mkdir fs p) as [[]|fs2] eqn:E.
    + destruct (OS.is_dir fs p); [|discriminate]. injection H as <-. reflexivity.
    + destruct (bool_decide (Pathlib.parent p = p)); [discriminate|].
      destruct (OS.mkdir_parents fuel fs (Pathlib.parent p)) as [e|fs1] eqn:E1;
        [discriminate|].
      assert (H1 : fs1 !! k = fs !! k).
      { eapply IH; [exact E1|]. pose proof (keylen_parent p). lia. }
      destruct (OS.os_mkdir fs1 p) as [e|fs2] eqn:E2.
      * destruct (OS.is_dir fs1 p); [|discriminate]. injection H as <-. exact H1.
      * injection H as <-. rewrite <- H1. eapply os_mkdir_frame; eauto.
    + destruct (OS.is_dir fs p); [|discriminate]. injection H as <-. reflexivity.
    + injection H as <-. eapply os_mkdir_frame; eauto.
Qed.

(** Making a directory does not create the file [name] inside it. *)
Lemma mkdir_keeps_child fs d fs' name :
  OS.mkdir fs d = inr fs' ->
  Pathlib.of_str name = Pathlib.MkPath "" [name] ->
  name <> "" ->
  OS.exists_ fs' (d // name) = OS.exists_ fs (d // name).
Proof.
  intros Hmk Hname Hne. unfold Pathlib.joinpath. rewrite Hname.
  cbn [Pathlib.root Pathlib.parts String.eqb].
  unfold OS.exists_, OS.stat. cbn [Pathlib.parts].
  destruct (Pathlib.parts d ++ [name]) as [|y ys] eqn:E.
  { apply app_eq_nil in E. destruct E; discriminate. }
  rewrite <- E.
  erewrite (mkdir_parents_frame _ _ _ _ _ Hmk); [reflexivity|].
  destruct d as [r l].
  destruct (keylen_snoc r l name) as [H|[_ [H _]]]; [|congruence].
  unfold keylen in H at 2. cbn [Pathlib.parts Pathlib.root] in *.
  rewrite E in H. rewrite <- E in H. exact H.
Qed.

(** ** A linker that fails *)

Lemma make_wrapper_run w self path s cpp :
  LLVMCPy.find_first (st_fs s) (PyStr.join ":" (LLVMCPy._search_paths self))
    (default "" (w_environ w !! "CPP") :: ["clang"; "cpp"; "gcc"; "cc"]) = Some cpp ->
  LLVMCPy._make_wrapper w self path s =
  bind (LLVMCPy.resolve_libraries w self cpp path)
       (fun libraries =>
          bind (LLVMCPy._run_llvm_config w self ["--includedir"])
               (fun include_dir =>
                  generate_wrapper w cpp libraries (Pathlib.of_str include_dir) path)) s.
Proof.
  intros Hcpp. unfold LLVMCPy._make_wrapper.
  erewrite bind_inr; [reflexivity|].
  rewrite find_program_run, Hcpp. reflexivity.
Qed.

(** C6. Shared mode [static], nothing found by the scan, and a linker that
    exits with a status other than zero: the constructor ends with the
    error of the linker.  It has run the helper queries, made the cache
    directory and started the linker once; the generator was never
    called and nothing was loaded.  As long as the linker itself did not
    write at the path of the artifact, there is still nothing at that
    path, so the next construction misses the cache again. *)
Theorem failed_link_leaves_no_artifact
    (w : world) (llvm_config : option string) (s : state)
    (cfg out_bin out_ver tv cpp out_dir out_mode out_ld out_libs out_sys out : string)
    (ldflags libs system_libs : list string) (fs1 : OS.FS) (rc : Z) :
  located_helper w (st_fs s) llvm_config = Some cfg ->
  w_run w [cfg; "--bindir"] = Exited 0 out_bin ->
  w_run w [cfg; "--version"] = Exited 0 out_ver ->
  w_dist_version w "llvmcpy" = Some tv ->
  let self := self_after_queries w cfg out_bin out_ver in
  let dname := LLVMCPy.dir_name cfg tv (PyStr.strip out_ver) in
  let cdir := LLVMCPy.cache_dir w dname in
  let artifact := cdir // "llvmcpyimpl.py" in
  OS.exists_ (st_fs s) artifact = false ->
  OS.mkdir (st_fs s) cdir = inr fs1 ->
  LLVMCPy.find_first fs1 (PyStr.join ":" (LLVMCPy._search_paths self))
    (default "" (w_environ w !! "CPP") :: ["clang"; "cpp"; "gcc"; "cc"]) = Some cpp ->
  w_run w [cfg; "--libdir"] = Exited 0 out_dir ->
  w_run w [cfg; "--shared-mode"] = Exited 0 out_mode ->
  PyStr.strip out_mode = "static" ->
  LLVMCPy.scanned_libraries fs1 (LLVMCPy.extension w)
    (Pathlib.of_str (PyStr.strip out_dir)) = [] ->
  w_run w [cfg; "--ldflags"] = Exited 0 out_ld ->
  Shlex.split (PyStr.strip out_ld) = inr ldflags ->
  w_run w [cfg; "--libs"] = Exited 0 out_libs ->
  Shlex.split (PyStr.strip out_libs) = inr libs ->
  w_run w [cfg; "--system-libs"] = Exited 0 out_sys ->
  Shlex.split (PyStr.strip out_sys) = inr system_libs ->
  let output_lib := Pathlib.parent artifact // "libLLVM.so" in
  let args :=
    [cpp; "-shared"; "-o"; Pathlib.str (w_resolve w fs1 output_lib)] ++
    ldflags ++ ["-Wl,--whole-archive"] ++ libs ++
    ["-Wl,--no-whole-archive"] ++ system_libs in
  w_run w args = Exited rc out ->
  rc <> 0%Z ->
  w_effect w args fs1 !! Pathlib.str artifact = fs1 !! Pathlib.str artifact ->
  LLVMCPy.__init__ w llvm_config s =
  (inl (CalledProcessError rc args),
   set_fs (w_effect w args fs1)
     (extend [EvCheckOutput [cfg; "--bindir"]; EvCheckOutput [cfg; "--version"];
              EvMkdir cdir;
              EvCheckOutput [cfg; "--libdir"]; EvCheckOutput [cfg; "--shared-mode"];
              EvCheckOutput [cfg; "--ldflags"]; EvCheckOutput [cfg; "--libs"];
              EvCheckOutput [cfg; "--system-libs"]; EvCheckCall args] s)) /\
  OS.exists_ (w_effect w args fs1) artifact = false.
Proof.
  intros Hloc Hbin Hver Htv self dname cdir artifact Hmiss Hmk Hcpp Hdir Hmode
         Hstatic Hscan Hld Hsld Hlibs Hslibs Hsys Hssys output_lib args Hlink Hrc
         Hframe.
  split.
  - rewrite (init_run w llvm_config s cfg out_bin out_ver Hloc Hbin Hver).
    cbv zeta. fold self.
    erewrite bind_inl; [reflexivity|].
    rewrite (get_module_run w self _ cfg tv (PyStr.strip out_ver) eq_refl Htv eq_refl).
    fold dname cdir artifact.
    change (st_fs (extend _ s)) with (st_fs s). rewrite Hmiss. cbn [negb].
    erewrite bind_inl; [reflexivity|].
    erewrite bind_inr.
    2:{ unfold mkdir, bind, log, modify. cbn [fst snd].
        change (st_fs (add_event _ (extend _ s))) with (st_fs s).
        rewrite Hmk. rewrite add_event_extend, extend_extend. reflexivity. }
    rewrite make_wrapper_run with (cpp := cpp) by exact Hcpp.
    erewrite bind_inl; [reflexivity|].
    erewrite static_mode_run; eauto.
    cbn [st_fs set_fs]. fold output_lib. fold args. rewrite Hlink.
    destruct rc; [congruence| |];
      unfold set_fs, extend; cbn [st_fs st_trace st_sys_modules st_modules];
      rewrite <- !app_assoc; reflexivity.
  - pose proof (mkdir_keeps_child _ _ _ "llvmcpyimpl.py" Hmk eq_refl) as Hkeep.
    fold artifact in Hkeep. rewrite Hmiss in Hkeep.
    revert Hkeep. unfold OS.exists_, OS.stat.
    assert (Hparts : Pathlib.parts artifact <> []).
    { unfold artifact, Pathlib.joinpath. cbn. intros E.
      apply app_eq_nil in E. destruct E; discriminate. }
    destruct (Pathlib.parts artifact); [congruence|].
    rewrite Hframe. intros H. apply H. discriminate.
Qed.

(** ** Looking for a program *)

Lemma append_nil_r a : a +:+ "" = a.
Proof. induction a as [|c a IH]; [reflexivity|]. rewrite append_cons, IH. reflexivity. Qed.

Lemma rev_app_append a b acc :
  String.rev_app (a +:+ b) acc = String.rev_app b (String.rev_app a acc).
Proof.
  revert acc. induction a as [|c a IH]; intros acc; [reflexivity|].
  rewrite append_cons. simpl. apply IH.
Qed.

Lemma endswith_slash_snoc a : PyStr.endswith "/" (a +:+ "/") = true.
Proof.
  unfold PyStr.endswith, String.rev. rewrite rev_app_append.
  cbn [String.rev_app String.prefix].
  destruct (ascii_dec "/" "/"); [|congruence].
  destruct (String.rev_app a ""); reflexivity.
Qed.

(** A path string that ends in a slash is never an executable file. *)
Lemma access_check_slash fs fn :
  PyStr.endswith "/" fn = true -> OS._access_check fs fn = false.
Proof.
  intros H. unfold OS._access_check, OS.path_exists, OS.access, OS.path_isdir,
    OS.lookup. rewrite H.
  destruct (String.eqb fn ""); [reflexivity|].
  destruct (PyStr.rstrip_with (Ascii.eqb "/") fn) as [|c r]; [reflexivity|].
  destruct (fs !! String c r) as [e|]; [|reflexivity].
  destruct (OS.is_dirtype (OS.d_type e)) eqn:E; [|reflexivity].
  rewrite E. simpl. apply andb_false_r.
Qed.

Lemma access_check_empty fs : OS._access_check fs "" = false.
Proof. reflexivity. Qed.

(** The empty name, which stands for an override that is not set, is
    never found. *)
Lemma which_empty fs path : OS.which fs "" path = None.
Proof.
  unfold OS.which. cbn [PyStr.contains].
  destruct (String.eqb path ""); [reflexivity|].
  induction (PyStr.split ":" path) as [|dir dirs IH]; [reflexivity|].
  cbn [OS.which_in]. rewrite IH.
  assert (H : OS._access_check fs (OS.path_join dir "") = false).
  { unfold OS.path_join. cbn [PyStr.startswith String.prefix].
    destruct (String.eqb dir "") eqn:E.
    - apply String.eqb_eq in E. subst dir. reflexivity.
    - cbn [orb]. destruct (PyStr.endswith "/" dir) eqn:E2.
      + rewrite append_nil_r. apply access_check_slash, E2.
      + change (dir +:+ "/" +:+ "") with (dir +:+ "/").
        apply access_check_slash, endswith_slash_snoc. }
  rewrite H. reflexivity.
Qed.

Lemma find_first_none fs path names :
  Forall (fun n => OS.which fs n path = None) names ->
  LLVMCPy.find_first fs path names = None.
Proof.
  induction 1 as [|n l Hn _ IH]; [reflexivity|].
  simpl. rewrite Hn. exact IH.
Qed.

Lemma find_first_some fs path tried name later p :
  Forall (fun n => OS.which fs n path = None) tried ->
  OS.which fs name path = Some p ->
  LLVMCPy.find_first fs path (tried ++ name :: later) = Some p.
Proof.
  intros Htried Hname. induction Htried as [|n l Hn _ IH].
  - simpl. rewrite Hname. reflexivity.
  - simpl. rewrite Hn. exact IH.
Qed.

Lemma find_first_override fs path (override : option string) names :
  LLVMCPy.find_first fs path (default "" override :: names) =
  LLVMCPy.find_first fs path
    (match override with Some v => v :: names | None => names end).
Proof.
  destruct override as [v|]; [reflexivity|].
  simpl. rewrite which_empty. reflexivity.
Qed.

(** C7. [_find_program] tries the value of the override variable, when it
    is set, and then each candidate name, in this order, and returns what
    [which] finds for the first of them that it finds at all; when it
    finds none, the error names the variable and all the candidates.
    With [PATH] empty and [LLVM_CONFIG] not set, the constructor (given no
    helper) fails with that error, which names [LLVM_CONFIG] and
    [llvm-config]. *)
Theorem find_program_searches_in_order (w : world) :
  (forall self env names s,
     let path := PyStr.join ":" (LLVMCPy._search_paths self) in
     let candidates :=
       match w_environ w !! env with Some v => v :: names | None => names end in
     (forall tried name later p,
        candidates = tried ++ name :: later ->
        Forall (fun n => OS.which (st_fs s) n path = None) tried ->
        OS.which (st_fs s) name path = Some p ->
        LLVMCPy._find_program w self env names s = (inr p, s)) /\
     (Forall (fun n => OS.which (st_fs s) n path = None) candidates ->
      LLVMCPy._find_program w self env names s =
      (inl (RuntimeError
              ("Couldn't find " +:+ env +:+
               " or any of the following executables in PATH: " +:+
               PyStr.join " " names)), s))) /\
  (w_environ w !! "PATH" = Some "" ->
   w_environ w !! "LLVM_CONFIG" = None ->
   forall s,
     LLVMCPy.__init__ w None s =
     (inl (RuntimeError
        "Couldn't find LLVM_CONFIG or any of the following executables in PATH: llvm-config"),
      s)).
Proof.
  split.
  - intros self env names s path candidates. split.
    + intros tried name later p Hc Htried Hname.
      rewrite find_program_run, find_first_override. fold path candidates.
      rewrite Hc, (find_first_some _ _ _ _ _ _ Htried Hname). reflexivity.
    + intros Hnone.
      rewrite find_program_run, find_first_override. fold path candidates.
      rewrite (find_first_none _ _ _ Hnone). reflexivity.
  - intros Hpath Hcfg s. unfold LLVMCPy.__init__.
    erewrite bind_inl; [reflexivity|].
    rewrite find_program_run, Hpath, Hcfg. reflexivity.
Qed.

Lemma find_program_searches_in_order_witness :
  LLVMCPy._find_program (Sample.toolchain "shared" "" 0 Sample.binding) Sample.self
    "CPP" ["clang"; "cpp"; "gcc"; "cc"] (Sample.start Sample.fs) =
    (inr "/usr/bin/clang", Sample.start Sample.fs) /\
  LLVMCPy.__init__ (World {[ "PATH" := "" ]} "/bin:/usr/bin" "linux" (3, 11)%nat
                      (fun _ => Some "0.2.1") (fun n => "/home/u/.cache/" +:+ n)
                      (fun _ => NotStarted) (fun _ fs => fs) (fun _ p => p)
                      (fun _ _ _ _ _ => Written "") (fun _ => inr ∅))
    None (Sample.start Sample.fs) =
    (inl (RuntimeError
       "Couldn't find LLVM_CONFIG or any of the following executables in PATH: llvm-config"),
     Sample.start Sample.fs).
Proof.
  split.
  - apply (proj1 (proj1 (find_program_searches_in_order
                           (Sample.toolchain "shared" "" 0 Sample.binding))
                        Sample.self "CPP" ["clang"; "cpp"; "gcc"; "cc"]
                        (Sample.start Sample.fs))
             [] "clang" ["cpp"; "gcc"; "cc"] "/usr/bin/clang");
      [reflexivity | constructor | vm_compute; reflexivity].
  - apply (proj2 (find_program_searches_in_order _)); reflexivity.
Defined.

(** ** A successful construction, read backwards *)

Lemma run_llvm_config_inv w self args s x s1 :
  LLVMCPy._run_llvm_config w self args s = (inr x, s1) ->
  exists h out,
    LLVMCPy._llvm_config self = Some h /\
    w_run w (h :: args) = Exited 0 out /\
    x = PyStr.strip out /\
    s1 = extend [EvCheckOutput (h :: args)] s.
Proof.
  unfold LLVMCPy._run_llvm_config.
  destruct (LLVMCPy._llvm_config self) as [h|]; [|discriminate].
  unfold bind. rewrite check_output_run.
  destruct (w_run w (h :: args)) as [[| |] out|] eqn:Hrun; try discriminate.
  intros [= <- <-]. exists h, out. repeat split; first [exact Hrun | reflexivity].
Qed.

Lemma get_module_inv w self s m s' :
  LLVMCPy._get_module w self s = (inr m, s') ->
  exists cfg tv v s1 content l x ns,
    LLVMCPy._llvm_config self = Some cfg /\
    w_dist_version w "llvmcpy" = Some tv /\
    LLVMCPy.version self = Some v /\
    let dname := LLVMCPy.dir_name cfg tv v in
    let artifact := LLVMCPy.cache_dir w dname // "llvmcpyimpl.py" in
    let spec := spec_from_file_location ("llvmcpy-" +:+ dname) artifact in
    trace_grows s s1 /\ same_modules s s1 /\ same_sys_modules s s1 /\
    OS.stat (st_fs s1) artifact = Some (OS.Dirent (OS.FReg content) l x) /\
    w_exec w content = inr ns /\
    m = length (st_modules s) /\
    s' = set_modules (st_modules s ++ [ns ∪ fresh_namespace spec])
           (extend [EvExecModule ("llvmcpy-" +:+ dname) artifact] s1).
Proof.
  intros H.
  destruct (LLVMCPy._llvm_config self) as [cfg|] eqn:Hcfg.
  2:{ unfold LLVMCPy._get_module in H. rewrite Hcfg in H. discriminate. }
  destruct (w_dist_version w "llvmcpy") as [tv|] eqn:Htv.
  2:{ unfold LLVMCPy._get_module in H. rewrite Hcfg in H.
      unfold bind at 1 in H. unfold ret at 1 in H. unfold bind at 1 in H.
      unfold _get_version in H. rewrite Htv in H.
      destruct (version_lt _ _); discriminate. }
  destruct (LLVMCPy.version self) as [v|] eqn:Hv.
  2:{ unfold LLVMCPy._get_module in H. rewrite Hcfg, Hv in H.
      unfold bind at 1 in H. unfold ret at 1 in H. unfold bind at 1 in H.
      unfold _get_version in H. rewrite Htv in H.
      destruct (version_lt _ _); discriminate. }
  rewrite (get_module_run w self s cfg tv v Hcfg Htv Hv) in H.
  apply bind_inv in H as [[] [s1 [Hpre Hload]]].
  rewrite load_run in Hload. cbv zeta in Hload.
  cbn [spec_origin spec_name spec_from_file_location] in Hload.
  set (artifact := LLVMCPy.cache_dir w (LLVMCPy.dir_name cfg tv v) // "llvmcpyimpl.py") in *.
  destruct (OS.stat (st_fs s1) artifact) as [[[content| | |] l x]|] eqn:Hstat;
    try discriminate.
  destruct (w_exec w content) as [e|ns] eqn:Hexec; [discriminate|].
  injection Hload as <- <-.
  assert (Hgrow : trace_grows s s1 /\ same_modules s s1 /\ same_sys_modules s s1).
  { assert (Hs1 : s1 = snd ((if negb (OS.exists_ (st_fs s) artifact)
                              then bind (mkdir (LLVMCPy.cache_dir w (LLVMCPy.dir_name cfg tv v)))
                                     (fun _ => LLVMCPy._make_wrapper w self artifact)
                              else ret tt) s)).
    { rewrite Hpre. reflexivity. }
    rewrite Hs1. clear Hs1 Hpre.
    destruct (negb (OS.exists_ (st_fs s) artifact)).
    - repeat split;
        (apply preserves_bind;
         [ eauto with frame
         | apply preserves_mkdir; eauto with frame
         | intros _; apply preserves_make_wrapper; eauto with frame ]).
    - repeat split. apply trace_grows_refl. }
  destruct Hgrow as [Hg [Hm Hsm]].
  exists cfg, tv, v, s1, content, l, x, ns.
  repeat split; auto.
  - rewrite Hm. reflexivity.
  - rewrite Hm. reflexivity.
Qed.

Lemma init_inv w llvm_config s attrs s' :
  LLVMCPy.__init__ w llvm_config s = (inr attrs, s') ->
  exists cfg out_bin out_ver tv ns pre,
    located_helper w (st_fs s) llvm_config = Some cfg /\
    w_run w [cfg; "--bindir"] = Exited 0 out_bin /\
    w_run w [cfg; "--version"] = Exited 0 out_ver /\
    w_dist_version w "llvmcpy" = Some tv /\
    let self := self_after_queries w cfg out_bin out_ver in
    let dname := LLVMCPy.dir_name cfg tv (PyStr.strip out_ver) in
    let artifact := LLVMCPy.cache_dir w dname // "llvmcpyimpl.py" in
    let spec := spec_from_file_location ("llvmcpy-" +:+ dname) artifact in
    st_trace s' =
      st_trace s ++ pre ++ [EvExecModule ("llvmcpy-" +:+ dname) artifact] /\
    st_modules s' = st_modules s ++ [ns ∪ fresh_namespace spec] /\
    st_sys_modules s' = st_sys_modules s /\
    (exists content l x,
        OS.stat (st_fs s') artifact = Some (OS.Dirent (OS.FReg content) l x) /\
        w_exec w content = inr ns) /\
    attrs = LLVMCPy.copy_symbols (ns ∪ fresh_namespace spec) (LLVMCPy.attributes self).
Proof.
  intros H. unfold LLVMCPy.__init__ in H.
  apply bind_inv in H as [cfg [s1 [Hcfg H]]].
  assert (Hloc : located_helper w (st_fs s) llvm_config = Some cfg /\ s1 = s).
  { destruct llvm_config as [c|].
    - injection Hcfg as <- <-. split; reflexivity.
    - rewrite find_program_run in Hcfg. cbn [LLVMCPy._search_paths] in Hcfg.
      unfold located_helper.
      destruct (LLVMCPy.find_first _ _ _) as [p|]; [|discriminate].
      injection Hcfg as <- <-. split; reflexivity. }
  destruct Hloc as [Hloc ->].
  cbn [LLVMCPy._search_paths LLVMCPy._llvm_config LLVMCPy.version] in H.
  apply bind_inv in H as [bindir [s2 [Hbin H]]].
  apply run_llvm_config_inv in Hbin as [h [out_bin [Hh [Hbin [-> ->]]]]].
  cbn [LLVMCPy._llvm_config] in Hh. injection Hh as <-.
  cbn [LLVMCPy._search_paths LLVMCPy._llvm_config LLVMCPy.version] in H.
  apply bind_inv in H as [v [s3 [Hver H]]].
  apply run_llvm_config_inv in Hver as [h [out_ver [Hh [Hver [-> ->]]]]].
  cbn [LLVMCPy._llvm_config] in Hh. injection Hh as <-.
  cbn [LLVMCPy._search_paths LLVMCPy._llvm_config LLVMCPy.version] in H.
  apply bind_inv in H as [m [s4 [Hget H]]].
  apply get_module_inv in Hget
    as (cfg' & tv & v' & s5 & content & l & x & ns & Hc & Htv & Hv & Hrest).
  cbn [LLVMCPy._llvm_config LLVMCPy.version] in Hc, Hv.
  injection Hc as <-. injection Hv as <-.
  cbv zeta in Hrest.
  destruct Hrest as (Hgrow & Hmods & Hsys & Hstat & Hexec & -> & ->).
  unfold bind, gets, ret in H. injection H as <- <-.
  rewrite extend_extend in Hgrow, Hmods, Hsys. destruct Hgrow as [es Hes].
  unfold same_modules in Hmods. unfold same_sys_modules in Hsys.
  cbn [st_trace st_modules st_sys_modules extend] in Hes, Hmods, Hsys.
  exists cfg, out_bin, out_ver, tv, ns,
    ([EvCheckOutput [cfg; "--bindir"]; EvCheckOutput [cfg; "--version"]] ++ es).
  split; [exact Hloc|]. split; [exact Hbin|]. split; [exact Hver|].
  split; [exact Htv|]. cbv zeta.
  split; [|split; [|split; [|split]]].
  - cbn [st_trace set_modules extend]. rewrite Hes, <- !app_assoc. reflexivity.
  - cbn [st_modules set_modules extend]. reflexivity.
  - cbn [st_sys_modules set_modules extend]. exact Hsys.
  - exists content, l, x. split; [exact Hstat | exact Hexec].
  - cbn [st_modules set_modules].
    rewrite lookup_app_r by lia. rewrite Nat.sub_diag. reflexivity.
Qed.

(** ** The attributes of the facade *)

Lemma copy_loop_lookup (ns : gmap string pyval) (l : list string) :
  forall (attrs : gmap string pyval) (k : string),
  foldl (fun attrs elem =>
           match ns !! elem with
           | Some v => <[elem := v]> attrs
           | None => attrs
           end) attrs l !! k =
  if decide (k ∈ l)
  then match ns !! k with Some v => Some v | None => attrs !! k end
  else attrs !! k.
Proof.
  induction l as [|x l IH]; intros attrs k.
  - simpl. destruct (decide (k ∈ [])) as [H|_]; [inversion H | reflexivity].
  - simpl. rewrite IH.
    assert (Hx : (match ns !! x with
                  | Some v => <[x := v]> attrs
                  | None => attrs
                  end) !! k =
                 if decide (x = k)
                 then match ns !! k with Some v => Some v | None => attrs !! k end
                 else attrs !! k).
    { destruct (decide (x = k)) as [->|Hne].
      - destruct (ns !! k); [apply lookup_insert_eq | reflexivity].
      - destruct (ns !! x); [apply lookup_insert_ne; exact Hne | reflexivity]. }
    rewrite Hx.
    destruct (decide (k ∈ l)) as [Hin|Hnin];
      destruct (decide (k ∈ x :: l)) as [Hin'|Hnin'];
      destruct (decide (x = k)) as [->|Hne];
      try reflexivity;
      try (exfalso; apply Hnin'; constructor; fail);
      try (exfalso; apply Hnin'; constructor; assumption).
    + destruct (ns !! k); reflexivity.
    + exfalso. apply Hnin. inversion Hin'; subst; [congruence|assumption].
Qed.

(** After the loop of lines 38 and 39 every symbol of the module is an
    attribute of the instance, and the other attributes are as before. *)
Lemma copy_symbols_lookup (ns attrs : gmap string pyval) (k : string) :
  LLVMCPy.copy_symbols ns attrs !! k =
  match ns !! k with Some v => Some v | None => attrs !! k end.
Proof.
  unfold LLVMCPy.copy_symbols. rewrite copy_loop_lookup.
  destruct (decide (k ∈ LLVMCPy.dir ns)) as [_|Hnin]; [reflexivity|].
  destruct (ns !! k) as [v|] eqn:E; [|reflexivity].
  exfalso. apply Hnin. unfold LLVMCPy.dir.
  apply list_elem_of_fmap. exists (k, v). split; [reflexivity|].
  apply elem_of_map_to_list. exact E.
Qed.

Lemma attributes_version self v :
  LLVMCPy.version self = Some v ->
  LLVMCPy.attributes self !! "version" = Some (VStr v).
Proof.
  intros H. unfold LLVMCPy.attributes. rewrite H. apply lookup_insert_eq.
Qed.

(** C8, as the code has it.  After a successful construction every symbol
    of the module that was loaded is an attribute of the facade, with the
    value it has in the module; [version] holds the version of the toolkit
    (the stripped answer of the helper to [--version]) unless the module
    itself binds the name [version], whose value then takes its place. *)
Theorem facade_carries_binding_symbols
    (w : world) (llvm_config : option string) (s s' : state)
    (attrs : gmap string pyval) :
  LLVMCPy.__init__ w llvm_config s = (inr attrs, s') ->
  exists cfg out_ver binding,
    located_helper w (st_fs s) llvm_config = Some cfg /\
    w_run w [cfg; "--version"] = Exited 0 out_ver /\
    List.last (st_modules s') ∅ = binding /\
    (forall name val, binding !! name = Some val -> attrs !! name = Some val) /\
    (binding !! "version" = None ->
     attrs !! "version" = Some (VStr (PyStr.strip out_ver))) /\
    (forall val, binding !! "version" = Some val -> attrs !! "version" = Some val).
Proof.
  intros H. apply init_inv in H
    as (cfg & out_bin & out_ver & tv & ns & pre & Hloc & Hbin & Hver & Htv & H).
  cbv zeta in H. destruct H as (Htrace & Hmods & Hsys & Hexec & ->).
  eexists cfg, out_ver, _. split; [exact Hloc|]. split; [exact Hver|].
  split; [rewrite Hmods, last_last; reflexivity|].
  split; [|split].
  - intros name val Hb. rewrite copy_symbols_lookup, Hb. reflexivity.
  - intros Hb. rewrite copy_symbols_lookup, Hb.
    apply attributes_version. reflexivity.
  - intros val Hb. rewrite copy_symbols_lookup, Hb. reflexivity.
Qed.

Lemma facade_carries_binding_symbols_witness :
  match LLVMCPy.__init__ Sample.shared None (Sample.start Sample.fs) with
  | (inr attrs, _) =>
      attrs !! "ffi" = Some (VObj "ffi") /\
      attrs !! "version" = Some (VStr "14.0.6")
  | (inl _, _) => False
  end.
Proof.
  pose (r := LLVMCPy.__init__ Sample.shared None (Sample.start Sample.fs)).
  assert (Hok : match fst r with inr _ => true | inl _ => false end = true)
    by (vm_compute; reflexivity).
  assert (Hffi : List.last (st_modules (snd r)) ∅ !! "ffi" = Some (VObj "ffi"))
    by (vm_compute; reflexivity).
  assert (Hnone : List.last (st_modules (snd r)) ∅ !! "version" = None)
    by (vm_compute; reflexivity).
  fold r. destruct r as [[e|attrs] s'] eqn:E; [discriminate Hok|].
  destruct (facade_carries_binding_symbols Sample.shared None
              (Sample.start Sample.fs) s' attrs E)
    as (cfg & out_ver & binding & Hloc & Hver & Hb & Hall & Hv & _).
  injection Hver as <-. cbn [snd] in Hffi, Hnone. rewrite Hb in Hffi, Hnone.
  split; [exact (Hall _ _ Hffi) | exact (Hv Hnone)].
Defined.

(** C8 as it was stated fails: the binding exports a symbol called
    [version]; the construction succeeds, and the [version] attribute of
    the facade is that symbol, not the version of the toolkit that the
    helper reports. *)
Lemma facade_version_counterexample :
  let w := Sample.toolchain "shared" "libLLVM-14.so.1 libLLVMCore.a" 0
             Sample.binding_with_version in
  w_run w ["/usr/bin/llvm-config"; "--version"] = Exited 0 ("14.0.6" +:+ Sample.nl) /\
  match fst (LLVMCPy.__init__ w None (Sample.start Sample.fs)) with
  | inr attrs => attrs !! "version"
  | inl _ => None
  end = Some (VObj "binding.version").
Proof.
  intros w. split; [reflexivity|]. vm_compute. reflexivity.
Qed.

(** ** Loading without a registry *)

(** C9. A construction leaves [sys.modules] as it found it.  A successful
    one ends by executing the artifact under the name [llvmcpy-] followed
    by the name of the cache directory, into a module object that did not
    exist before and that is added after the existing ones, which stay as
    they are: this on a hit as on a miss, so that two constructions in a
    row give two module objects.  Two different cache directories give
    two different names. *)
Theorem load_is_isolated (w : world) :
  (forall llvm_config s,
     st_sys_modules (snd (LLVMCPy.__init__ w llvm_config s)) = st_sys_modules s) /\
  (forall llvm_config s attrs s',
     LLVMCPy.__init__ w llvm_config s = (inr attrs, s') ->
     exists cfg tv out_ver pre binding,
       located_helper w (st_fs s) llvm_config = Some cfg /\
       w_dist_version w "llvmcpy" = Some tv /\
       w_run w [cfg; "--version"] = Exited 0 out_ver /\
       let dname := LLVMCPy.dir_name cfg tv (PyStr.strip out_ver) in
       st_trace s' =
         st_trace s ++ pre ++
         [EvExecModule ("llvmcpy-" +:+ dname)
            (LLVMCPy.cache_dir w dname // "llvmcpyimpl.py")] /\
       st_modules s' = st_modules s ++ [binding]) /\
  (forall c1 c2 s0 a1 s1 a2 s2,
     LLVMCPy.__init__ w c1 s0 = (inr a1, s1) ->
     LLVMCPy.__init__ w c2 s1 = (inr a2, s2) ->
     exists b1 b2, st_modules s2 = st_modules s0 ++ [b1; b2]) /\
  (forall d d',
     LLVMCPy.cache_dir w d <> LLVMCPy.cache_dir w d' ->
     "llvmcpy-" +:+ d <> "llvmcpy-" +:+ d').
Proof.
  assert (Hload : forall llvm_config s attrs s',
     LLVMCPy.__init__ w llvm_config s = (inr attrs, s') ->
     exists cfg tv out_ver pre binding,
       located_helper w (st_fs s) llvm_config = Some cfg /\
       w_dist_version w "llvmcpy" = Some tv /\
       w_run w [cfg; "--version"] = Exited 0 out_ver /\
       let dname := LLVMCPy.dir_name cfg tv (PyStr.strip out_ver) in
       st_trace s' =
         st_trace s ++ pre ++
         [EvExecModule ("llvmcpy-" +:+ dname)
            (LLVMCPy.cache_dir w dname // "llvmcpyimpl.py")] /\
       st_modules s' = st_modules s ++ [binding]).
  { intros llvm_config s attrs s' H. apply init_inv in H
      as (cfg & out_bin & out_ver & tv & ns & pre & Hloc & Hbin & Hver & Htv & H).
    cbv zeta in H. destruct H as (Htrace & Hmods & _).
    eexists cfg, tv, out_ver, pre, _. repeat split; eauto. }
  split; [|split; [exact Hload|split]].
  - intros llvm_config s.
    apply (preserves_init same_sys_modules); eauto with frame.
  - intros c1 c2 s0 a1 s1 a2 s2 H1 H2.
    apply Hload in H1 as (? & ? & ? & ? & b1 & _ & _ & _ & _ & Hm1).
    apply Hload in H2 as (? & ? & ? & ? & b2 & _ & _ & _ & _ & Hm2).
    exists b1, b2. rewrite Hm2, Hm1, <- app_assoc. reflexivity.
  - intros d d' Hne E. apply Hne.
    apply (inj (String.app "llvmcpy-")) in E. rewrite E. reflexivity.
Qed.

(** ** Sample runs of the cache *)

Lemma cache_hit_by_existence_witness :
  st_trace (snd (LLVMCPy.__init__ Sample.shared None (Sample.start Sample.fs_cached))) =
  [EvCheckOutput ["/usr/bin/llvm-config"; "--bindir"];
   EvCheckOutput ["/usr/bin/llvm-config"; "--version"];
   EvExecModule ("llvmcpy-" +:+ Sample.dname) Sample.artifact] /\
  st_trace (snd (LLVMCPy.__init__ Sample.shared None (Sample.start Sample.fs))) =
  [EvCheckOutput ["/usr/bin/llvm-config"; "--bindir"];
   EvCheckOutput ["/usr/bin/llvm-config"; "--version"];
   EvMkdir Sample.cdir;
   EvCheckOutput ["/usr/bin/llvm-config"; "--libdir"];
   EvCheckOutput ["/usr/bin/llvm-config"; "--shared-mode"];
   EvCheckOutput ["/usr/bin/llvm-config"; "--libnames"];
   EvCheckOutput ["/usr/bin/llvm-config"; "--includedir"];
   EvGenerate "/usr/bin/clang" [Pathlib.of_str "/usr/lib/llvm/libLLVM-14.so.1"]
     (Pathlib.of_str "/usr/include") Sample.artifact;
   EvExecModule ("llvmcpy-" +:+ Sample.dname) Sample.artifact].
Proof.
  split.
  - destruct (cache_hit_by_existence Sample.shared None (Sample.start Sample.fs_cached)
                "/usr/bin/llvm-config" ("/usr/bin" +:+ Sample.nl)
                ("14.0.6" +:+ Sample.nl) "0.2.1"
                ltac:(vm_compute; reflexivity) eq_refl eq_refl eq_refl)
      as [Hhit _].
    rewrite Hhit by (vm_compute; reflexivity).
    vm_compute. reflexivity.
  - vm_compute. reflexivity.
Defined.

(** C5 as it was stated fails in its last part: on a hit the constructor
    runs a helper query that is not a version query and that the cache
    key does not need, [--bindir]. *)
Lemma cache_hit_queries_counterexample :
  let s := Sample.start Sample.fs_cached in
  let trace := st_trace (snd (LLVMCPy.__init__ Sample.shared None s)) in
  OS.exists_ (st_fs s) Sample.artifact = true /\
  trace = [EvCheckOutput ["/usr/bin/llvm-config"; "--bindir"];
           EvCheckOutput ["/usr/bin/llvm-config"; "--version"];
           EvExecModule ("llvmcpy-" +:+ Sample.dname) Sample.artifact] /\
  exists cmd, EvCheckOutput cmd ∈ trace /\ List.last cmd "" <> "--version".
Proof.
  intros s trace.
  assert (Ht : trace = [EvCheckOutput ["/usr/bin/llvm-config"; "--bindir"];
           EvCheckOutput ["/usr/bin/llvm-config"; "--version"];
           EvExecModule ("llvmcpy-" +:+ Sample.dname) Sample.artifact])
    by (vm_compute; reflexivity).
  split; [vm_compute; reflexivity|]. split; [exact Ht|].
  exists ["/usr/bin/llvm-config"; "--bindir"]. rewrite Ht.
  split; [left | discriminate].
Qed.

Lemma failed_link_leaves_no_artifact_witness :
  let w := Sample.toolchain "static" "" 1 Sample.binding in
  let r := LLVMCPy.__init__ w None (Sample.start Sample.fs_static) in
  fst r = inl (CalledProcessError 1 Sample.link_args) /\
  OS.exists_ (st_fs (snd r)) Sample.artifact = false.
Proof.
  intros w r.
  assert (Hmk : OS.mkdir Sample.fs_static Sample.cdir = inr Sample.fs_static_mkdir).
  { assert (Hok : match OS.mkdir Sample.fs_static Sample.cdir with
                   | inr _ => true
                   | inl _ => false
                   end = true) by (vm_compute; reflexivity).
    unfold Sample.fs_static_mkdir.
    destruct (OS.mkdir Sample.fs_static Sample.cdir) as [e|fs'];
      [discriminate Hok | reflexivity]. }
  pose proof (failed_link_leaves_no_artifact w None (Sample.start Sample.fs_static)
                "/usr/bin/llvm-config" ("/usr/bin" +:+ Sample.nl)
                ("14.0.6" +:+ Sample.nl) "0.2.1" "/usr/bin/clang"
                ("/usr/lib/llvm" +:+ Sample.nl) ("static" +:+ Sample.nl)
                ("-L/usr/lib/llvm" +:+ Sample.nl)
                ("-lLLVMCore -lLLVMSupport" +:+ Sample.nl)
                ("-lz '-lm'" +:+ Sample.nl) ""
                ["-L/usr/lib/llvm"] ["-lLLVMCore"; "-lLLVMSupport"] ["-lz"; "-lm"]
                Sample.fs_static_mkdir 1%Z
                ltac:(vm_compute; reflexivity) eq_refl eq_refl eq_refl) as H.
  cbv zeta in H.
  specialize (H ltac:(vm_compute; reflexivity)).
  assert (Hc : LLVMCPy.cache_dir w
                 (LLVMCPy.dir_name "/usr/bin/llvm-config" "0.2.1"
                    (PyStr.strip ("14.0.6" +:+ Sample.nl))) = Sample.cdir)
    by (vm_compute; reflexivity).
  rewrite Hc in H. specialize (H Hmk).
  specialize (H ltac:(vm_compute; reflexivity) eq_refl eq_refl eq_refl
                ltac:(vm_compute; reflexivity)
                eq_refl eq_refl eq_refl eq_refl eq_refl eq_refl
                ltac:(vm_compute; reflexivity) ltac:(discriminate)
                ltac:(vm_compute; reflexivity)).
  destruct H as [Hrun Hex].
  unfold r. rewrite Hrun. split; [vm_compute; reflexivity|].
  cbn [snd st_fs set_fs]. rewrite <- Hex. vm_compute. reflexivity.
Defined.

Lemma load_is_isolated_witness :
  let r1 := LLVMCPy.__init__ Sample.shared None (Sample.start Sample.fs) in
  let r2 := LLVMCPy.__init__ Sample.shared None (snd r1) in
  length (st_modules (snd r2)) = 2 /\
  st_sys_modules (snd r2) = st_sys_modules (Sample.start Sample.fs) /\
  List.last (st_trace (snd r2)) (EvMkdir Sample.cdir) =
    EvExecModule ("llvmcpy-" +:+ Sample.dname) Sample.artifact.
Proof.
  intros r1 r2.
  assert (H1 : match fst r1 with inr _ => true | inl _ => false end = true)
    by (vm_compute; reflexivity).
  assert (H2 : match fst r2 with inr _ => true | inl _ => false end = true)
    by (vm_compute; reflexivity).
  assert (H3 : List.last (st_trace (snd r2)) (EvMkdir Sample.cdir) =
               EvExecModule ("llvmcpy-" +:+ Sample.dname) Sample.artifact)
    by (vm_compute; reflexivity).
  destruct (load_is_isolated Sample.shared) as (Hsys & _ & Htwo & _).
  assert (Hs : st_sys_modules (snd r2) = st_sys_modules (Sample.start Sample.fs)).
  { unfold r2. rewrite (Hsys None (snd r1)). unfold r1.
    exact (Hsys None (Sample.start Sample.fs)). }
  split; [|split; [exact Hs | exact H3]].
  clear H3 Hs. unfold r2 in *. clear r2.
  destruct r1 as [[e1|a1] s1] eqn:E1; [discriminate H1|].
  cbn [snd] in *.
  destruct (LLVMCPy.__init__ Sample.shared None s1) as [[e2|a2] s2] eqn:E2;
    [discriminate H2|].
  destruct (Htwo None None (Sample.start Sample.fs) a1 s1 a2 s2 E1 E2)
    as (b1 & b2 & Hm).
  cbn [snd]. rewrite Hm. reflexivity.
Defined.


(** * Further properties of the code *)

(** ** The answers of the helper are trimmed *)












(** ** What [_find_program] hands back *)

Lemma access_check_runnable fs fn :
  OS._access_check fs fn = true <-> runnable fs fn.
Proof.
  unfold OS._access_check, runnable.
  rewrite !andb_true_iff, negb_true_iff. tauto.
Qed.

Lemma which_in_sound fs cmd dirs p :
  OS.which_in fs cmd dirs = Some p ->
  exists dir, In dir dirs /\ p = OS.path_join dir cmd /\ runnable fs p.
Proof.
  induction dirs as [|dir dirs IH]; [discriminate|]. simpl.
  destruct (OS._access_check fs (OS.path_join dir cmd)) eqn:E.
  - intros [= <-]. exists dir. split; [left; reflexivity|].
    split; [reflexivity|]. apply access_check_runnable, E.
  - intros H. destruct (IH H) as (d & Hd & Hp & Hr).
    exists d. split; [right; exact Hd | split; assumption].
Qed.

Lemma which_sound fs cmd path p :
  OS.which fs cmd path = Some p ->
  runnable fs p /\
  (p = cmd \/ exists dir, In dir (PyStr.split ":" path) /\ p = OS.path_join dir cmd).
Proof.
  unfold OS.which. destruct (PyStr.contains "/" cmd).
  - destruct (OS._access_check fs cmd) eqn:E; [|discriminate].
    intros [= <-]. split; [apply access_check_runnable, E | left; reflexivity].
  - destruct (String.eqb path ""); [discriminate|].
    intros H. apply which_in_sound in H as (d & Hd & Hp & Hr).
    split; [exact Hr | right; exists d; auto].
Qed.

Lemma find_first_sound fs path names p :
  LLVMCPy.find_first fs path names = Some p ->
  exists name, In name names /\ OS.which fs name path = Some p.
Proof.
  induction names as [|n names IH]; [discriminate|]. simpl.
  destruct (OS.which fs n path) as [q|] eqn:E.
  - intros [= <-]. exists n. split; [left; reflexivity | exact E].
  - intros H. destruct (IH H) as (m & Hm & Hw).
    exists m. split; [right; exact Hm | exact Hw].
Qed.

(** X2. [_find_program] only looks: it leaves the state as it is, and the
    path it returns is, in the file table, something that exists, may be
    executed and is not a directory.  That path is the override or a
    candidate itself (when it has a directory part) or that name joined to
    one of the directories of the search paths, joined with colons and
    split again as [which] does. *)
Theorem find_program_returns_runnable
    (w : world) (self : LLVMCPy.Self) (env : string) (names : list string)
    (s s' : state) (p : string) :
  LLVMCPy._find_program w self env names s = (inr p, s') ->
  s' = s /\
  runnable (st_fs s) p /\
  exists name,
    In name (match w_environ w !! env with Some v => v :: names | None => names end) /\
    (p = name \/
     exists dir,
       In dir (PyStr.split ":" (PyStr.join ":" (LLVMCPy._search_paths self))) /\
       p = OS.path_join dir name).
Proof.
  rewrite find_program_run, find_first_override.
  destruct (LLVMCPy.find_first _ _ _) as [q|] eqn:E; [|discriminate].
  intros [= <- <-]. split; [reflexivity|].
  apply find_first_sound in E as (name & Hname & Hw).
  apply which_sound in Hw as [Hr Hp].
  split; [exact Hr|]. exists name. split; [exact Hname | exact Hp].
Qed.

Lemma find_program_returns_runnable_witness :
  runnable Sample.fs "/usr/bin/clang".
Proof.
  destruct (find_program_returns_runnable Sample.shared Sample.self "CPP"
              ["clang"; "cpp"; "gcc"; "cc"] (Sample.start Sample.fs)
              (Sample.start Sample.fs) "/usr/bin/clang")
    as (_ & Hr & _).
  - rewrite find_program_run.
    assert (E : LLVMCPy.find_first (st_fs (Sample.start Sample.fs))
                  (PyStr.join ":" (LLVMCPy._search_paths Sample.self))
                  (default "" (w_environ Sample.shared !! "CPP") ::
                   ["clang"; "cpp"; "gcc"; "cc"]) = Some "/usr/bin/clang")
      by (vm_compute; reflexivity).
    rewrite E. reflexivity.
  - exact Hr.
Defined.

(** ** The directory of the toolkit comes first *)

Lemma split_never_nil sep s : PyStr.split sep s <> [].
Proof.
  destruct s as [|c s]; [discriminate|]. simpl.
  destruct (Ascii.eqb c sep); [discriminate|].
  destruct (PyStr.split sep s); discriminate.
Qed.

Lemma split_head sep a b :
  PyStr.contains sep a = false ->
  PyStr.split sep (a +:+ String sep b) = a :: PyStr.split sep b.
Proof.
  induction a as [|c a IH]; intros H.
  - simpl. rewrite Ascii.eqb_refl. reflexivity.
  - simpl in H. apply orb_false_iff in H as [Hc Ha].
    rewrite append_cons. cbn [PyStr.split].
    rewrite (Ascii.eqb_sym c sep), Hc. rewrite IH by exact Ha. reflexivity.
Qed.

Lemma join_cons sep x l :
  l <> [] -> PyStr.join sep (x :: l) = x +:+ sep +:+ PyStr.join sep l.
Proof. destruct l; [congruence|reflexivity]. Qed.

(** X3. The compiler is looked for in the directory the helper reports
    for [--bindir] before the directories of [PATH]: when [CPP] is not
    set and that directory (a name without a colon) holds a runnable
    [clang], the lookup of [_make_wrapper] returns it, whatever else
    [PATH] offers. *)
Theorem toolkit_bindir_has_priority
    (w : world) (cfg out_bin out_ver : string) (s : state) :
  let self := self_after_queries w cfg out_bin out_ver in
  let bindir := PyStr.strip out_bin in
  w_environ w !! "CPP" = None ->
  PyStr.contains ":" bindir = false ->
  runnable (st_fs s) (OS.path_join bindir "clang") ->
  LLVMCPy._find_program w self "CPP" ["clang"; "cpp"; "gcc"; "cc"] s =
  (inr (OS.path_join bindir "clang"), s).
Proof.
  intros self bindir Hcpp Hcolon Hrun.
  rewrite find_program_run, find_first_override, Hcpp.
  cbn [LLVMCPy.find_first].
  assert (Hw : OS.which (st_fs s) "clang"
                 (PyStr.join ":" (LLVMCPy._search_paths self)) =
               Some (OS.path_join bindir "clang")).
  { unfold OS.which. cbn [PyStr.contains Ascii.eqb Bool.eqb orb].
    cbn [self self_after_queries LLVMCPy._search_paths]. fold bindir.
    rewrite join_cons by apply split_never_nil.
    change (bindir +:+ ":" +:+ ?r) with (bindir +:+ String ":" r).
    destruct (String.eqb (bindir +:+ String ":" _) "") eqn:E.
    { apply String.eqb_eq in E. apply (f_equal String.length) in E.
      rewrite length_append in E. simpl in E. lia. }
    rewrite split_head by exact Hcolon. cbn [OS.which_in].
    apply access_check_runnable in Hrun. rewrite Hrun. reflexivity. }
  rewrite Hw. reflexivity.
Qed.

Lemma toolkit_bindir_has_priority_witness :
  LLVMCPy._find_program Sample.shared
    (self_after_queries Sample.shared "/usr/bin/llvm-config"
       ("/usr/bin" +:+ Sample.nl) ("14.0.6" +:+ Sample.nl))
    "CPP" ["clang"; "cpp"; "gcc"; "cc"] (Sample.start Sample.fs) =
  (inr "/usr/bin/clang", Sample.start Sample.fs).
Proof.
  assert (Hr : runnable (st_fs (Sample.start Sample.fs))
                 (OS.path_join (PyStr.strip ("/usr/bin" +:+ Sample.nl)) "clang"))
    by (vm_compute; repeat split).
  exact (toolkit_bindir_has_priority Sample.shared "/usr/bin/llvm-config"
           ("/usr/bin" +:+ Sample.nl) ("14.0.6" +:+ Sample.nl)
           (Sample.start Sample.fs) eq_refl eq_refl Hr).
Defined.

(** ** Where the helper is looked for *)

Lemma join_split sep s :
  PyStr.join (String sep "") (PyStr.split sep s) = s.
Proof.
  induction s as [|c s IH]; [reflexivity|]. cbn [PyStr.split].
  destruct (Ascii.eqb c sep) eqn:E.
  - apply Ascii.eqb_eq in E. subst c.
    rewrite join_cons by apply split_never_nil. rewrite IH. reflexivity.
  - destruct (PyStr.split sep s) as [|x l] eqn:El.
    + exfalso. eapply split_never_nil, El.
    + destruct l as [|y l].
      * simpl in *. rewrite IH. reflexivity.
      * rewrite join_cons by discriminate.
        rewrite join_cons in IH by discriminate.
        rewrite append_cons, IH. reflexivity.
Qed.

(** X4. With no helper given, the helper is looked for on the value of
    [PATH] as it is ([os.defpath] when [PATH] is not set): splitting it
    at the colons and joining it again changes nothing.  When neither the
    value of [LLVM_CONFIG] nor [llvm-config] is found there, the
    constructor fails with the error of [_find_program] before anything
    was run. *)
Theorem helper_is_searched_on_PATH (w : world) (s : state) :
  let path := default (w_defpath w) (w_environ w !! "PATH") in
  located_helper w (st_fs s) None =
    LLVMCPy.find_first (st_fs s) path
      [default "" (w_environ w !! "LLVM_CONFIG"); "llvm-config"] /\
  (LLVMCPy.find_first (st_fs s) path
     [default "" (w_environ w !! "LLVM_CONFIG"); "llvm-config"] = None ->
   LLVMCPy.__init__ w None s =
   (inl (RuntimeError
      "Couldn't find LLVM_CONFIG or any of the following executables in PATH: llvm-config"),
    s)).
Proof.
  intros path.
  assert (E : located_helper w (st_fs s) None =
              LLVMCPy.find_first (st_fs s) path
                [default "" (w_environ w !! "LLVM_CONFIG"); "llvm-config"]).
  { unfold located_helper. fold path. rewrite (join_split ":" path). reflexivity. }
  split; [exact E|]. intros Hnone.
  unfold LLVMCPy.__init__. erewrite bind_inl; [reflexivity|].
  rewrite find_program_run. cbn [LLVMCPy._search_paths]. fold path.
  rewrite (join_split ":" path), Hnone. reflexivity.
Qed.

(** ** A helper that fails *)

Lemma run_llvm_config_cases w self args s :
  LLVMCPy._run_llvm_config w self args s =
  match LLVMCPy._llvm_config self with
  | None => (inl AssertionError, s)
  | Some h =>
      (match query_error (h :: args) (w_run w (h :: args)) with
       | Some e => inl e
       | None =>
           match w_run w (h :: args) with
           | Exited _ out => inr (PyStr.strip out)
           | NotStarted => inr ""
           end
       end, extend [EvCheckOutput (h :: args)] s)
  end.
Proof.
  unfold LLVMCPy._run_llvm_config.
  destruct (LLVMCPy._llvm_config self) as [h|]; [|reflexivity].
  unfold bind. rewrite check_output_run.
  destruct (w_run w (h :: args)) as [[| |] out|]; reflexivity.
Qed.

Lemma run_llvm_config_fail w self h args e s :
  LLVMCPy._llvm_config self = Some h ->
  query_error (h :: args) (w_run w (h :: args)) = Some e ->
  LLVMCPy._run_llvm_config w self args s =
  (inl e, extend [EvCheckOutput (h :: args)] s).
Proof.
  intros Hh He. rewrite run_llvm_config_cases, Hh, He. reflexivity.
Qed.

Lemma init_locate w llvm_config s cfg :
  located_helper w (st_fs s) llvm_config = Some cfg ->
  (match llvm_config with
   | Some c => ret c
   | None =>
       LLVMCPy._find_program w
         (LLVMCPy.MkSelf
            (PyStr.split ":" (default (w_defpath w) (w_environ w !! "PATH")))
            None None) "LLVM_CONFIG" ["llvm-config"]
   end) s = (inr cfg, s).
Proof.
  intros Hloc. destruct llvm_config as [c|]; unfold located_helper in Hloc.
  - injection Hloc as ->. reflexivity.
  - rewrite find_program_run. cbn [LLVMCPy._search_paths].
    rewrite Hloc. reflexivity.
Qed.

(** X5. A helper that cannot be started, or that exits with a status
    other than zero, ends the construction at once, on [--bindir] as on
    [--version]: the error is the [OSError] or the [CalledProcessError]
    with the status and the command line of that query, and nothing was
    done but the queries so far: no file, no directory, no module. *)
Theorem helper_failure_aborts_construction
    (w : world) (llvm_config : option string) (s : state) (cfg : string) :
  located_helper w (st_fs s) llvm_config = Some cfg ->
  (forall e,
     query_error [cfg; "--bindir"] (w_run w [cfg; "--bindir"]) = Some e ->
     LLVMCPy.__init__ w llvm_config s =
     (inl e, extend [EvCheckOutput [cfg; "--bindir"]] s)) /\
  (forall out_bin e,
     w_run w [cfg; "--bindir"] = Exited 0 out_bin ->
     query_error [cfg; "--version"] (w_run w [cfg; "--version"]) = Some e ->
     LLVMCPy.__init__ w llvm_config s =
     (inl e, extend [EvCheckOutput [cfg; "--bindir"];
                     EvCheckOutput [cfg; "--version"]] s)).
Proof.
  intros Hloc. split.
  - intros e He. unfold LLVMCPy.__init__.
    erewrite bind_inr by (apply init_locate, Hloc).
    cbn [LLVMCPy._search_paths LLVMCPy._llvm_config LLVMCPy.version].
    erewrite bind_inl; [reflexivity|].
    apply run_llvm_config_fail; [reflexivity | exact He].
  - intros out_bin e Hbin He. unfold LLVMCPy.__init__.
    erewrite bind_inr by (apply init_locate, Hloc).
    cbn [LLVMCPy._search_paths LLVMCPy._llvm_config LLVMCPy.version].
    erewrite bind_inr by (eapply run_llvm_config_ok; [reflexivity|exact Hbin]).
    cbn [LLVMCPy._search_paths LLVMCPy._llvm_config LLVMCPy.version].
    erewrite bind_inl; [reflexivity|].
    erewrite run_llvm_config_fail; [|reflexivity|exact He].
    rewrite extend_extend. reflexivity.
Qed.

Lemma helper_failure_aborts_construction_witness :
  LLVMCPy.__init__ Probe.broken_helper (Some "/usr/bin/llvm-config")
    (Sample.start Sample.fs) =
  (inl (CalledProcessError 2 ["/usr/bin/llvm-config"; "--version"]),
   extend [EvCheckOutput ["/usr/bin/llvm-config"; "--bindir"];
           EvCheckOutput ["/usr/bin/llvm-config"; "--version"]]
     (Sample.start Sample.fs)).
Proof.
  exact (proj2 (helper_failure_aborts_construction Probe.broken_helper
                  (Some "/usr/bin/llvm-config") (Sample.start Sample.fs)
                  "/usr/bin/llvm-config" eq_refl)
           ("/usr/bin" +:+ Sample.nl)
           (CalledProcessError 2 ["/usr/bin/llvm-config"; "--version"])
           eq_refl eq_refl).
Defined.

(** ** Metadata that is missing *)

(** X6. From Python 3.8 on, when the metadata of the [llvmcpy]
    distribution cannot be found, the constructor fails with
    [PackageNotFoundError] once the helper has answered [--bindir] and
    [--version]: the cache was neither looked up nor made. *)
Theorem missing_metadata_fails_before_cache
    (w : world) (llvm_config : option string) (s : state)
    (cfg out_bin out_ver : string) :
  located_helper w (st_fs s) llvm_config = Some cfg ->
  w_run w [cfg; "--bindir"] = Exited 0 out_bin ->
  w_run w [cfg; "--version"] = Exited 0 out_ver ->
  version_lt (w_version_info w) (3, 8)%nat = false ->
  w_dist_version w "llvmcpy" = None ->
  LLVMCPy.__init__ w llvm_config s =
  (inl (PackageNotFoundError "llvmcpy"),
   extend [EvCheckOutput [cfg; "--bindir"]; EvCheckOutput [cfg; "--version"]] s).
Proof.
  intros Hloc Hbin Hver Hpy Hmeta.
  rewrite (init_run w llvm_config s cfg out_bin out_ver Hloc Hbin Hver).
  cbv zeta. erewrite bind_inl; [reflexivity|].
  unfold LLVMCPy._get_module. cbn [self_after_queries LLVMCPy._llvm_config].
  unfold bind at 1. unfold ret at 1.
  erewrite bind_inl; [reflexivity|].
  unfold _get_version. rewrite Hpy, Hmeta. reflexivity.
Qed.

Lemma missing_metadata_fails_before_cache_witness :
  LLVMCPy.__init__ Probe.no_metadata None (Sample.start Sample.fs) =
  (inl (PackageNotFoundError "llvmcpy"),
   extend [EvCheckOutput ["/usr/bin/llvm-config"; "--bindir"];
           EvCheckOutput ["/usr/bin/llvm-config"; "--version"]]
     (Sample.start Sample.fs)).
Proof.
  assert (Hloc : located_helper Probe.no_metadata (st_fs (Sample.start Sample.fs)) None
                 = Some "/usr/bin/llvm-config") by (vm_compute; reflexivity).
  exact (missing_metadata_fails_before_cache Probe.no_metadata None
           (Sample.start Sample.fs) "/usr/bin/llvm-config"
           ("/usr/bin" +:+ Sample.nl) ("14.0.6" +:+ Sample.nl)
           Hloc eq_refl eq_refl eq_refl eq_refl).
Defined.

Lemma helper_is_searched_on_PATH_witness :
  LLVMCPy.__init__ Probe.broken_helper None (Sample.start ∅) =
  (inl (RuntimeError
     "Couldn't find LLVM_CONFIG or any of the following executables in PATH: llvm-config"),
   Sample.start ∅).
Proof.
  exact (proj2 (helper_is_searched_on_PATH Probe.broken_helper (Sample.start ∅))
           eq_refl).
Defined.

(** ** Making the cache directory *)

Lemma os_mkdir_post fs p fs' :
  OS.os_mkdir fs p = inr fs' -> OS.is_dir fs' p = true /\ fs ⊆ fs'.
Proof.
  unfold OS.os_mkdir, OS.is_dir, OS.stat.
  destruct (Pathlib.parts p) as [|x l] eqn:Hp; [discriminate|].
  destruct (fs !! Pathlib.str p) eqn:E; [discriminate|].
  destruct (match Pathlib.parts (Pathlib.parent p) with
            | [] => Some OS.directory
            | _ :: _ => fs !! Pathlib.str (Pathlib.parent p)
            end) as [e|]; [|discriminate].
  destruct (OS.is_dirtype (OS.d_type e)); [|discriminate].
  intros [= <-]. split.
  - rewrite lookup_insert_eq. reflexivity.
  - apply insert_subseteq, E.
Qed.

Lemma mkdir_parents_post fuel : forall fs p fs',
  OS.mkdir_parents fuel fs p = inr fs' -> OS.is_dir fs' p = true /\ fs ⊆ fs'.
Proof.
  induction fuel as [|fuel IH]; intros fs p fs' H; simpl in H.
  - destruct (OS.os_mkdir fs p) as [[]|fs2] eqn:E.
    + destruct (OS.is_dir fs p) eqn:D; [|discriminate]. injection H as <-. auto.
    + discriminate.
    + destruct (OS.is_dir fs p) eqn:D; [|discriminate]. injection H as <-. auto.
    + injection H as <-. eapply os_mkdir_post, E.
  - destruct (OS.os_mkdir fs p) as [[]|fs2] eqn:E.
    + destruct (OS.is_dir fs p) eqn:D; [|discriminate]. injection H as <-. auto.
    + destruct (bool_decide (Pathlib.parent p = p)); [discriminate|].
      destruct (OS.mkdir_parents fuel fs (Pathlib.parent p)) as [e|fs1] eqn:E1;
        [discriminate|].
      apply IH in E1 as [_ Hsub].
      destruct (OS.os_mkdir fs1 p) as [e|fs2] eqn:E2.
      * destruct (OS.is_dir fs1 p) eqn:D; [|discriminate]. injection H as <-. auto.
      * injection H as <-. apply os_mkdir_post in E2 as [D Hsub2].
        split; [exact D|]. etransitivity; eassumption.
    + destruct (OS.is_dir fs p) eqn:D; [|discriminate]. injection H as <-. auto.
    + injection H as <-. eapply os_mkdir_post, E.
Qed.

Lemma mkdir_run p s :
  mkdir p s =
  match OS.mkdir (st_fs s) p with
  | inr fs' => (inr tt, set_fs fs' (extend [EvMkdir p] s))
  | inl OS.FileExistsError => (inl (OSError "FileExistsError"), extend [EvMkdir p] s)
  | inl OS.FileNotFoundError => (inl (OSError "FileNotFoundError"), extend [EvMkdir p] s)
  | inl OS.NotADirectoryError => (inl (OSError "NotADirectoryError"), extend [EvMkdir p] s)
  end.
Proof.
  unfold mkdir, bind, log, modify. cbn [fst snd].
  change (st_fs (add_event _ s)) with (st_fs s). rewrite add_event_extend.
  destruct (OS.mkdir (st_fs s) p) as [[]|fs']; reflexivity.
Qed.

(** X7. [cache_dir.mkdir(parents=True, exist_ok=True)], when it returns,
    leaves a directory at the path and every entry that was in the file
    table as it was; nothing else of the state changes.  When something
    that is not a directory is already at the path it raises (the
    [FileExistsError] of [os.mkdir]) and changes no file. *)
Theorem mkdir_makes_the_directory (p : Path) (s : state) :
  (forall s', mkdir p s = (inr tt, s') ->
     OS.is_dir (st_fs s') p = true /\ st_fs s ⊆ st_fs s' /\
     s' = set_fs (st_fs s') (extend [EvMkdir p] s)) /\
  (forall e, OS.stat (st_fs s) p = Some e ->
     OS.is_dirtype (OS.d_type e) = false ->
     mkdir p s = (inl (OSError "FileExistsError"), extend [EvMkdir p] s)).
Proof.
  split.
  - intros s'. rewrite mkdir_run.
    destruct (OS.mkdir (st_fs s) p) as [[]|fs'] eqn:E; try discriminate.
    intros [= <-]. apply mkdir_parents_post in E as [D Hsub].
    repeat split; assumption.
  - intros e He Hd. rewrite mkdir_run.
    assert (E : OS.mkdir (st_fs s) p = inl OS.FileExistsError).
    { unfold OS.mkdir.
      destruct (length (Pathlib.parts p)); simpl; unfold OS.os_mkdir, OS.is_dir;
        rewrite He, Hd; reflexivity. }
    rewrite E. reflexivity.
Qed.

Lemma mkdir_makes_the_directory_witness :
  OS.is_dir Sample.fs_static_mkdir Sample.cdir = true /\
  mkdir (Pathlib.of_str "/usr/bin/clang") (Sample.start Sample.fs) =
  (inl (OSError "FileExistsError"),
   extend [EvMkdir (Pathlib.of_str "/usr/bin/clang")] (Sample.start Sample.fs)).
Proof.
  split.
  - assert (E : mkdir Sample.cdir (Sample.start Sample.fs_static) =
                (inr tt, set_fs Sample.fs_static_mkdir
                           (extend [EvMkdir Sample.cdir]
                              (Sample.start Sample.fs_static)))).
    { rewrite mkdir_run. unfold Sample.fs_static_mkdir.
      change (st_fs (Sample.start Sample.fs_static)) with Sample.fs_static.
      destruct (OS.mkdir Sample.fs_static Sample.cdir) as [e|fs'] eqn:E;
        [|reflexivity].
      exfalso.
      assert (B : match OS.mkdir Sample.fs_static Sample.cdir with
                  | inr _ => true
                  | inl _ => false
                  end = true) by (vm_compute; reflexivity).
      rewrite E in B. discriminate B. }
    exact (proj1 (proj1 (mkdir_makes_the_directory Sample.cdir
                           (Sample.start Sample.fs_static)) _ E)).
  - exact (proj2 (mkdir_makes_the_directory (Pathlib.of_str "/usr/bin/clang")
                    (Sample.start Sample.fs))
             (OS.Dirent (OS.FReg "") false true) eq_refl eq_refl).
Defined.

(** ** No compiler *)

(** X8. A miss of the cache with no compiler to be found: the constructor
    has asked the helper for [--bindir] and [--version] and made the cache
    directory, then fails with the error of [_find_program], which names
    [CPP] and the four candidates.  The cache directory stays behind,
    empty of the artifact, so the next construction misses again. *)
Theorem missing_compiler_fails_after_mkdir
    (w : world) (llvm_config : option string) (s : state)
    (cfg out_bin out_ver tv : string) (fs1 : OS.FS) :
  located_helper w (st_fs s) llvm_config = Some cfg ->
  w_run w [cfg; "--bindir"] = Exited 0 out_bin ->
  w_run w [cfg; "--version"] = Exited 0 out_ver ->
  w_dist_version w "llvmcpy" = Some tv ->
  let self := self_after_queries w cfg out_bin out_ver in
  let dname := LLVMCPy.dir_name cfg tv (PyStr.strip out_ver) in
  let cdir := LLVMCPy.cache_dir w dname in
  let artifact := cdir // "llvmcpyimpl.py" in
  OS.exists_ (st_fs s) artifact = false ->
  OS.mkdir (st_fs s) cdir = inr fs1 ->
  LLVMCPy.find_first fs1 (PyStr.join ":" (LLVMCPy._search_paths self))
    (default "" (w_environ w !! "CPP") :: ["clang"; "cpp"; "gcc"; "cc"]) = None ->
  LLVMCPy.__init__ w llvm_config s =
  (inl (RuntimeError
     "Couldn't find CPP or any of the following executables in PATH: clang cpp gcc cc"),
   set_fs fs1
     (extend [EvCheckOutput [cfg; "--bindir"]; EvCheckOutput [cfg; "--version"];
              EvMkdir cdir] s)) /\
  OS.is_dir fs1 cdir = true /\
  OS.exists_ fs1 artifact = false.
Proof.
  intros Hloc Hbin Hver Htv self dname cdir artifact Hmiss Hmk Hcpp.
  split; [|split].
  - rewrite (init_run w llvm_config s cfg out_bin out_ver Hloc Hbin Hver).
    cbv zeta. fold self.
    erewrite bind_inl; [reflexivity|].
    rewrite (get_module_run w self _ cfg tv (PyStr.strip out_ver) eq_refl Htv eq_refl).
    fold dname cdir artifact.
    change (st_fs (extend _ s)) with (st_fs s). rewrite Hmiss. cbn [negb].
    erewrite bind_inl; [reflexivity|].
    erewrite bind_inr.
    2:{ rewrite mkdir_run. change (st_fs (extend _ s)) with (st_fs s).
        rewrite Hmk, extend_extend. reflexivity. }
    unfold LLVMCPy._make_wrapper. erewrite bind_inl; [reflexivity|].
    rewrite find_program_run. cbn [st_fs set_fs]. rewrite Hcpp. reflexivity.
  - apply mkdir_parents_post in Hmk as [D _]. exact D.
  - pose proof (mkdir_keeps_child _ _ _ "llvmcpyimpl.py" Hmk eq_refl) as Hkeep.
    fold artifact in Hkeep. rewrite Hkeep; [exact Hmiss | discriminate].
Qed.

Lemma missing_compiler_fails_after_mkdir_witness :
  fst (LLVMCPy.__init__ Sample.shared None (Sample.start Probe.fs_no_compiler)) =
  inl (RuntimeError
     "Couldn't find CPP or any of the following executables in PATH: clang cpp gcc cc") /\
  OS.is_dir Probe.fs_no_compiler_mkdir Sample.cdir = true.
Proof.
  assert (Hmk : OS.mkdir Probe.fs_no_compiler Sample.cdir =
                inr Probe.fs_no_compiler_mkdir).
  { assert (Hok : match OS.mkdir Probe.fs_no_compiler Sample.cdir with
                   | inr _ => true
                   | inl _ => false
                   end = true) by (vm_compute; reflexivity).
    unfold Probe.fs_no_compiler_mkdir.
    destruct (OS.mkdir Probe.fs_no_compiler Sample.cdir) as [e|fs'];
      [discriminate Hok | reflexivity]. }
  pose proof (missing_compiler_fails_after_mkdir Sample.shared None
                (Sample.start Probe.fs_no_compiler)
                "/usr/bin/llvm-config" ("/usr/bin" +:+ Sample.nl)
                ("14.0.6" +:+ Sample.nl) "0.2.1" Probe.fs_no_compiler_mkdir
                ltac:(vm_compute; reflexivity) eq_refl eq_refl eq_refl) as H.
  cbv zeta in H.
  specialize (H ltac:(vm_compute; reflexivity)).
  assert (Hc : LLVMCPy.cache_dir Sample.shared
                 (LLVMCPy.dir_name "/usr/bin/llvm-config" "0.2.1"
                    (PyStr.strip ("14.0.6" +:+ Sample.nl))) = Sample.cdir)
    by (vm_compute; reflexivity).
  rewrite Hc in H. specialize (H Hmk ltac:(vm_compute; reflexivity)).
  destruct H as (Hrun & Hdir & _).
  rewrite Hrun. split; [reflexivity | exact Hdir].
Defined.

(** ** Flags that do not parse *)








(** ** What the scan of the library directory takes *)

Lemma fnmatch_plain c pat s :
  plain_char c = true ->
  OS.fnmatch (String c pat) s =
  match s with
  | EmptyString => false
  | String d s' => Ascii.eqb c d && OS.fnmatch pat s'
  end.
Proof.
  intros H.
  destruct c as [[] [] [] [] [] [] [] []]; try discriminate H; reflexivity.
Qed.

Lemma fnmatch_star_unfold pat s :
  OS.fnmatch (String "*" pat) s =
  OS.fnmatch pat s ||
  match s with
  | EmptyString => false
  | String _ s' => OS.fnmatch (String "*" pat) s'
  end.
Proof. destruct s; reflexivity. Qed.

Lemma fnmatch_star pat s :
  OS.fnmatch (String "*" pat) s = true <->
  exists a b, s = a +:+ b /\ OS.fnmatch pat b = true.
Proof.
  induction s as [|c s IH]; rewrite fnmatch_star_unfold, orb_true_iff.
  - split.
    + intros [H|H]; [|discriminate]. exists "", "". split; [reflexivity | exact H].
    + intros (a & b & E & H). left.
      destruct a; [|discriminate]. change ("" +:+ b) with b in E. subst b. exact H.
  - split.
    + intros [H|H].
      * exists "", (String c s). split; [reflexivity | exact H].
      * apply IH in H as (a & b & -> & H).
        exists (String c a), b. split; [reflexivity | exact H].
    + intros (a & b & E & H). destruct a as [|x a].
      * left. change ("" +:+ b) with b in E. subst b. exact H.
      * right. rewrite append_cons in E. injection E as -> ->.
        apply IH. exists a, b. split; [reflexivity | exact H].
Qed.

Lemma fnmatch_literal lit pat : forall s,
  all_chars plain_char lit = true ->
  (OS.fnmatch (lit +:+ pat) s = true <->
   exists s', s = lit +:+ s' /\ OS.fnmatch pat s' = true).
Proof.
  induction lit as [|c lit IH]; intros s Hlit.
  - split; [intros H; exists s; split; [reflexivity | exact H]|].
    intros (s' & -> & H). exact H.
  - simpl in Hlit. apply andb_true_iff in Hlit as [Hc Hlit].
    rewrite append_cons, (fnmatch_plain c _ s Hc).
    destruct s as [|d s].
    + split; [discriminate|]. intros (s' & E & _). discriminate E.
    + rewrite andb_true_iff, (IH s Hlit). split.
      * intros [Hd (s' & -> & H)]. apply Ascii.eqb_eq in Hd. subst d.
        exists s'. split; [reflexivity | exact H].
      * intros (s' & E & H). rewrite append_cons in E. injection E as -> ->.
        split; [apply Ascii.eqb_refl|]. exists s'. split; [reflexivity | exact H].
Qed.

Lemma fnmatch_any s : OS.fnmatch "*" s = true.
Proof.
  apply fnmatch_star. exists s, "". split; [|reflexivity].
  rewrite append_nil_r. reflexivity.
Qed.

(** The names the pattern of the scan matches. *)
Lemma scan_pattern ext n :
  all_chars plain_char ext = true ->
  (OS.fnmatch ("libLLVM*" +:+ ext +:+ "*") n = true <->
   exists a b, n = "libLLVM" +:+ a +:+ ext +:+ b).
Proof.
  intros Hext.
  change ("libLLVM*" +:+ ext +:+ "*")
    with ("libLLVM" +:+ String "*" (ext +:+ "*")).
  rewrite (fnmatch_literal "libLLVM" _ n eq_refl). split.
  - intros (s1 & -> & H). apply fnmatch_star in H as (a & b1 & -> & H).
    apply (fnmatch_literal ext "*" b1 Hext) in H as (b & -> & _).
    exists a, b. reflexivity.
  - intros (a & b & ->). exists (a +:+ ext +:+ b). split; [reflexivity|].
    apply fnmatch_star. exists a, (ext +:+ b). split; [reflexivity|].
    apply (fnmatch_literal ext "*" _ Hext). exists b.
    split; [reflexivity | apply fnmatch_any].
Qed.

Lemma extension_plain w : all_chars plain_char (LLVMCPy.extension w) = true.
Proof.
  unfold LLVMCPy.extension.
  destruct (String.eqb (w_platform w) "win32"); [reflexivity|].
  destruct (String.eqb (w_platform w) "darwin"); reflexivity.
Qed.

(** The entries of a directory, read off the file table. *)
Lemma scandir_spec fs d p :
  In p (OS.scandir fs d) <->
  Pathlib.parts p <> [] /\ Pathlib.parent p = d /\
  Pathlib.of_str (Pathlib.str p) = p /\ is_Some (fs !! Pathlib.str p).
Proof.
  unfold OS.scandir.
  rewrite List.filter_In, bool_decide_eq_true, List.in_map_iff. split.
  - intros [(k & <- & Hk) [Hp Hd]].
    apply List.filter_In in Hk as [Hk Hn]. apply String.eqb_eq in Hn.
    apply List.in_map_iff in Hk as ([k' e] & <- & Hk).
    apply list_elem_of_In, elem_of_map_to_list in Hk. cbn [fst] in *.
    rewrite Hn. split; [exact Hp|]. split; [exact Hd|]. split; [reflexivity|].
    exists e. exact Hk.
  - intros (Hp & Hd & Hn & [e He]). split; [|split; assumption].
    exists (Pathlib.str p). split; [exact Hn|].
    apply List.filter_In. split.
    + apply List.in_map_iff. exists (Pathlib.str p, e). split; [reflexivity|].
      apply list_elem_of_In, elem_of_map_to_list, He.
    + rewrite Hn. apply String.eqb_refl.
Qed.

(** X10. What the fallback scan of [_make_wrapper] returns, read off the
    file table: the entries directly inside the library directory (which
    must be a directory) whose name is [libLLVM], anything, the extension
    of the platform, anything, and that are regular files and not symbolic
    links.  So [libLLVM-14.so.1] is taken, a static archive is not, and a
    symbolic link [libLLVM.so] is not. *)
Theorem scan_takes_matching_regular_files
    (w : world) (fs : OS.FS) (d p : Path) :
  p ∈ LLVMCPy.scanned_libraries fs (LLVMCPy.extension w) d <->
  OS.is_dir fs d = true /\
  Pathlib.parts p <> [] /\ Pathlib.parent p = d /\
  Pathlib.of_str (Pathlib.str p) = p /\
  (exists a b,
      Pathlib.name p = "libLLVM" +:+ a +:+ LLVMCPy.extension w +:+ b) /\
  OS.is_file fs p = true /\ OS.is_symlink fs p = false.
Proof.
  rewrite scanned_libraries_spec. unfold OS.glob.
  rewrite list_elem_of_In.
  destruct (OS.is_dir fs d) eqn:Hd.
  - rewrite List.filter_In, scandir_spec,
      (scan_pattern _ _ (extension_plain w)).
    split.
    + intros [[(Hp & Hpar & Hn & _) Hname] [Hf Hl]]. repeat split; assumption.
    + intros (_ & Hp & Hpar & Hn & Hname & Hf & Hl).
      repeat split; try assumption.
      unfold OS.is_file, OS.stat in Hf.
      destruct (Pathlib.parts p); [congruence|].
      destruct (fs !! Pathlib.str p) as [e|]; [eauto | discriminate].
  - split; [intros [[] _] | intros [H _]; discriminate H].
Qed.

(** ** An empty answer to [--libnames] *)

Lemma joinpath_empty d : d // "" = d.
Proof.
  destruct d as [r l]. unfold Pathlib.joinpath. cbn. rewrite app_nil_r. reflexivity.
Qed.

(** X11. In shared mode [shared], when the helper prints nothing for
    [--libnames], the only candidate is the library directory itself:
    the resolver returns it when its own name has the extension among its
    suffixes, and otherwise fails with the error that no usable library
    was found. *)
Theorem empty_libnames_offer_the_directory
    (w : world) (self : LLVMCPy.Self) (cpp : string) (path : Path) (s : state)
    (h out_dir out_mode out_names : string) :
  LLVMCPy._llvm_config self = Some h ->
  w_run w [h; "--libdir"] = Exited 0 out_dir ->
  w_run w [h; "--shared-mode"] = Exited 0 out_mode ->
  PyStr.strip out_mode = "shared" ->
  w_run w [h; "--libnames"] = Exited 0 out_names ->
  PyStr.strip out_names = "" ->
  let libdir_path := Pathlib.of_str (PyStr.strip out_dir) in
  LLVMCPy.resolve_libraries w self cpp path s =
  (if bool_decide (LLVMCPy.extension w ∈ Pathlib.suffixes libdir_path)
   then inr [libdir_path]
   else inl (ValueError
     "No valid LLVM libraries found, LLVM must be built with BUILD_SHARED_LIBS"),
   extend [EvCheckOutput [h; "--libdir"]; EvCheckOutput [h; "--shared-mode"];
           EvCheckOutput [h; "--libnames"]] s).
Proof.
  intros Hh Hdir Hmode Hshared Hnames Hempty libdir_path.
  unfold LLVMCPy.resolve_libraries.
  erewrite bind_inr by (eapply run_llvm_config_ok; eauto).
  erewrite bind_inr by (eapply run_llvm_config_ok; eauto).
  rewrite Hshared. cbn [String.eqb Ascii.eqb Bool.eqb].
  unfold bind at 1. unfold bind at 1.
  erewrite run_llvm_config_ok by eauto.
  rewrite Hempty, !extend_extend. cbn [app]. fold libdir_path.
  unfold LLVMCPy.declared_libraries. cbn [PyStr.split map List.filter].
  rewrite joinpath_empty. unfold ret.
  destruct (bool_decide (LLVMCPy.extension w ∈ Pathlib.suffixes libdir_path));
    reflexivity.
Qed.

Lemma empty_libnames_offer_the_directory_witness :
  LLVMCPy.resolve_libraries (Sample.toolchain "shared" "" 0 Sample.binding)
    Sample.self "/usr/bin/clang" Sample.artifact (Sample.start ∅) =
  (inl (ValueError
     "No valid LLVM libraries found, LLVM must be built with BUILD_SHARED_LIBS"),
   extend [EvCheckOutput ["/usr/bin/llvm-config"; "--libdir"];
           EvCheckOutput ["/usr/bin/llvm-config"; "--shared-mode"];
           EvCheckOutput ["/usr/bin/llvm-config"; "--libnames"]] (Sample.start ∅)).
Proof.
  exact (empty_libnames_offer_the_directory
           (Sample.toolchain "shared" "" 0 Sample.binding)
           Sample.self "/usr/bin/clang" Sample.artifact (Sample.start ∅)
           "/usr/bin/llvm-config" ("/usr/lib/llvm" +:+ Sample.nl)
           ("shared" +:+ Sample.nl) ("" +:+ Sample.nl)
           eq_refl eq_refl eq_refl eq_refl eq_refl eq_refl).
Defined.

(** ** What a generated artifact was made from *)

Lemma resolve_libraries_nonempty w self cpp path s libs s1 :
  LLVMCPy.resolve_libraries w self cpp path s = (inr libs, s1) -> libs <> [].
Proof.
  unfold LLVMCPy.resolve_libraries. intros H.
  apply bind_inv in H as (libdir & s2 & _ & H).
  apply bind_inv in H as (mode & s3 & _ & H).
  apply bind_inv in H as (l & s4 & _ & H).
  destruct l as [|x l]; [discriminate H|].
  injection H as <- _. discriminate.
Qed.

(** X12. When [_make_wrapper] returns, the artifact is a regular file at
    the path it was given, holding what the generator wrote.  The
    generator was given the compiler that [_find_program] found for [CPP]
    and the four candidates, the libraries of the resolver, of which
    there is at least one, and the directory the helper printed for
    [--includedir]; it was called after all of these. *)
Theorem wrapper_is_generated_from_resolved_libraries
    (w : world) (self : LLVMCPy.Self) (path : Path) (s s' : state) :
  LLVMCPy._make_wrapper w self path s = (inr tt, s') ->
  exists cpp libraries s1 h out content,
    LLVMCPy._find_program w self "CPP" ["clang"; "cpp"; "gcc"; "cc"] s =
      (inr cpp, s) /\
    LLVMCPy.resolve_libraries w self cpp path s = (inr libraries, s1) /\
    libraries <> [] /\
    LLVMCPy._llvm_config self = Some h /\
    w_run w [h; "--includedir"] = Exited 0 out /\
    let include_dir := Pathlib.of_str (PyStr.strip out) in
    w_generate w cpp libraries include_dir path (st_fs s1) = Written content /\
    s' = set_fs (<[Pathlib.str path := OS.regular content]> (st_fs s1))
           (extend [EvCheckOutput [h; "--includedir"];
                    EvGenerate cpp libraries include_dir path] s1).
Proof.
  intros H. unfold LLVMCPy._make_wrapper in H.
  apply bind_inv in H as (cpp & s0 & Hcpp & H).
  assert (s0 = s) as ->.
  { pose proof (find_program_run w self "CPP" ["clang"; "cpp"; "gcc"; "cc"] s) as E.
    rewrite Hcpp in E. injection E as _ ->. reflexivity. }
  apply bind_inv in H as (libs & s1 & Hlibs & H).
  apply bind_inv in H as (inc & s2 & Hinc & H).
  apply run_llvm_config_inv in Hinc as (h & out & Hh & Hrun & -> & ->).
  unfold generate_wrapper, bind, log, modify in H. cbn [fst snd] in H.
  change (st_fs (add_event _ (extend _ s1))) with (st_fs s1) in H.
  destruct (w_generate w cpp libs (Pathlib.of_str (PyStr.strip out)) path (st_fs s1))
    as [content|e [partial|]] eqn:Hgen; try discriminate H.
  injection H as <-.
  exists cpp, libs, s1, h, out, content.
  split; [exact Hcpp|]. split; [exact Hlibs|].
  split; [eapply resolve_libraries_nonempty, Hlibs|].
  split; [exact Hh|]. split; [exact Hrun|]. cbv zeta.
  split; [exact Hgen|].
  rewrite add_event_extend, extend_extend. reflexivity.
Qed.

Lemma wrapper_is_generated_from_resolved_libraries_witness :
  OS.is_file
    (st_fs (snd (LLVMCPy._make_wrapper Sample.shared Sample.self Sample.artifact
                   (Sample.start Sample.fs))))
    Sample.artifact = true.
Proof.
  assert (B : match fst (LLVMCPy._make_wrapper Sample.shared Sample.self
                           Sample.artifact (Sample.start Sample.fs)) with
              | inr _ => true
              | inl _ => false
              end = true) by (vm_compute; reflexivity).
  destruct (LLVMCPy._make_wrapper Sample.shared Sample.self Sample.artifact
              (Sample.start Sample.fs)) as [[e|[]] s'] eqn:E;
    [discriminate B|].
  destruct (wrapper_is_generated_from_resolved_libraries Sample.shared Sample.self
              Sample.artifact (Sample.start Sample.fs) s' E)
    as (cpp & libs & s1 & h & out & content & _ & _ & _ & _ & _ & _ & ->).
  cbn [snd st_fs set_fs]. unfold OS.is_file, OS.stat.
  assert (Hp : Pathlib.parts Sample.artifact <> []) by (vm_compute; discriminate).
  destruct (Pathlib.parts Sample.artifact); [congruence|].
  rewrite lookup_insert_eq. reflexivity.
Defined.

(** ** A second construction *)

Lemma init_hit w llvm_config s cfg out_bin out_ver tv content l x ns :
  located_helper w (st_fs s) llvm_config = Some cfg ->
  w_run w [cfg; "--bindir"] = Exited 0 out_bin ->
  w_run w [cfg; "--version"] = Exited 0 out_ver ->
  w_dist_version w "llvmcpy" = Some tv ->
  let self := self_after_queries w cfg out_bin out_ver in
  let dname := LLVMCPy.dir_name cfg tv (PyStr.strip out_ver) in
  let artifact := LLVMCPy.cache_dir w dname // "llvmcpyimpl.py" in
  let spec := spec_from_file_location ("llvmcpy-" +:+ dname) artifact in
  OS.stat (st_fs s) artifact = Some (OS.Dirent (OS.FReg content) l x) ->
  w_exec w content = inr ns ->
  LLVMCPy.__init__ w llvm_config s =
  (inr (LLVMCPy.copy_symbols (ns ∪ fresh_namespace spec) (LLVMCPy.attributes self)),
   set_modules (st_modules s ++ [ns ∪ fresh_namespace spec])
     (extend [EvCheckOutput [cfg; "--bindir"]; EvCheckOutput [cfg; "--version"];
              EvExecModule ("llvmcpy-" +:+ dname) artifact] s)).
Proof.
  intros Hloc Hbin Hver Htv self dname artifact spec Hstat Hexec.
  rewrite (init_run w llvm_config s cfg out_bin out_ver Hloc Hbin Hver).
  cbv zeta. fold self.
  unfold bind at 1.
  rewrite (get_module_run w self _ cfg tv (PyStr.strip out_ver) eq_refl Htv eq_refl).
  cbv zeta. fold dname artifact spec.
  change (st_fs (extend _ s)) with (st_fs s).
  assert (Hex : OS.exists_ (st_fs s) artifact = true).
  { unfold OS.exists_. rewrite Hstat. reflexivity. }
  rewrite Hex. cbn [negb]. unfold bind at 1. unfold ret at 1.
  rewrite load_run. cbv zeta.
  change (st_fs (extend _ s)) with (st_fs s).
  change (spec_origin spec) with artifact.
  change (spec_name spec) with ("llvmcpy-" +:+ dname).
  rewrite Hstat, Hexec, extend_extend.
  unfold bind, gets, ret. cbn [st_modules set_modules extend app].
  rewrite lookup_app_r by lia. rewrite Nat.sub_diag. reflexivity.
Qed.

(** X13. A construction that succeeded leaves the cache ready: as long
    as the same helper is located again, the next construction in the
    state it left asks the helper for [--bindir] and [--version], loads
    the artifact into one more module object and returns the same
    attributes; it makes no directory, starts neither linker nor
    generator, and leaves every file as it is. *)
Theorem second_construction_hits_cache
    (w : world) (llvm_config : option string) (s s' : state)
    (attrs : gmap string pyval) :
  LLVMCPy.__init__ w llvm_config s = (inr attrs, s') ->
  located_helper w (st_fs s') llvm_config = located_helper w (st_fs s) llvm_config ->
  exists cfg name origin ns,
    LLVMCPy.__init__ w llvm_config s' =
    (inr attrs,
     set_modules (st_modules s' ++ [ns])
       (extend [EvCheckOutput [cfg; "--bindir"]; EvCheckOutput [cfg; "--version"];
                EvExecModule name origin] s')) /\
    List.last (st_modules s') ∅ = ns.
Proof.
  intros H Hsame.
  apply init_inv in H
    as (cfg & out_bin & out_ver & tv & ns & pre & Hloc & Hbin & Hver & Htv & H).
  cbv zeta in H.
  destruct H as (_ & Hmods & _ & (content & l & x & Hstat & Hexec) & ->).
  rewrite <- Hsame in Hloc.
  eexists cfg, _, _, _. split.
  - apply (init_hit w llvm_config s' cfg out_bin out_ver tv content l x ns
             Hloc Hbin Hver Htv Hstat Hexec).
  - rewrite Hmods. rewrite last_app_ne by discriminate. reflexivity.
Qed.

Lemma second_construction_hits_cache_witness :
  let r1 := LLVMCPy.__init__ Sample.shared (Some "/usr/bin/llvm-config")
              (Sample.start Sample.fs) in
  let r2 := LLVMCPy.__init__ Sample.shared (Some "/usr/bin/llvm-config") (snd r1) in
  fst r2 = fst r1 /\ st_fs (snd r2) = st_fs (snd r1).
Proof.
  intros r1 r2.
  assert (B : match fst r1 with inr _ => true | inl _ => false end = true)
    by (vm_compute; reflexivity).
  unfold r2. clear r2.
  destruct r1 as [[e|attrs] s'] eqn:E; [discriminate B|]. cbn [fst snd].
  destruct (second_construction_hits_cache Sample.shared
              (Some "/usr/bin/llvm-config") (Sample.start Sample.fs) s' attrs
              E eq_refl) as (cfg & name & origin & ns & -> & _).
  split; reflexivity.
Defined.

(** ** Flags that parse *)

Lemma tokens_plain_word w : forall tok rest,
  all_chars shlex_plain w = true ->
  Shlex.tokens Shlex.SWord tok (w +:+ rest) =
  Shlex.tokens Shlex.SWord (tok +:+ w) rest.
Proof.
  induction w as [|c w IH]; intros tok rest H.
  - rewrite append_nil_r. reflexivity.
  - simpl in H. apply andb_true_iff in H as [Hc Hw].
    unfold shlex_plain in Hc.
    apply andb_true_iff in Hc as [Hc He]. apply andb_true_iff in Hc as [Hs Hq].
    apply negb_true_iff in Hs, Hq, He.
    rewrite append_cons. cbn [Shlex.tokens]. rewrite Hs, Hq, He.
    rewrite IH by exact Hw. unfold Shlex.push.
    rewrite append_assoc. reflexivity.
Qed.

Lemma tokens_start_word x rest :
  x <> "" -> all_chars shlex_plain x = true ->
  Shlex.tokens Shlex.SSpace "" (x +:+ rest) = Shlex.tokens Shlex.SWord x rest.
Proof.
  destruct x as [|c x]; [congruence|]. intros _ H.
  pose proof H as Hall. simpl in H. apply andb_true_iff in H as [Hc Hw].
  unfold shlex_plain in Hc.
  apply andb_true_iff in Hc as [Hc He]. apply andb_true_iff in Hc as [Hs Hq].
  apply negb_true_iff in Hs, Hq, He.
  rewrite append_cons. cbn [Shlex.tokens]. rewrite Hs, Hq, He.
  rewrite tokens_plain_word by exact Hw. reflexivity.
Qed.

Lemma tokens_quoted x : forall tok rest,
  PyStr.contains "'" x = false ->
  Shlex.tokens (Shlex.SQuote "'") tok (x +:+ String "'" rest) =
  Shlex.tokens Shlex.SWord (tok +:+ x) rest.
Proof.
  induction x as [|c x IH]; intros tok rest H.
  - rewrite append_nil_r. reflexivity.
  - cbn [PyStr.contains] in H. apply orb_false_iff in H as [Hc Hx].
    rewrite append_cons. cbn [Shlex.tokens].
    rewrite (Ascii.eqb_sym c "'"), Hc.
    change (Shlex.is_escapedquote "'") with false. rewrite andb_false_r.
    rewrite IH by exact Hx. unfold Shlex.push.
    rewrite append_assoc. reflexivity.
Qed.

(** X14. How the answers of the helper are cut into arguments for the
    linker.  Words that hold no whitespace, quote or backslash, with one
    space between them, come back as they are, in order; a text between
    single quotes comes back as one argument, whatever blanks, double
    quotes or backslashes it holds. *)
Theorem shlex_split_keeps_plain_words :
  (forall l s,
     Forall (fun x => x <> "" /\ all_chars shlex_plain x = true) l ->
     shlex_split (PyStr.join " " l) s = (inr l, s)) /\
  (forall x s,
     PyStr.contains "'" x = false ->
     shlex_split ("'" +:+ x +:+ "'") s = (inr [x], s)).
Proof.
  split.
  - intros l s H. apply shlex_split_ok. unfold Shlex.split.
    induction H as [|x l [Hne Hx] Hl IH]; [reflexivity|].
    destruct l as [|y l].
    + cbn [PyStr.join]. rewrite <- (append_nil_r x) at 1.
      rewrite tokens_start_word by assumption. reflexivity.
    + rewrite join_cons by discriminate.
      rewrite tokens_start_word by assumption.
      change (" " +:+ ?r) with (String " " r).
      cbn [Shlex.tokens Shlex.is_whitespace]. rewrite IH. reflexivity.
  - intros x s H. apply shlex_split_ok. unfold Shlex.split.
    change ("'" +:+ x +:+ "'") with (String "'" (x +:+ String "'" "")).
    cbn [Shlex.tokens Shlex.is_whitespace Shlex.is_escape Shlex.is_quote
         Ascii.eqb Bool.eqb].
    rewrite tokens_quoted by exact H. reflexivity.
Qed.

Lemma shlex_split_keeps_plain_words_witness :
  shlex_split "-lLLVMCore -lLLVMSupport" (Sample.start ∅) =
    (inr ["-lLLVMCore"; "-lLLVMSupport"], Sample.start ∅) /\
  shlex_split "'-L/opt/my llvm/lib'" (Sample.start ∅) =
    (inr ["-L/opt/my llvm/lib"], Sample.start ∅).
Proof.
  split.
  - apply (proj1 shlex_split_keeps_plain_words ["-lLLVMCore"; "-lLLVMSupport"]).
    repeat constructor; discriminate.
  - apply (proj2 shlex_split_keeps_plain_words "-L/opt/my llvm/lib").
    reflexivity.
Defined.

(** ** An override with a directory part *)

(** X15. When the override variable holds a name with a directory part,
    [_find_program] returns it as it is if it is runnable, without any
    look at the search paths; if it is not, the override is given up (it
    is not looked for on the search paths) and the candidates are tried
    as if it was not set. *)
Theorem override_with_directory_is_not_searched
    (w : world) (self : LLVMCPy.Self) (env : string) (names : list string)
    (s : state) (v : string) :
  w_environ w !! env = Some v ->
  PyStr.contains "/" v = true ->
  (runnable (st_fs s) v ->
   LLVMCPy._find_program w self env names s = (inr v, s)) /\
  (~ runnable (st_fs s) v ->
   LLVMCPy._find_program w self env names s =
   (match LLVMCPy.find_first (st_fs s)
            (PyStr.join ":" (LLVMCPy._search_paths self)) names with
    | Some path => inr path
    | None =>
        inl (RuntimeError
               ("Couldn't find " +:+ env +:+
                " or any of the following executables in PATH: " +:+
                PyStr.join " " names))
    end, s)).
Proof.
  intros Henv Hdir.
  assert (Hw : OS.which (st_fs s) v (PyStr.join ":" (LLVMCPy._search_paths self)) =
               if OS._access_check (st_fs s) v then Some v else None).
  { unfold OS.which. rewrite Hdir. reflexivity. }
  split; intros Hr; rewrite find_program_run, Henv;
    change (default "" (Some v)) with v; cbn [LLVMCPy.find_first]; rewrite Hw.
  - apply access_check_runnable in Hr. rewrite Hr. reflexivity.
  - destruct (OS._access_check (st_fs s) v) eqn:E; [|reflexivity].
    exfalso. apply Hr, access_check_runnable, E.
Qed.

Lemma override_with_directory_is_not_searched_witness :
  LLVMCPy._find_program Probe.cpp_override (LLVMCPy.MkSelf [] None None)
    "CPP" ["clang"; "cpp"; "gcc"; "cc"] (Sample.start Sample.fs) =
  (inr "/usr/bin/clang", Sample.start Sample.fs).
Proof.
  assert (Hr : runnable (st_fs (Sample.start Sample.fs)) "/usr/bin/clang")
    by (vm_compute; repeat split).
  exact (proj1 (override_with_directory_is_not_searched Probe.cpp_override
                  (LLVMCPy.MkSelf [] None None) "CPP"
                  ["clang"; "cpp"; "gcc"; "cc"] (Sample.start Sample.fs)
                  "/usr/bin/clang" ltac:(vm_compute; reflexivity) eq_refl) Hr).
Defined.

(** ** Where the cache lives *)

Lemma hexdigit_not_slash x : Ascii.eqb "/" (Sha256.hexdigit x) = false.
Proof.
  unfold Sha256.hexdigit.
  destruct (x mod 16)%Z as [|p|p]; [reflexivity| |reflexivity].
  do 4 (try destruct p as [p|p|]); reflexivity.
Qed.

Lemma contains_hex32 x rest :
  PyStr.contains "/" (Sha256.hex32 x rest) = PyStr.contains "/" rest.
Proof.
  unfold Sha256.hex32. cbn [PyStr.contains].
  rewrite !hexdigit_not_slash. reflexivity.
Qed.

Lemma hexdigest_no_slash h : PyStr.contains "/" (Sha256.hexdigest h) = false.
Proof.
  unfold Sha256.hexdigest, Sha256.hex_of_regs.
  rewrite !contains_hex32. reflexivity.
Qed.

Lemma contains_app c a b :
  PyStr.contains c (a +:+ b) = PyStr.contains c a || PyStr.contains c b.
Proof.
  induction a as [|x a IH]; [reflexivity|].
  rewrite append_cons. cbn [PyStr.contains]. rewrite IH, orb_assoc. reflexivity.
Qed.

Lemma split_no_sep sep s :
  PyStr.contains sep s = false -> PyStr.split sep s = [s].
Proof.
  induction s as [|c s IH]; [reflexivity|]. cbn [PyStr.contains PyStr.split].
  intros H. apply orb_false_iff in H as [Hc Hs].
  rewrite (Ascii.eqb_sym c sep), Hc, (IH Hs). reflexivity.
Qed.

(** A name without a slash, other than the empty one and the dot, is a
    path of one component. *)
Lemma of_str_component s :
  PyStr.contains "/" s = false -> s <> "" -> s <> "." ->
  Pathlib.of_str s = Pathlib.MkPath "" [s].
Proof.
  intros Hs Hne Hdot. unfold Pathlib.of_str.
  rewrite (split_no_sep _ _ Hs). cbn [List.filter]. unfold Pathlib.is_part.
  rewrite (eqb_neq_false _ _ Hne), (eqb_neq_false _ _ Hdot). cbn [negb andb].
  f_equal. unfold Pathlib.splitroot, PyStr.startswith.
  destruct s as [|c s]; [congruence|]. cbn [PyStr.contains] in Hs.
  apply orb_false_iff in Hs as [Hc _]. cbn [String.prefix].
  destruct (ascii_dec "/" c) as [<-|_]; [discriminate Hc | reflexivity].
Qed.

Lemma joinpath_component d s :
  PyStr.contains "/" s = false -> s <> "" -> s <> "." ->
  d // s = Pathlib.MkPath (Pathlib.root d) (Pathlib.parts d ++ [s]).
Proof.
  intros Hs Hne Hdot. unfold Pathlib.joinpath.
  rewrite (of_str_component s Hs Hne Hdot). reflexivity.
Qed.

(** X16. Where the artifact is kept: as long as the version the helper
    reports holds no slash, the cache directory is the entry of the user
    cache directory of [llvmcpy] that is named by the digest, a dash and
    that version, and the artifact is the entry [llvmcpyimpl.py] of that
    directory. *)
Theorem cache_entry_is_below_user_cache_dir
    (w : world) (llvm_config tool_version version : string) :
  PyStr.contains "/" version = false ->
  let base := Pathlib.of_str (w_user_cache_dir w "llvmcpy") in
  let dir_name := LLVMCPy.dir_name llvm_config tool_version version in
  let cache_dir := LLVMCPy.cache_dir w dir_name in
  let llvmcpyimpl_py := cache_dir // "llvmcpyimpl.py" in
  Pathlib.parent cache_dir = base /\ Pathlib.name cache_dir = dir_name /\
  Pathlib.parent llvmcpyimpl_py = cache_dir /\
  Pathlib.name llvmcpyimpl_py = "llvmcpyimpl.py".
Proof.
  intros Hv base dir_name cache_dir llvmcpyimpl_py.
  assert (Hs : PyStr.contains "/" dir_name = false).
  { unfold dir_name. rewrite dir_name_unfold, !contains_app, hexdigest_no_slash, Hv.
    reflexivity. }
  assert (Hlen : 65 <= String.length dir_name).
  { unfold dir_name. rewrite dir_name_unfold, !length_append, hexdigest_length.
    simpl. lia. }
  assert (Hne : dir_name <> "") by (intros E; rewrite E in Hlen; simpl in Hlen; lia).
  assert (Hdot : dir_name <> ".") by (intros E; rewrite E in Hlen; simpl in Hlen; lia).
  assert (Hc : cache_dir =
               Pathlib.MkPath (Pathlib.root base) (Pathlib.parts base ++ [dir_name])).
  { apply joinpath_component; assumption. }
  assert (Ha : llvmcpyimpl_py =
               Pathlib.MkPath (Pathlib.root cache_dir)
                 (Pathlib.parts cache_dir ++ ["llvmcpyimpl.py"])).
  { apply joinpath_component; [reflexivity | discriminate | discriminate]. }
  rewrite Ha. unfold Pathlib.parent, Pathlib.name. cbn [Pathlib.root Pathlib.parts].
  rewrite !removelast_last, !last_last.
  rewrite Hc. cbn [Pathlib.root Pathlib.parts].
  rewrite !removelast_last, !last_last.
  destruct base. repeat split; reflexivity.
Qed.

Lemma cache_entry_is_below_user_cache_dir_witness :
  Pathlib.parent Sample.cdir = Pathlib.of_str "/home/u/.cache/llvmcpy" /\
  Pathlib.parent Sample.artifact = Sample.cdir.
Proof.
  assert (Hc : LLVMCPy.cache_dir Sample.shared
                 (LLVMCPy.dir_name "/usr/bin/llvm-config" "0.2.1" "14.0.6") =
               Sample.cdir) by (vm_compute; reflexivity).
  assert (Ha : Sample.cdir // "llvmcpyimpl.py" = Sample.artifact)
    by (vm_compute; reflexivity).
  destruct (cache_entry_is_below_user_cache_dir Sample.shared
              "/usr/bin/llvm-config" "0.2.1" "14.0.6" eq_refl)
    as (Hp & _ & Hq & _).
  rewrite Hc in Hp, Hq. rewrite Ha in Hq. split; [exact Hp | exact Hq].
Defined.

(** ** The programs a construction starts *)

Lemma emits_quiet {A} cfg (m : M A) :
  (forall s, st_trace (snd (m s)) = st_trace s) -> emits cfg m.
Proof.
  intros H s. exists []. rewrite H, app_nil_r. split; [reflexivity | constructor].
Qed.

Lemma emits_one {A} cfg (m : M A) e :
  (forall s, st_trace (snd (m s)) = st_trace s ++ [e]) ->
  expected cfg e -> emits cfg m.
Proof.
  intros H He s. exists [e]. split; [apply H | repeat constructor; exact He].
Qed.

Lemma emits_ret {A} cfg (a : A) : emits cfg (ret a).
Proof. apply emits_quiet. reflexivity. Qed.

Lemma emits_raise {A} cfg e : emits cfg (@raise A e).
Proof. apply emits_quiet. reflexivity. Qed.

Lemma emits_gets {A} cfg (f : state -> A) : emits cfg (gets f).
Proof. apply emits_quiet. reflexivity. Qed.

Lemma emits_bind {A B} cfg (m : M A) (k : A -> M B) :
  emits cfg m -> (forall a, emits cfg (k a)) -> emits cfg (bind m k).
Proof.
  intros Hm Hk s. unfold bind. destruct (Hm s) as (es1 & E1 & F1).
  destruct (m s) as [[e|a] s1]; cbn [snd] in *.
  - exists es1. split; assumption.
  - destruct (Hk a s1) as (es2 & E2 & F2). exists (es1 ++ es2).
    rewrite E2, E1, app_assoc. split; [reflexivity | apply Forall_app; split; assumption].
Qed.

Ltac emits_with known :=
  repeat first
    [ known
    | apply emits_ret | apply emits_raise | apply emits_gets
    | apply emits_bind; [|intros ?]
    | match goal with
      | |- emits _ (match ?x with _ => _ end) => destruct x
      end ].

Lemma emits_shlex_split cfg text : emits cfg (shlex_split text).
Proof. unfold shlex_split. emits_with fail. Qed.

Lemma emits_get_version cfg w : emits cfg (_get_version w).
Proof. unfold _get_version. emits_with fail. Qed.

Lemma emits_find_program cfg w self env names :
  emits cfg (LLVMCPy._find_program w self env names).
Proof. apply emits_quiet. intros s. rewrite find_program_run. reflexivity. Qed.

Lemma emits_run_llvm_config cfg w self option :
  LLVMCPy._llvm_config self = Some cfg -> In option helper_options ->
  emits cfg (LLVMCPy._run_llvm_config w self [option]).
Proof.
  intros Hcfg Hopt. apply emits_one with (e := EvCheckOutput [cfg; option]).
  - intros s. rewrite run_llvm_config_cases, Hcfg. reflexivity.
  - exists option. split; [reflexivity | exact Hopt].
Qed.

Lemma emits_link cfg w cpp out rest :
  emits cfg (check_call w (cpp :: "-shared" :: "-o" :: out :: rest)).
Proof.
  eapply emits_one.
  - intros s. rewrite check_call_run. reflexivity.
  - exists cpp, out, rest. reflexivity.
Qed.

Lemma emits_mkdir cfg p : emits cfg (mkdir p).
Proof. apply emits_one with (e := EvMkdir p); [apply mkdir_trace | exact I]. Qed.

Lemma emits_generate_wrapper cfg w cpp libraries include_dir path :
  emits cfg (generate_wrapper w cpp libraries include_dir path).
Proof.
  apply emits_one with (e := EvGenerate cpp libraries include_dir path); [|exact I].
  intros s. unfold generate_wrapper, bind, log, modify. cbn [fst snd].
  destruct (w_generate w cpp libraries include_dir path _) as [c|e [c|]];
    reflexivity.
Qed.

Lemma emits_load cfg w spec :
  emits cfg (bind (module_from_spec spec)
               (fun module => bind (exec_module w spec module)
                                   (fun _ => ret module))).
Proof.
  apply emits_one with (e := EvExecModule (spec_name spec) (spec_origin spec));
    [|exact I].
  intros s. rewrite load_run. cbv zeta.
  destruct (OS.stat (st_fs s) (spec_origin spec)) as [[[c| | |] ? ?]|];
    try reflexivity.
  destruct (w_exec w c); reflexivity.
Qed.

Ltac helper_option :=
  unfold helper_options; cbn [In];
  repeat first [left; reflexivity | right].

Lemma emits_synthesize cfg w self cpp path :
  LLVMCPy._llvm_config self = Some cfg ->
  emits cfg (LLVMCPy.synthesize w self cpp path).
Proof.
  intros Hcfg. unfold LLVMCPy.synthesize.
  emits_with ltac:(first [ apply emits_run_llvm_config; [exact Hcfg | helper_option]
                         | apply emits_shlex_split
                         | apply emits_link ]).
Qed.

Lemma emits_resolve_libraries cfg w self cpp path :
  LLVMCPy._llvm_config self = Some cfg ->
  emits cfg (LLVMCPy.resolve_libraries w self cpp path).
Proof.
  intros Hcfg. unfold LLVMCPy.resolve_libraries.
  emits_with ltac:(first [ apply emits_run_llvm_config; [exact Hcfg | helper_option]
                         | apply emits_synthesize; exact Hcfg ]).
Qed.

Lemma emits_make_wrapper cfg w self path :
  LLVMCPy._llvm_config self = Some cfg ->
  emits cfg (LLVMCPy._make_wrapper w self path).
Proof.
  intros Hcfg. unfold LLVMCPy._make_wrapper.
  emits_with ltac:(first [ apply emits_run_llvm_config; [exact Hcfg | helper_option]
                         | apply emits_resolve_libraries; exact Hcfg
                         | apply emits_find_program
                         | apply emits_generate_wrapper ]).
Qed.

Lemma emits_get_module cfg w self :
  LLVMCPy._llvm_config self = Some cfg ->
  emits cfg (LLVMCPy._get_module w self).
Proof.
  intros Hcfg. unfold LLVMCPy._get_module.
  emits_with ltac:(first [ apply emits_get_version | apply emits_mkdir
                         | apply emits_make_wrapper; exact Hcfg
                         | apply emits_load ]).
Qed.

(** X17. The programs a construction starts.  Once the helper is
    located, every child process of the constructor, however it ends, is
    either that helper with exactly one option, out of [--bindir],
    [--version], [--libdir], [--shared-mode], [--libnames], [--ldflags],
    [--libs], [--system-libs] and [--includedir], or a linker run of the
    form [<compiler> -shared -o <output> ...]. *)
Theorem constructor_starts_only_helper_and_linker
    (w : world) (llvm_config : option string) (s : state) (cfg : string) :
  located_helper w (st_fs s) llvm_config = Some cfg ->
  exists es,
    st_trace (snd (LLVMCPy.__init__ w llvm_config s)) = st_trace s ++ es /\
    Forall (expected cfg) es.
Proof.
  intros Hloc. unfold LLVMCPy.__init__.
  erewrite bind_inr by (apply init_locate, Hloc).
  cbn [LLVMCPy._search_paths LLVMCPy._llvm_config LLVMCPy.version].
  revert s Hloc. intros s _. revert s.
  change (emits cfg
    (bind (LLVMCPy._run_llvm_config w
             (LLVMCPy.MkSelf
                (PyStr.split ":" (default (w_defpath w) (w_environ w !! "PATH")))
                (Some cfg) None) ["--bindir"])
       (fun bindir =>
          bind (LLVMCPy._run_llvm_config w
                  (LLVMCPy.MkSelf
                     (bindir ::
                      PyStr.split ":" (default (w_defpath w) (w_environ w !! "PATH")))
                     (Some cfg) None) ["--version"])
            (fun v =>
               bind (LLVMCPy._get_module w
                       (LLVMCPy.MkSelf
                          (bindir ::
                           PyStr.split ":"
                             (default (w_defpath w) (w_environ w !! "PATH")))
                          (Some cfg) (Some v)))
                 (fun module =>
                    bind (gets (fun s => default ∅ (st_modules s !! module)))
                      (fun ns =>
                         ret (LLVMCPy.copy_symbols ns
                                (LLVMCPy.attributes
                                   (LLVMCPy.MkSelf
                                      (bindir ::
                                       PyStr.split ":"
                                         (default (w_defpath w)
                                            (w_environ w !! "PATH")))
                                      (Some cfg) (Some v)))))))))).
  emits_with ltac:(first [ apply emits_run_llvm_config; [reflexivity | helper_option]
                         | apply emits_get_module; reflexivity ]).
Qed.

Lemma constructor_starts_only_helper_and_linker_witness :
  exists es,
    st_trace (snd (LLVMCPy.__init__ (Sample.toolchain "static" "" 0 Sample.binding)
                     (Some "/usr/bin/llvm-config") (Sample.start Sample.fs_static))) =
      es /\
    Forall (expected "/usr/bin/llvm-config") es.
Proof.
  exact (constructor_starts_only_helper_and_linker
           (Sample.toolchain "static" "" 0 Sample.binding)
           (Some "/usr/bin/llvm-config") (Sample.start Sample.fs_static)
           "/usr/bin/llvm-config" eq_refl).
Defined.

(** ** The declared libraries, in order *)

Lemma split_join sep l :
  l <> [] -> Forall (fun x => PyStr.contains sep x = false) l ->
  PyStr.split sep (PyStr.join (String sep "") l) = l.
Proof.
  intros Hne H. induction H as [|x l Hx Hl IH]; [congruence|].
  destruct l as [|y l].
  - apply split_no_sep, Hx.
  - rewrite join_cons by discriminate.
    change (x +:+ String sep "" +:+ ?r) with (x +:+ String sep r).
    rewrite split_head by exact Hx. rewrite IH by discriminate. reflexivity.
Qed.

(** X18. In shared mode the candidates are taken in the order in which
    the helper declares them, and a name declared twice is taken twice:
    for names without a space, one space between them, the declared
    libraries are the names joined to the library directory, in that
    order, less those whose path lacks the extension among its
    suffixes. *)
Theorem declared_libraries_keep_order
    (extension : string) (libdir_path : Path) (names : list string) :
  names <> [] ->
  Forall (fun n => PyStr.contains " " n = false) names ->
  LLVMCPy.declared_libraries extension libdir_path (PyStr.join " " names) =
  List.filter (fun lib_path => bool_decide (extension ∈ Pathlib.suffixes lib_path))
    (map (fun libname => libdir_path // libname) names).
Proof.
  intros Hne H. unfold LLVMCPy.declared_libraries.
  rewrite (split_join " " names Hne H). reflexivity.
Qed.

Lemma declared_libraries_keep_order_witness :
  LLVMCPy.declared_libraries ".so" (Pathlib.of_str "/usr/lib/llvm")
    (PyStr.join " " ["libLLVM-14.so.1"; "libLLVMCore.a"; "libLLVM-14.so.1"]) =
  [Pathlib.of_str "/usr/lib/llvm/libLLVM-14.so.1";
   Pathlib.of_str "/usr/lib/llvm/libLLVM-14.so.1"].
Proof.
  rewrite (declared_libraries_keep_order ".so" (Pathlib.of_str "/usr/lib/llvm")
             ["libLLVM-14.so.1"; "libLLVMCore.a"; "libLLVM-14.so.1"]
             ltac:(discriminate) ltac:(repeat constructor)).
  vm_compute. reflexivity.
Defined.

(** ** Paths and their text *)

Lemma split_parts sep s :
  Forall (fun x => PyStr.contains sep x = false) (PyStr.split sep s).
Proof.
  induction s as [|c s IH]; [repeat constructor|]. cbn [PyStr.split].
  destruct (Ascii.eqb c sep) eqn:E; [constructor; [reflexivity | exact IH]|].
  destruct (PyStr.split sep s) as [|x l]; [repeat constructor|].
  - cbn [PyStr.contains]. rewrite (Ascii.eqb_sym sep c), E. reflexivity.
  - inversion IH as [|? ? Hx Hl]. subst. constructor; [|exact Hl].
    cbn [PyStr.contains]. rewrite (Ascii.eqb_sym sep c), E, Hx. reflexivity.
Qed.

Lemma of_str_normal s : normal (Pathlib.of_str s).
Proof.
  split.
  - cbn [Pathlib.of_str Pathlib.root]. unfold Pathlib.splitroot.
    destruct (PyStr.startswith "/" s); [|auto].
    destruct (PyStr.startswith "//" s && negb (PyStr.startswith "///" s)); auto.
  - cbn [Pathlib.of_str Pathlib.parts]. apply List.Forall_forall. intros x Hx.
    apply List.filter_In in Hx as [Hx Hp]. split; [exact Hp|].
    pose proof (split_parts "/" s) as H.
    rewrite List.Forall_forall in H. apply H, Hx.
Qed.

Lemma joinpath_normal p n : normal p -> normal (p // n).
Proof.
  intros [Hr Hp]. unfold Pathlib.joinpath.
  destruct (String.eqb (Pathlib.root (Pathlib.of_str n)) "");
    [|apply of_str_normal].
  split; [exact Hr|]. cbn [Pathlib.parts]. apply Forall_app. split; [exact Hp|].
  apply of_str_normal.
Qed.

Lemma filter_all {A} (f : A -> bool) l :
  Forall (fun x => f x = true) l -> List.filter f l = l.
Proof.
  induction 1 as [|x l Hx _ IH]; [reflexivity|]. simpl. rewrite Hx, IH. reflexivity.
Qed.

Lemma str_of_normal p : normal p -> Pathlib.of_str (Pathlib.str p) = p.
Proof.
  destruct p as [r l]. intros [Hr Hl]. cbn [Pathlib.root Pathlib.parts] in *.
  destruct l as [|x l].
  - destruct Hr as [->|[->| ->]]; reflexivity.
  - unfold Pathlib.str. cbn [Pathlib.root Pathlib.parts].
    assert (Hsplit : PyStr.split "/" (PyStr.join "/" (x :: l)) = x :: l).
    { apply split_join; [discriminate|].
      eapply Forall_impl; [exact Hl|]. intros y [_ Hy]. exact Hy. }
    assert (Hfilter : List.filter Pathlib.is_part (x :: l) = x :: l).
    { apply filter_all. eapply Forall_impl; [exact Hl|]. intros y [Hy _]. exact Hy. }
    assert (Hhead : exists c j, PyStr.join "/" (x :: l) = String c j /\
                                Ascii.eqb "/" c = false).
    { inversion Hl as [|? ? [Hx Hc] _]. subst.
      destruct x as [|c x]; [discriminate Hx|].
      cbn [PyStr.contains] in Hc. apply orb_false_iff in Hc as [Hc _].
      destruct l; [exists c, x | eexists c, _]; split; first [reflexivity | exact Hc]. }
    destruct Hhead as (c & j & Hj & Hc).
    assert (Hdec : forall (T : Type) (a b : T),
               (if ascii_dec "/" c then a else b) = b).
    { intros T a b. destruct (ascii_dec "/" c) as [<-|_]; [discriminate Hc | reflexivity]. }
    unfold Pathlib.of_str.
    destruct Hr as [->|[->| ->]].
    + change ("" +:+ ?t) with t. rewrite Hsplit, Hfilter. f_equal.
      rewrite Hj. unfold Pathlib.splitroot, PyStr.startswith.
      cbn [String.prefix]. rewrite Hdec. reflexivity.
    + change ("/" +:+ ?t) with (String "/" t).
      cbn [PyStr.split Ascii.eqb Bool.eqb]. rewrite Hsplit.
      change (List.filter Pathlib.is_part ("" :: x :: l))
        with (List.filter Pathlib.is_part (x :: l)).
      rewrite Hfilter. f_equal.
      rewrite Hj. unfold Pathlib.splitroot, PyStr.startswith.
      cbn [String.prefix]. destruct (ascii_dec "/" "/"); [|congruence].
      rewrite !Hdec. reflexivity.
    + change ("//" +:+ ?t) with (String "/" (String "/" t)).
      cbn [PyStr.split Ascii.eqb Bool.eqb]. rewrite Hsplit.
      change (List.filter Pathlib.is_part ("" :: "" :: x :: l))
        with (List.filter Pathlib.is_part (x :: l)).
      rewrite Hfilter. f_equal.
      rewrite Hj. unfold Pathlib.splitroot, PyStr.startswith.
      cbn [String.prefix]. destruct (ascii_dec "/" "/"); [|congruence].
      rewrite !Hdec. reflexivity.
Qed.

(** X19. The paths the code works with survive being written out and
    read back: a path made from a text, and any path reached from it by
    joining names to it, is the path that [Path(str(p))] gives. *)
Theorem path_text_round_trip :
  (forall s, normal (Pathlib.of_str s)) /\
  (forall p n, normal p -> normal (p // n)) /\
  (forall p, normal p -> Pathlib.of_str (Pathlib.str p) = p).
Proof.
  split; [exact of_str_normal|]. split; [exact joinpath_normal | exact str_of_normal].
Qed.

Lemma path_text_round_trip_witness :
  Pathlib.of_str (Pathlib.str (Pathlib.parent Sample.artifact // "libLLVM.so")) =
  Pathlib.parent Sample.artifact // "libLLVM.so".
Proof.
  apply (proj2 (proj2 path_text_round_trip)).
  split; [right; left; reflexivity|].
  vm_compute. repeat constructor.
Defined.
